(** * RWStl_Reader: the STL mesh reader of OCCT

    A shallow embedding of [RWStl_Reader.cxx] (format detection, the text
    and the binary block readers, the node merging tool and the [Read]
    driver), and the properties of its specification that concern them.

    Conventions of the embedding:
    - a [char] is a [Byte.byte]; its unsigned value is [code];
    - a [Standard_Integer] is a [Z] (the 32-bit facet count is decoded with
      its wrap-around written out in [int32_le]; the counters of facets
      and of lines stay below 2^31 on any file of less than 2^31 lines, and
      are not wrapped);
    - a [Standard_Real] is a binary64 [float], a [float] of the file a
      binary32 value widened to binary64;
    - the stream, the line buffer, the merging tool and the outside world
      (mesh sink, messenger, progress indicator) are threaded explicitly;
    - loops carry a fuel argument and return [None] when it runs out; the
      lemmas [ReadAscii_returns], [ReadBinary_returns] and [Read_returns]
      show that the fuel handed over by the enclosing function is always
      enough. *)

From Stdlib Require Import ZArith List Bool Lia String Floats.
From Stdlib Require Import Strings.Byte DecimalString.
From stdpp Require Import base option list gmap.
Import ListNotations.
Local Open Scope Z_scope.

(* ===================================================================== *)
(** * Characters and C strings (the "C" locale) *)
(* ===================================================================== *)

Module Cstd.

(** Unsigned value of a character, [(unsigned char) c]. *)
Definition code (c : byte) : Z := Z.of_N (Byte.to_N c).

Definition NUL : byte := x00.
Definition LF : byte := x0a.

(** [isspace]: space, and the controls from horizontal tab to carriage
    return. *)
Definition isspace (c : byte) : bool :=
  (code c =? 32) || ((9 <=? code c) && (code c <=? 13)).

(** [isalpha]: the 52 ASCII letters. *)
Definition isalpha (c : byte) : bool :=
  ((65 <=? code c) && (code c <=? 90)) || ((97 <=? code c) && (code c <=? 122)).

(** [tolower] on the unsigned value of a character. *)
Definition tolower (c : byte) : Z :=
  if (65 <=? code c) && (code c <=? 90) then code c + 32 else code c.

(** The character a pointer points to, for a C string held as the list of its characters: past the end
    of the list stands the terminator. *)
Definition deref (s : list byte) : byte :=
  match s with [] => NUL | c :: _ => c end.

(** The characters a C function sees: everything up to the first NUL. *)
Fixpoint c_str (s : list byte) : list byte :=
  match s with
  | [] => []
  | c :: s' => if code c =? 0 then [] else c :: c_str s'
  end.

(** [strncasecmp (s1, s2, n)]: difference of the first pair of
    characters that differ after case folding, looking at no more than
    [n] characters and not beyond a terminator. *)
Fixpoint strncasecmp (s1 s2 : list byte) (n : nat) : Z :=
  match n with
  | O => 0
  | S n' =>
      let c1 := tolower (deref s1) in
      let c2 := tolower (deref s2) in
      if negb (c1 =? c2) then c1 - c2
      else if c1 =? 0 then 0
      else strncasecmp (tl s1) (tl s2) n'
  end.

(** Advances a character pointer while the test [p] holds of the
    character it points to ([p] fails on the terminator). *)
Fixpoint skip_while (p : byte -> bool) (s : list byte) : list byte :=
  match s with
  | [] => []
  | c :: s' => if p c then skip_while p s' else s
  end.

End Cstd.

(* ===================================================================== *)
(** * std::istream over the bytes of a file *)
(* ===================================================================== *)

Module IStream.

(** The controlled sequence, the get position and the state flags.
    [rdbuf] never changes: the file is only read. *)
Record istream : Type := mk_istream {
  rdbuf : list byte;
  gpos : nat;
  eofbit : bool;
  failbit : bool;
  badbit : bool
}.

(** A stream just opened on a file. *)
Definition open (data : list byte) : istream :=
  mk_istream data 0 false false false.

Definition good (s : istream) : bool :=
  negb (eofbit s || failbit s || badbit s).
Definition fail (s : istream) : bool := failbit s || badbit s.
Definition bad (s : istream) : bool := badbit s.

Definition set_gpos (s : istream) (p : nat) : istream :=
  mk_istream (rdbuf s) p (eofbit s) (failbit s) (badbit s).
Definition set_eofbit (s : istream) (b : bool) : istream :=
  mk_istream (rdbuf s) (gpos s) b (failbit s) (badbit s).
Definition set_failbit (s : istream) : istream :=
  mk_istream (rdbuf s) (gpos s) (eofbit s) true (badbit s).
Definition set_badbit (s : istream) : istream :=
  mk_istream (rdbuf s) (gpos s) (eofbit s) (failbit s) true.

(** The characters not yet extracted. *)
Definition rest (s : istream) : list byte := drop (gpos s) (rdbuf s).

(** What further extraction can deliver: nothing once the stream has
    left the good state. *)
Definition avail (s : istream) : list byte :=
  if good s then rest s else [].

(** [read (buf, n)]: an unformatted input function.  On a stream that
    is not good the sentry sets [failbit] and nothing is extracted;
    otherwise up to [n] characters are extracted, and meeting the end
    of the sequence first sets [eofbit] and [failbit].  The result is
    the characters stored, whose number is [gcount ()]. *)
Definition read (s : istream) (n : nat) : list byte * istream :=
  if good s then
    let got := take n (rest s) in
    let s1 := set_gpos s (gpos s + length got)%nat in
    if (length got <? n)%nat
    then (got, set_failbit (set_eofbit s1 true))
    else (got, s1)
  else ([], set_failbit s).

(** [unget ()]: clears [eofbit], then steps the get position back by
    one; with nothing to step back over, [badbit] is set. *)
Definition unget (s : istream) : istream :=
  let s0 := set_eofbit s false in
  if good s0 then
    match gpos s0 with
    | O => set_badbit s0
    | S p => set_gpos s0 p
    end
  else set_failbit s0.

(** [s >> std::ws]: extracts white space; running out of characters
    sets [eofbit] and not [failbit]. *)
Definition ws (s : istream) : istream :=
  if good s then
    let r := Cstd.skip_while Cstd.isspace (rest s) in
    let s1 := set_gpos s (length (rdbuf s) - length r)%nat in
    match r with
    | [] => set_eofbit s1 true
    | _ :: _ => s1
    end
  else set_failbit s.

(** [tellg ()]: the get position, or -1 on a failed stream (a stream
    that is not good is failed by the sentry). *)
Definition tellg (s : istream) : Z * istream :=
  if good s then (Z.of_nat (gpos s), s) else (-1, set_failbit s).

End IStream.

(* ===================================================================== *)
(** * Standard_ReadLineBuffer *)
(* ===================================================================== *)

Module Standard_ReadLineBuffer.
Import IStream.

(** Modelled from the spec: [Standard_ReadLineBuffer] (its header is
    not among the sources).  "Lines are read through a reusable line
    buffer": the buffer is built with "the length of buffer to read (in
    bytes)" and fills itself from the stream by [read] calls of that
    length; [ReadLine] hands out the characters up to the next line
    feed, with the line feed replaced by the terminator, and a null
    pointer when the end of the stream is met with nothing left to
    hand out.  A last line without a line feed is handed out as it is.
    [myReadBuffer] is the part of the last chunk not handed out yet. *)
Record t : Type := mk {
  myMaxBufferSize : nat;
  myReadBuffer : list byte
}.

Definition create (theMaxBufferSizeBytes : nat) : t :=
  mk theMaxBufferSizeBytes [].

(** Splits a text at its first line feed. *)
Fixpoint split_eol (txt : list byte) : option (list byte * list byte) :=
  match txt with
  | [] => None
  | c :: txt' =>
      if Cstd.code c =? 10 then Some ([], txt')
      else match split_eol txt' with
           | Some (l, r) => Some (c :: l, r)
           | None => None
           end
  end.

(** Modelled from the spec: the body of [ReadLine] (not among the
    sources).  [chunk] is what is left of the current chunk and [acc]
    the unfinished line carried over from the chunks before; a chunk
    without a line feed is followed by a [read] of the next one. *)
Fixpoint ReadLine_chunks (fuel : nat) (size : nat) (s : istream)
    (chunk acc : list byte) : option (list byte) * istream * list byte :=
  match split_eol chunk with
  | Some (l, r) => (Some (acc ++ l), s, r)
  | None =>
      match fuel with
      | O => (None, s, [])
      | S fuel' =>
          let '(got, s') := read s size in
          if bad s' then (None, s', [])
          else
            match got with
            | [] =>
                match acc ++ chunk with
                | [] => (None, s', [])
                | last => (Some last, s', [])
                end
            | _ :: _ => ReadLine_chunks fuel' size s' got (acc ++ chunk)
            end
      end
  end.

(** Modelled from the spec: [theBuffer.ReadLine (theStream,
    theLineLength)] (not among the sources), the next line or a null
    pointer. *)
Definition ReadLine (s : istream) (b : t)
    : option (list byte) * istream * t :=
  let '(l, s', r) :=
    ReadLine_chunks (S (length (avail s))) (myMaxBufferSize b) s
      (myReadBuffer b) [] in
  (l, s', mk (myMaxBufferSize b) r).

(** The text the lines to come are cut from. *)
Definition pending (s : istream) (b : t) : list byte :=
  myReadBuffer b ++ avail s.

End Standard_ReadLineBuffer.

(* ===================================================================== *)
(** * Numbers of the file and of the platform *)
(* ===================================================================== *)

(** The four bytes at a pointer, least significant first, as
    [readStlFloat] assembles them on a big-endian platform; on a
    little-endian platform the plain cast of the pointer reads the same
    value. *)
Definition uint32_le (theData : list byte) : Z :=
  let b (k : nat) := Z.land (Cstd.code (nth k theData Cstd.NUL)) 0xFF in
  Z.lor (Z.lor (Z.lor (b 0%nat) (Z.shiftl (b 1%nat) 0x08))
                (Z.shiftl (b 2%nat) 0x10))
        (Z.shiftl (b 3%nat) 0x18).

(** The same four bytes as an [int32_t]. *)
Definition int32_le (theData : list byte) : Z :=
  let u := uint32_le theData in
  if u <? 2 ^ 31 then u else u - 2 ^ 32.

(** The binary32 value of a 32-bit pattern, widened to binary64 (the
    widening is exact). *)
Definition float_of_bits32 (i : Z) : float :=
  let e := Z.land (Z.shiftr i 23) 0xFF in
  let m := Z.land i 0x7FFFFF in
  let mag :=
    if e =? 255 then (if m =? 0 then infinity else nan)
    else if e =? 0 then Z.ldexp (PrimFloat.of_uint63 (Uint63.of_Z m)) (-149)
    else Z.ldexp (PrimFloat.of_uint63 (Uint63.of_Z (m + 2 ^ 23))) (e - 150) in
  if Z.testbit i 31 then (- mag)%float else mag.

(** Read a Little Endian 32 bits float *)
Definition readStlFloat (theData : list byte) : float :=
  float_of_bits32 (uint32_le theData).

(** [gp_XYZ]: three reals. *)
Record gp_XYZ : Type := mk_XYZ {
  XYZ_X : float;
  XYZ_Y : float;
  XYZ_Z : float
}.

Definition XYZ_sub (p q : gp_XYZ) : gp_XYZ :=
  mk_XYZ (XYZ_X p - XYZ_X q)%float (XYZ_Y p - XYZ_Y q)%float
         (XYZ_Z p - XYZ_Z q)%float.

Definition SquareModulus (p : gp_XYZ) : float :=
  (XYZ_X p * XYZ_X p + XYZ_Y p * XYZ_Y p + XYZ_Z p * XYZ_Z p)%float.

(** Read a Little Endian 32 bits float *)
Definition readStlFloatVec3 (theData : list byte) : gp_XYZ :=
  mk_XYZ (readStlFloat theData)
         (readStlFloat (drop 4 theData))
         (readStlFloat (drop (4 * 2) theData)).

Module Precision.
(** Modelled from the spec: [Precision] (not among the sources), "the
    platform's geometric confusion tolerance, e.g. 1e-14 in squared
    units": the confusion tolerance is the binary64 value nearest to
    1e-7, the squared one its product with itself. *)
Definition Confusion : float := 0x1.ad7f29abcaf48p-24%float.
Definition SquareConfusion : float := (Confusion * Confusion)%float.
End Precision.

(** The constants of [math.h], as binary64 values. *)
Definition M_LN10 : float := 0x1.26bb1bbb55516p+1%float.
Definition M_PI : float := 0x1.921fb54442d18p+1%float.
Definition M_E : float := 0x1.5bf0a8b145769p+1%float.

(** Routines of the platform library that the reader calls and that are
    not among the sources.
    - [Strtod str]: the value converted from the front of [str] and the
      number of characters the conversion went over, 0 when no
      conversion could be made (the end pointer is then the start
      pointer).
    - [Standard_Real_HashCode r theUpperBound]: the global [HashCode] of
      a real. *)
Class Standard : Type := {
  Strtod : list byte -> float * nat;
  Standard_Real_HashCode : float -> Z -> Z
}.

(** The two callbacks of the abstract reader class, which the class that
    builds the mesh implements over a state of its own. *)
Class RWStl_Reader (Sink : Type) : Type := {
  AddNode : Sink -> gp_XYZ -> Z * Sink;
  AddTriangle : Sink -> Z -> Z -> Z -> Sink
}.

(** The progress indicator behind the progress scopes: [UserBreak n] is
    its answer to the [n]-th inquiry about a break requested by the user. *)
Class Message_ProgressIndicator : Type := {
  UserBreak : nat -> bool
}.

(* ===================================================================== *)
(** * NCollection_DataMap *)
(* ===================================================================== *)

Module NCollection_DataMap.
Section DataMap.
Context {TheKeyType TheItemType : Type}.
(** The hasher: the third template argument. *)
Context (Hasher_HashCode : TheKeyType -> Z -> Z).
Context (Hasher_IsEqual : TheKeyType -> TheKeyType -> bool).

(** Modelled from the spec: [NCollection_DataMap] (not among the
    sources), "a hash table of fixed initial capacity; collisions
    resolved by bucket chaining with exact tolerance comparison".
    [myData1] maps the number of a bucket to its chain, newest node
    first; a bucket without an entry is empty.  The table is not
    grown. *)
Record t : Type := mk {
  myNbBuckets : Z;
  myData1 : gmap Z (list (TheKeyType * TheItemType))
}.

Definition create (theNbBuckets : Z) : t := mk theNbBuckets ∅.

(** The chain of the bucket a key is hashed to. *)
Definition chain_of (m : t) (theKey : TheKeyType)
    : list (TheKeyType * TheItemType) :=
  default [] (myData1 m !! Hasher_HashCode theKey (myNbBuckets m)).

(** The first node of a chain whose key the hasher takes as equal. *)
Fixpoint find_node (chain : list (TheKeyType * TheItemType))
    (theKey : TheKeyType) : option TheItemType :=
  match chain with
  | [] => None
  | (k, v) :: chain' =>
      if Hasher_IsEqual k theKey then Some v else find_node chain' theKey
  end.

(** Modelled from the spec: [Find] (not among the sources) looks for
    the key in the chain of its bucket only. *)
Definition Find (m : t) (theKey : TheKeyType) : option TheItemType :=
  find_node (chain_of m theKey) theKey.

(** Modelled from the spec: [Bind] (not among the sources) of a key
    that [Find] has not found, a new node at the head of its chain. *)
Definition Bind (m : t) (theKey : TheKeyType) (theItem : TheItemType) : t :=
  mk (myNbBuckets m)
     (<[ Hasher_HashCode theKey (myNbBuckets m)
         := (theKey, theItem) :: chain_of m theKey ]> (myData1 m)).

End DataMap.
End NCollection_DataMap.

(* ===================================================================== *)
(** * The world outside the reader *)
(* ===================================================================== *)

(** What the reader does to its collaborators, in the order it does it:
    the nodes it registers (with the index handed back), the triangles
    it registers, and the failure messages it sends. *)
Inductive Event : Type :=
| EvAddNode (thePnt : gp_XYZ) (theIndex : Z)
| EvAddTriangle (theN1 theN2 theN3 : Z)
| EvSendFail (theMessage : string).

(** [TCollection_AsciiString (theText) + theValue]. *)
Definition AsciiString_plus (theText : string) (theValue : Z) : string :=
  (theText ++ DecimalString.NilZero.string_of_int (Z.to_int theValue))%string.

Section World.
Context {Sink : Type} {Mesh : RWStl_Reader Sink}.
Context {Indicator : Message_ProgressIndicator}.

(** The state of the mesh builder, the trace of the events so far and
    the number of inquiries made to the progress indicator. *)
Record World : Type := mk_World {
  sink : Sink;
  trace : list Event;
  polls : nat
}.

(** [myReader->AddNode (aPnt)] *)
Definition reader_AddNode (w : World) (thePnt : gp_XYZ) : Z * World :=
  let '(anIndex, k) := AddNode (sink w) thePnt in
  (anIndex,
   mk_World k (trace w ++ [EvAddNode thePnt anIndex]) (polls w)).

(** [AddTriangle (n1, n2, n3)] *)
Definition reader_AddTriangle (w : World) (n1 n2 n3 : Z) : World :=
  mk_World (AddTriangle (sink w) n1 n2 n3)
           (trace w ++ [EvAddTriangle n1 n2 n3]) (polls w).

(** [Message::SendFail (theMessage)] *)
Definition SendFail (w : World) (theMessage : string) : World :=
  mk_World (sink w) (trace w ++ [EvSendFail theMessage]) (polls w).

(** [aPS.More ()]: no break requested by the user. *)
Definition PS_More (w : World) : bool * World :=
  (negb (UserBreak (polls w)),
   mk_World (sink w) (trace w) (S (polls w))).

(** [aPS.Next ()]: the step goes to the display of the indicator, of
    which the world keeps no record. *)
Definition PS_Next (w : World) : World := w.

End World.

Arguments World Sink : clear implicits.
Arguments mk_World {Sink} _ _ _.

(* ===================================================================== *)
(** * MergeNodeTool *)
(* ===================================================================== *)

(** Auxiliary tool for merging nodes during STL reading. *)
Module MergeNodeTool.
Section MergeNodeTool.
Context {Sink : Type} {Mesh : RWStl_Reader Sink} {Std : Standard}.
Context {Indicator : Message_ProgressIndicator}.

Definition IsEqual (thePnt1 thePnt2 : gp_XYZ) : bool :=
  (SquareModulus (XYZ_sub thePnt1 thePnt2) <? Precision.SquareConfusion)%float.

(** Computes a hash code for the point, in the range [1, theUpperBound] *)
Definition HashCode (thePoint : gp_XYZ) (theUpperBound : Z) : Z :=
  Standard_Real_HashCode
    (XYZ_X thePoint * M_LN10 + XYZ_Y thePoint * M_PI + XYZ_Z thePoint * M_E)%float
    theUpperBound.

(** [myReader] is the world; [myMap] is built with 1024 buckets. *)
Record t : Type := mk {
  myMap : NCollection_DataMap.t (TheKeyType := gp_XYZ) (TheItemType := Z)
}.

Definition create : t := mk (NCollection_DataMap.create 1024).

Definition Find (m : t) (thePnt : gp_XYZ) : option Z :=
  NCollection_DataMap.Find HashCode IsEqual (myMap m) thePnt.

Definition Bind (m : t) (thePnt : gp_XYZ) (theIndex : Z) : t :=
  mk (NCollection_DataMap.Bind HashCode (myMap m) thePnt theIndex).

(** Add new triangle *)
Definition AddNode (m : t) (w : World Sink) (theX theY theZ : float)
    : Z * t * World Sink :=
  (* use existing node if found at the same point *)
  let aPnt := mk_XYZ theX theY theZ in
  match Find m aPnt with
  | Some anIndex => (anIndex, m, w)
  | None =>
      let '(anIndex, w') := reader_AddNode w aPnt in
      (anIndex, Bind m aPnt anIndex, w')
  end.

End MergeNodeTool.
End MergeNodeTool.

(* ===================================================================== *)
(** * RWStl_Reader *)
(* ===================================================================== *)

(** Binary STL sizes *)
Definition THE_STL_HEADER_SIZE : nat := 84.
Definition THE_STL_SIZEOF_FACET : nat := 50.
Definition THE_STL_MIN_FILE_SIZE : nat :=
  (THE_STL_HEADER_SIZE + THE_STL_SIZEOF_FACET)%nat.

(** The length of buffer to read (in bytes) *)
Definition THE_BUFFER_SIZE : nat := 1024.

(** How a pass through the body of a loop ends: at the end of the body,
    by [break], or by [return]. *)
Inductive Flow (A : Type) : Type :=
| Continue (st : A)
| Break (st : A)
| Return (theResult : bool) (st : A).
Arguments Continue {A} _.
Arguments Break {A} _.
Arguments Return {A} _ _.

Definition str_starts_with (theStr theWord : list byte) (theN : nat) : bool :=
  let theStr' :=
    Cstd.skip_while
      (fun c => Cstd.isspace c && negb (Cstd.code c =? 0)) theStr in
  Cstd.strncasecmp theStr' theWord theN =? 0.

Section Reader.
Context {Sink : Type} {Mesh : RWStl_Reader Sink} {Std : Standard}.
Context {Indicator : Message_ProgressIndicator}.
Import IStream.

Definition ReadVertex (theStr : list byte) : bool * gp_XYZ :=
  (* skip 'vertex' *)
  let aStr :=
    Cstd.skip_while (fun c => Cstd.isspace c || Cstd.isalpha c) theStr in
  (* read values *)
  let '(theX, n1) := Strtod (Cstd.c_str aStr) in
  let aStr1 := drop n1 aStr in
  let '(theY, n2) := Strtod (Cstd.c_str aStr1) in
  let aStr2 := drop n2 aStr1 in
  let '(theZ, n3) := Strtod (Cstd.c_str aStr2) in
  (negb (n3 =? 0)%nat, mk_XYZ theX theY theZ).

(** The scan of the probed bytes: [false] at the first one above ['~']. *)
Fixpoint IsAscii_scan (aBuffer : list byte) : bool :=
  match aBuffer with
  | [] => true
  | c :: aBuffer' =>
      if Cstd.code c >? Cstd.code "~"%byte then false
      else IsAscii_scan aBuffer'
  end.

Definition IsAscii (theStream : istream) (w : World Sink)
    : bool * istream * World Sink :=
  (* read first 134 bytes to detect file format *)
  let '(aBuffer, s1) := read theStream THE_STL_MIN_FILE_SIZE in
  let aNbRead := length aBuffer in
  if fail s1 then (true, s1, SendFail w "Error: Cannot read file")
  else
    (* put back the read symbols *)
    let s2 := Nat.iter aNbRead unget s1 in
    (* if file is shorter than size of binary file with 1 facet, it must
       be ascii *)
    if (aNbRead <? THE_STL_MIN_FILE_SIZE)%nat then (true, s2, w)
    else (IsAscii_scan aBuffer, s2, w).

(** The shared tail of the two facet loops: the three vertices go
    through the merging tool, and the triangle is registered when the
    three indices differ from one another. *)
Definition add_triangle (mt : MergeNodeTool.t) (w : World Sink)
    (aP1 aP2 aP3 : gp_XYZ) : MergeNodeTool.t * World Sink :=
  let '(n1, mt1, w1) :=
    MergeNodeTool.AddNode mt w (XYZ_X aP1) (XYZ_Y aP1) (XYZ_Z aP1) in
  let '(n2, mt2, w2) :=
    MergeNodeTool.AddNode mt1 w1 (XYZ_X aP2) (XYZ_Y aP2) (XYZ_Z aP2) in
  let '(n3, mt3, w3) :=
    MergeNodeTool.AddNode mt2 w2 (XYZ_X aP3) (XYZ_Y aP3) (XYZ_Z aP3) in
  if negb (n1 =? n2) && negb (n2 =? n3) && negb (n3 =? n1)
  then (mt3, reader_AddTriangle w3 n1 n2 n3)
  else (mt3, w3).

(** ** ReadAscii *)

(** The variables of [ReadAscii] that live across its loop. *)
Record AsciiLoop : Type := mk_AsciiLoop {
  al_stream : istream;
  al_buffer : Standard_ReadLineBuffer.t;
  al_tool : MergeNodeTool.t;
  al_world : World Sink;
  aProgressPos : Z;
  aNbLine : Z
}.

(** How the loop over the three vertex lines ends. *)
Inductive VertexLoop : Type :=
| VL_Done (aVertex : list gp_XYZ) (s : istream) (b : Standard_ReadLineBuffer.t)
| VL_EOF (s : istream) (b : Standard_ReadLineBuffer.t)
| VL_Error (s : istream) (b : Standard_ReadLineBuffer.t).

Fixpoint read_vertices (n : nat) (s : istream)
    (b : Standard_ReadLineBuffer.t) (aVertex : list gp_XYZ) : VertexLoop :=
  match n with
  | O => VL_Done aVertex s b
  | S n' =>
      match Standard_ReadLineBuffer.ReadLine s b with
      | (None, s', b') => VL_EOF s' b'
      | (Some aLine, s', b') =>
          let '(ok, aReadVertex) := ReadVertex aLine in
          if ok then read_vertices n' s' b' (aVertex ++ [aReadVertex])
          else VL_Error s' b'
      end
  end.

Definition aStepB : Z := 1024 * 1024.

Definition msg_premature : string := "Error: premature end of file".
Definition msg_facet : string := "Error: unexpected format of facet at line ".
Definition msg_vertex : string :=
  "Error: cannot read vertex co-ordinates at line ".

Definition kw_endsolid : list byte := list_byte_of_string "endsolid".
Definition kw_facet : list byte := list_byte_of_string "facet".
Definition kw_outer : list byte := list_byte_of_string "outer".

(** One pass through the body of the loop of [ReadAscii]. *)
Definition ReadAscii_body (st : AsciiLoop) : Flow AsciiLoop :=
  let '(aPos, s1) := tellg (al_stream st) in
  let '(w1, aProgressPos1) :=
    if aPos >? aProgressPos st
    then (PS_Next (al_world st), aProgressPos st + aStepB)
    else (al_world st, aProgressPos st) in
  let mt := al_tool st in
  let n := aNbLine st in
  (* "facet normal nx ny nz" *)
  match Standard_ReadLineBuffer.ReadLine s1 (al_buffer st) with
  | (None, s2, b2) =>
      Return false
        (mk_AsciiLoop s2 b2 mt (SendFail w1 msg_premature) aProgressPos1 n)
  | (Some aLine, s2, b2) =>
      if str_starts_with aLine kw_endsolid 8 then
        (* end of STL code *)
        Break (mk_AsciiLoop s2 b2 mt w1 aProgressPos1 n)
      else if negb (str_starts_with aLine kw_facet 5) then
        Return false
          (mk_AsciiLoop s2 b2 mt
             (SendFail w1 (AsciiString_plus msg_facet (n + 1)))
             aProgressPos1 n)
      else
        (* "outer loop" *)
        let '(aLine2, s3, b3) := Standard_ReadLineBuffer.ReadLine s2 b2 in
        if match aLine2 with
           | None => true
           | Some l => negb (str_starts_with l kw_outer 5)
           end
        then
          Return false
            (mk_AsciiLoop s3 b3 mt
               (SendFail w1 (AsciiString_plus msg_facet (n + 1)))
               aProgressPos1 n)
        else
          match read_vertices 3 s3 b3 [] with
          | VL_Error s4 b4 =>
              Return false
                (mk_AsciiLoop s4 b4 mt
                   (SendFail w1 (AsciiString_plus msg_vertex n))
                   aProgressPos1 n)
          | VL_EOF s4 b4 =>
              (* stop reading if end of file is reached;
                 note that well-formatted file never ends by the vertex
                 line *)
              Break (mk_AsciiLoop s4 b4 mt w1 aProgressPos1 n)
          | VL_Done aVertex s4 b4 =>
              let n5 := n + 5 in
              let zero := mk_XYZ 0 0 0 in
              (* add triangle *)
              let '(mt', w2) :=
                add_triangle mt w1 (nth 0 aVertex zero) (nth 1 aVertex zero)
                  (nth 2 aVertex zero) in
              (* skip "endloop" *)
              let '(_, s5, b5) := Standard_ReadLineBuffer.ReadLine s4 b4 in
              (* skip "endfacet" *)
              let '(_, s6, b6) := Standard_ReadLineBuffer.ReadLine s5 b5 in
              Continue (mk_AsciiLoop s6 b6 mt' w2 aProgressPos1 (n5 + 2))
          end
  end.

(** [aPS.More ()] in [ReadAscii]. *)
Definition ReadAscii_More (st : AsciiLoop) : bool * AsciiLoop :=
  let '(more, w) := PS_More (al_world st) in
  (more,
   mk_AsciiLoop (al_stream st) (al_buffer st) (al_tool st) w
     (aProgressPos st) (aNbLine st)).

(** [while (aPS.More ()) { ... } return aPS.More ();] *)
Fixpoint ReadAscii_while (fuel : nat) (st : AsciiLoop)
    : option (bool * AsciiLoop) :=
  match fuel with
  | O => None
  | S fuel' =>
      let '(more, st1) := ReadAscii_More st in
      if more then
        match ReadAscii_body st1 with
        | Continue st2 => ReadAscii_while fuel' st2
        | Break st2 => Some (ReadAscii_More st2)
        | Return r st2 => Some (r, st2)
        end
      else Some (ReadAscii_More st1)
  end.

(** [theUntilPos] only sizes the progress scope. *)
Definition ReadAscii (theStream : istream)
    (theBuffer : Standard_ReadLineBuffer.t) (theUntilPos : Z)
    (w : World Sink)
    : option (bool * istream * Standard_ReadLineBuffer.t * World Sink) :=
  let '(aStartPos, s0) := tellg theStream in
  (* skip header "solid ..." *)
  match Standard_ReadLineBuffer.ReadLine s0 theBuffer with
  | (None, s1, b1) => Some (false, s1, b1, SendFail w msg_premature)
  | (Some _, s1, b1) =>
      let aMergeTool := MergeNodeTool.create in
      (* report progress every 1 MiB of read data *)
      let st :=
        mk_AsciiLoop s1 b1 aMergeTool w (aStartPos + aStepB) 1 in
      match
        ReadAscii_while
          (S (length (Standard_ReadLineBuffer.pending s1 b1))) st
      with
      | None => None
      | Some (r, st') =>
          Some (r, al_stream st', al_buffer st', al_world st')
      end
  end.

(** ** ReadBinary *)

(** The variables of [ReadBinary] that live across its loop; [aBuffer]
    holds the chunk read last and [aBufferPtr] is an offset into it. *)
Record BinaryLoop : Type := mk_BinaryLoop {
  bl_stream : istream;
  bl_tool : MergeNodeTool.t;
  bl_world : World Sink;
  aNbFacetRead : Z;
  aNbRead : Z;
  aNbFacesInBuffer : Z;
  aBuffer : list byte;
  aBufferPtr : nat
}.

Definition msg_corrupted : string := "Error: Corrupted binary STL file".
Definition msg_read_failed : string := "Error: binary STL read failed".

(** allocate buffer for 80 triangles *)
Definition THE_CHUNK_NBFACETS : Z := 80.
(** normal + 3 nodes + 2 extra bytes *)
Definition aVec3Size : nat := 4 * 3.
Definition aFaceDataLen : nat := aVec3Size * 4 + 2.

(** One pass through the body of the loop of [ReadBinary]. *)
Definition ReadBinary_body (aNbFacets : Z) (st : BinaryLoop)
    : Flow BinaryLoop :=
  let refill :=
    (* read more data *)
    if aNbFacesInBuffer st <=? 0 then
      let n := Z.min THE_CHUNK_NBFACETS (aNbFacets - aNbFacetRead st) in
      let aDataToRead := n * Z.of_nat aFaceDataLen in
      let '(got, s') := read (bl_stream st) (Z.to_nat aDataToRead) in
      if negb (Z.of_nat (length got) =? aDataToRead) then
        Return false
          (mk_BinaryLoop s' (bl_tool st)
             (SendFail (bl_world st) msg_read_failed)
             (aNbFacetRead st) (aNbRead st) n (aBuffer st) (aBufferPtr st))
      else
        Continue
          (mk_BinaryLoop s' (bl_tool st) (bl_world st)
             (aNbFacetRead st) (aNbRead st) n got 0)
    else Continue st in
  match refill with
  | Continue st1 =>
      (* get points from buffer *)
      let p := drop (aBufferPtr st1) (aBuffer st1) in
      let aP1 := readStlFloatVec3 (drop aVec3Size p) in
      let aP2 := readStlFloatVec3 (drop (aVec3Size * 2) p) in
      let aP3 := readStlFloatVec3 (drop (aVec3Size * 3) p) in
      (* add triangle *)
      let '(mt', w') :=
        add_triangle (bl_tool st1) (bl_world st1) aP1 aP2 aP3 in
      Continue
        (mk_BinaryLoop (bl_stream st1) mt' w' (aNbFacetRead st1)
           (aNbRead st1) (aNbFacesInBuffer st1) (aBuffer st1)
           (aBufferPtr st1))
  | other => other
  end.

(** The increment of the loop:
    [++aNbFacetRead, ++aNbRead, --aNbFacesInBuffer,
     aBufferPtr += aFaceDataLen, aPS.Next ()]. *)
Definition ReadBinary_incr (st : BinaryLoop) : BinaryLoop :=
  mk_BinaryLoop (bl_stream st) (bl_tool st) (PS_Next (bl_world st))
    (aNbFacetRead st + 1) (aNbRead st + 1) (aNbFacesInBuffer st - 1)
    (aBuffer st) (aBufferPtr st + aFaceDataLen)%nat.

(** [aPS.More ()] in [ReadBinary]. *)
Definition ReadBinary_More (st : BinaryLoop) : bool * BinaryLoop :=
  let '(more, w) := PS_More (bl_world st) in
  (more,
   mk_BinaryLoop (bl_stream st) (bl_tool st) w (aNbFacetRead st)
     (aNbRead st) (aNbFacesInBuffer st) (aBuffer st) (aBufferPtr st)).

(** [for (...; aNbFacetRead < aNbFacets && aPS.More (); ...) { ... }
    return aPS.More ();] *)
Fixpoint ReadBinary_for (fuel : nat) (aNbFacets : Z) (st : BinaryLoop)
    : option (bool * BinaryLoop) :=
  match fuel with
  | O => None
  | S fuel' =>
      if aNbFacetRead st <? aNbFacets then
        let '(more, st1) := ReadBinary_More st in
        if more then
          match ReadBinary_body aNbFacets st1 with
          | Continue st2 =>
              ReadBinary_for fuel' aNbFacets (ReadBinary_incr st2)
          | Break st2 => Some (ReadBinary_More st2)
          | Return r st2 => Some (r, st2)
          end
        else Some (ReadBinary_More st1)
      else Some (ReadBinary_More st)
  end.

Definition ReadBinary (theStream : istream) (w : World Sink)
    : option (bool * istream * World Sink) :=
  (* read file header at first *)
  let '(aHeader, s1) := read theStream THE_STL_HEADER_SIZE in
  if negb (length aHeader =? THE_STL_HEADER_SIZE)%nat then
    Some (false, s1, SendFail w msg_corrupted)
  else
    (* number of facets is stored as 32-bit integer at position 80 *)
    let aNbFacets := int32_le (drop 80 aHeader) in
    let aMergeTool := MergeNodeTool.create in
    let st := mk_BinaryLoop s1 aMergeTool w 0 0 0 [] 0 in
    match ReadBinary_for (S (length (avail s1))) aNbFacets st with
    | None => None
    | Some (r, st') => Some (r, bl_stream st', bl_world st')
    end.

(** ** Read *)

(** [while (aStream.good ()) { ... } return ! aStream.fail ();] *)
Fixpoint Read_while (fuel : nat) (isAscii : bool) (theEnd : Z)
    (aStream : istream) (aBuffer : Standard_ReadLineBuffer.t)
    (w : World Sink) : option (bool * World Sink) :=
  match fuel with
  | O => None
  | S fuel' =>
      if good aStream then
        if isAscii then
          match ReadAscii aStream aBuffer theEnd w with
          | None => None
          | Some (ok, s', b', w') =>
              if negb ok then Some (negb (fail s'), w')
              else
                (* skip any white spaces *)
                Read_while fuel' isAscii theEnd (ws s') b' w'
          end
        else
          match ReadBinary aStream w with
          | None => None
          | Some (ok, s', w') =>
              if negb ok then Some (negb (fail s'), w')
              else Read_while fuel' isAscii theEnd (ws s') aBuffer w'
          end
      else Some (negb (fail aStream), w)
  end.

(** The detection of the format in [Read]:
    [isAscii = ((size_t)theEnd < THE_STL_MIN_FILE_SIZE || IsAscii (aStream))]. *)
Definition Read_detect (theEnd : nat) (aStream : istream) (w : World Sink)
    : bool * istream * World Sink :=
  (* binary STL files cannot be shorter than 134 bytes
     (80 bytes header + 4 bytes facet count + 50 bytes for one facet);
     thus assume files shorter than 134 as Ascii without probing
     (probing may bring stream to fail state if EOF is reached) *)
  if (theEnd <? THE_STL_MIN_FILE_SIZE)%nat then (true, aStream, w)
  else IsAscii aStream w.

(** [theFile] is the content of the file the path names, [None] when
    the file cannot be opened. *)
Definition Read (theFile : option (list byte)) (w : World Sink)
    : option (bool * World Sink) :=
  match theFile with
  | None => Some (false, w)
  | Some data =>
      let aStream := open data in
      (* get length of file to feed progress indicator in Ascii mode *)
      let theEnd := length data in
      let '(isAscii, aStream1, w1) := Read_detect theEnd aStream w in
      let aBuffer := Standard_ReadLineBuffer.create THE_BUFFER_SIZE in
      Read_while (S (length data)) isAscii (Z.of_nat theEnd) aStream1
        aBuffer w1
  end.

End Reader.

Arguments AsciiLoop Sink : clear implicits.
Arguments BinaryLoop Sink : clear implicits.

(* ===================================================================== *)
(** * Vocabulary of the statements *)
(* ===================================================================== *)

(** ** Events *)

Definition is_AddNode (e : Event) : bool :=
  match e with EvAddNode _ _ => true | _ => false end.
Definition is_AddTriangle (e : Event) : bool :=
  match e with EvAddTriangle _ _ _ => true | _ => false end.
Definition is_SendFail (e : Event) : bool :=
  match e with EvSendFail _ => true | _ => false end.

(** The number of events of a kind in a trace. *)
Definition count_events (kind : Event -> bool) (evs : list Event) : nat :=
  length (List.filter kind evs).

(** The indices the sink has handed back, in a trace. *)
Fixpoint returned (evs : list Event) : list Z :=
  match evs with
  | [] => []
  | EvAddNode _ i :: evs' => i :: returned evs'
  | _ :: evs' => returned evs'
  end.

(** Every triangle of a trace is made of indices that the sink has
    handed back earlier in the same trace. *)
Definition triangles_registered (evs : list Event) : Prop :=
  forall pre n1 n2 n3 post,
    evs = pre ++ EvAddTriangle n1 n2 n3 :: post ->
    In n1 (returned pre) /\ In n2 (returned pre) /\ In n3 (returned pre).

(** ** Texts and lines *)

Definition no_lf (l : list byte) : bool :=
  forallb (fun c => negb (Cstd.code c =? 10)) l.

(** The text made of lines, each closed by a line feed. *)
Definition unlines (ls : list (list byte)) : list byte :=
  concat (map (fun l => l ++ [Cstd.LF]) ls).

(** The next line of a text and the text after it: what [ReadLine]
    hands out of the text still pending. *)
Definition next_line (txt : list byte) : option (list byte) * list byte :=
  match Standard_ReadLineBuffer.split_eol txt with
  | Some (l, r) => (Some l, r)
  | None => (match txt with [] => None | _ :: _ => Some txt end, [])
  end.

(** A stream and a line buffer fit for reading lines: no loss of
    integrity of the stream, and a buffer that has room. *)
Definition ready (s : IStream.istream) (b : Standard_ReadLineBuffer.t) : Prop :=
  IStream.bad s = false /\ (0 < Standard_ReadLineBuffer.myMaxBufferSize b)%nat.

(** The seven lines of a facet in a text. *)
Record FacetText : Type := mk_FacetText {
  ft_facet : list byte;
  ft_outer : list byte;
  ft_vertex1 : list byte;
  ft_vertex2 : list byte;
  ft_vertex3 : list byte;
  ft_endloop : list byte;
  ft_endfacet : list byte
}.

Definition facet_lines (f : FacetText) : list (list byte) :=
  [ft_facet f; ft_outer f; ft_vertex1 f; ft_vertex2 f; ft_vertex3 f;
   ft_endloop f; ft_endfacet f].

(** The vertices of a facet: three points. *)
Definition Facet : Type := (gp_XYZ * gp_XYZ * gp_XYZ)%type.

(** ** Binary records *)

(** The three vertices of the facet record at a pointer. *)
Definition facet_of_record (p : list byte) : Facet :=
  (readStlFloatVec3 (drop 12 p), readStlFloatVec3 (drop 24 p),
   readStlFloatVec3 (drop 36 p)).

(** The first [n] facet records of a byte sequence. *)
Fixpoint facets_of (n : nat) (bytes : list byte) : list Facet :=
  match n with
  | O => []
  | S n' => facet_of_record bytes :: facets_of n' (drop 50 bytes)
  end.

Section Vocabulary.
Context {Sink : Type} {Mesh : RWStl_Reader Sink} {Std : Standard}.
Context {Indicator : Message_ProgressIndicator}.

(** The user asks for no break. *)
Definition never_breaks : Prop := forall n, UserBreak n = false.

(** A world with another number of inquiries. *)
Definition with_polls (n : nat) (w : World Sink) : World Sink :=
  mk_World (sink w) (trace w) n.

(** The facet loops, seen from the merging tool and the world: one
    [add_triangle] for each facet, in their order. *)
Definition decode_step (st : MergeNodeTool.t * World Sink) (f : Facet)
    : MergeNodeTool.t * World Sink :=
  let '(aP1, aP2, aP3) := f in add_triangle (fst st) (snd st) aP1 aP2 aP3.

Definition decode_facets (fs : list Facet)
    (st : MergeNodeTool.t * World Sink) : MergeNodeTool.t * World Sink :=
  fold_left decode_step fs st.

(** A facet of a text that the parser goes through: no line feed
    inside a line, the keywords [facet] and [outer] where the parser
    looks for them, and three vertex lines it can convert. *)
Definition facet_ok (f : FacetText) : bool :=
  forallb no_lf (facet_lines f)
  && negb (str_starts_with (ft_facet f) kw_endsolid 8)
  && str_starts_with (ft_facet f) kw_facet 5
  && str_starts_with (ft_outer f) kw_outer 5
  && fst (ReadVertex (ft_vertex1 f))
  && fst (ReadVertex (ft_vertex2 f))
  && fst (ReadVertex (ft_vertex3 f)).

Definition facet_points (f : FacetText) : Facet :=
  (snd (ReadVertex (ft_vertex1 f)), snd (ReadVertex (ft_vertex2 f)),
   snd (ReadVertex (ft_vertex3 f))).

(** A vertex line the parser can convert. *)
Definition vertex_ok (l : list byte) : bool :=
  no_lf l && fst (ReadVertex l).

End Vocabulary.

(* ===================================================================== *)
(** * Vocabulary of the proofs *)
(* ===================================================================== *)

Section Invariants.
Context {Sink : Type} {Mesh : RWStl_Reader Sink} {Std : Standard}.
Context {Indicator : Message_ProgressIndicator}.
Import IStream.

(** ** The invariant of a block *)

(** Every index kept in the map of the tool is among [known]. *)
Definition tool_ok (mt : MergeNodeTool.t) (known : list Z) : Prop :=
  forall h chain k v,
    NCollection_DataMap.myData1 (MergeNodeTool.myMap mt) !! h = Some chain ->
    In (k, v) chain -> In v known.

(** Since the start of the block, at trace [t0]: the triangles are made
    of indices handed back by the sink, and so is the content of the
    map. *)
Definition block_inv (t0 : list Event) (mt : MergeNodeTool.t)
    (w : World Sink) : Prop :=
  exists evs, trace w = t0 ++ evs /\ triangles_registered evs
              /\ tool_ok mt (returned evs).

(** ** The text pending in the loops of the text reader *)

Definition al_pending (st : AsciiLoop Sink) : list byte :=
  Standard_ReadLineBuffer.pending (al_stream st) (al_buffer st).

Definition VL_pending (v : VertexLoop) : list byte :=
  match v with
  | VL_Done _ s b | VL_EOF s b | VL_Error s b =>
      Standard_ReadLineBuffer.pending s b
  end.

(** The state of the loop at the start of a pass, with the text
    pending. *)
Definition at_text (st : AsciiLoop Sink) (txt : list byte) : Prop :=
  ready (al_stream st) (al_buffer st) /\ al_pending st = txt.

(** The two lines that open a facet, as the parser wants them. *)
Definition opening_ok (lf lo : list byte) : bool :=
  no_lf lf && no_lf lo
  && negb (str_starts_with lf kw_endsolid 8)
  && str_starts_with lf kw_facet 5
  && str_starts_with lo kw_outer 5.

(** ** The records of the binary reader *)

(** What bounds the passes still to come: the facets left in the
    buffer and the bytes left in the stream. *)
Definition bl_measure (st : BinaryLoop Sink) : nat :=
  (Z.to_nat (Z.max 0 (aNbFacesInBuffer st)) + length (avail (bl_stream st)))%nat.

(** The number of facets the binary reader decodes when the header
    announces [aNbFacets] of them and [L] bytes follow the header: all
    of them when they are there, and else those of the chunks of 80
    that are there in full. *)
Definition binary_decoded (aNbFacets : Z) (L : nat) : nat :=
  if 50 * aNbFacets <=? Z.of_nat L then Z.to_nat aNbFacets
  else (80 * (L / 4000))%nat.

(** ** The map of the merging tool *)

(** A point is stored in the map: it stands in the chain of its
    bucket. *)
Definition stored (m : MergeNodeTool.t) (p : gp_XYZ) : Prop :=
  exists i,
    In (p, i)
      (NCollection_DataMap.chain_of MergeNodeTool.HashCode
         (MergeNodeTool.myMap m) p).

(** The keys of the map are among [ks]. *)
Definition keys_among (m : MergeNodeTool.t) (ks : list gp_XYZ) : Prop :=
  forall h chain k i,
    NCollection_DataMap.myData1 (MergeNodeTool.myMap m) !! h = Some chain ->
    In (k, i) chain -> In k ks.

Definition nb_buckets (m : MergeNodeTool.t) : Z :=
  NCollection_DataMap.myNbBuckets (MergeNodeTool.myMap m).

(** An original and one of its repeats: within the tolerance of each
    other, and hashed to the same of the 1024 buckets. *)
Definition reuses (p v : gp_XYZ) : bool :=
  MergeNodeTool.IsEqual p v
  && (MergeNodeTool.HashCode v 1024 =? MergeNodeTool.HashCode p 1024).

Definition reuses_one_of (ps : list gp_XYZ) (v : gp_XYZ) : bool :=
  existsb (fun p => reuses p v) ps.

Definition facet_reuses (ps : list gp_XYZ) (f : Facet) : bool :=
  let '(a, b, c) := f in
  reuses_one_of ps a && reuses_one_of ps b && reuses_one_of ps c.

(** A vertex within the tolerance of one of the points [ps]. *)
Definition near_one_of (ps : list gp_XYZ) (v : gp_XYZ) : bool :=
  existsb (fun p => MergeNodeTool.IsEqual p v) ps.

Definition facet_near (ps : list gp_XYZ) (f : Facet) : bool :=
  let '(a, b, c) := f in
  near_one_of ps a && near_one_of ps b && near_one_of ps c.

(** ** The three vertices of a facet, resolved *)



End Invariants.

(* ===================================================================== *)
(** * A concrete platform, mesh builder and progress indicator *)
(* ===================================================================== *)

Module Example.

(** The bit pattern of a binary64 value (of a NaN, the default quiet
    one). *)
Definition bits_of_double (r : float) : Z :=
  match Prim2SF r with
  | S754_zero s => if s then 2 ^ 63 else 0
  | S754_infinity s => (if s then 2 ^ 63 else 0) + 0x7FF * 2 ^ 52
  | S754_nan => 0x7FF8 * 2 ^ 48
  | S754_finite s m e =>
      (if s then 2 ^ 63 else 0)
      + (if Z.pos m <? 2 ^ 52 then Z.pos m
         else (e + 1075) * 2 ^ 52 + (Z.pos m - 2 ^ 52))
  end.

(** The global [HashCode] of an integer: the value without its sign
    bit, reduced to the range [1, theUpperBound]. *)
Definition Standard_Integer_HashCode (theValue theUpperBound : Z) : Z :=
  Z.land theValue 0x7FFFFFFF mod theUpperBound + 1.

(** The global [HashCode] of a real: the hash code of the two halves of
    its bit pattern, combined by exclusive or. *)
Definition Real_HashCode (theReal : float) (theUpperBound : Z) : Z :=
  let u := bits_of_double theReal in
  Standard_Integer_HashCode
    (Z.lxor (Z.land u 0xFFFFFFFF) (Z.shiftr u 32)) theUpperBound.

Definition isdigit (c : byte) : bool :=
  (48 <=? Cstd.code c) && (Cstd.code c <=? 57).

(** The digits at the front of a string: their value after [acc], and
    their number. *)
Fixpoint digits (s : list byte) (acc : Z) : Z * nat :=
  match s with
  | [] => (acc, O)
  | c :: s' =>
      if isdigit c then
        let '(v, n) := digits s' (10 * acc + (Cstd.code c - 48)) in
        (v, S n)
      else (acc, O)
  end.

(** A conversion of plain decimal numbers, [sign digits [. digits]]
    after white space: enough of [Strtod] for the examples. *)
Definition Strtod_decimal (str : list byte) : float * nat :=
  let s0 := Cstd.skip_while Cstd.isspace str in
  let nws := (length str - length s0)%nat in
  let '(neg, s1, nsign) :=
    match s0 with
    | c :: s' =>
        if Cstd.code c =? 45 then (true, s', 1%nat)
        else if Cstd.code c =? 43 then (false, s', 1%nat)
        else (false, s0, 0%nat)
    | [] => (false, s0, 0%nat)
    end in
  let '(ip, ni) := digits s1 0 in
  match ni with
  | O => (0%float, O)
  | S _ =>
      let s2 := drop ni s1 in
      let '(num, nf) :=
        match s2 with
        | c :: s' => if Cstd.code c =? 46 then
                       let '(v, n) := digits s' ip in (v, S n)
                     else (ip, O)
        | [] => (ip, O)
        end in
      let den := 10 ^ Z.of_nat (Nat.pred nf) in
      let mag :=
        (PrimFloat.of_uint63 (Uint63.of_Z num)
         / PrimFloat.of_uint63 (Uint63.of_Z den))%float in
      (if neg then (- mag)%float else mag, (nws + nsign + ni + nf)%nat)
  end.

#[export] Instance platform : Standard := {
  Strtod := Strtod_decimal;
  Standard_Real_HashCode := Real_HashCode
}.

(** A mesh builder that keeps the nodes and the triangles in the order
    they come and numbers the nodes from 1. *)
Record Mesh : Type := mk_Mesh {
  myNodes : list gp_XYZ;
  myTriangles : list (Z * Z * Z)
}.

#[export] Instance builder : RWStl_Reader Mesh := {
  AddNode k thePnt :=
    (Z.of_nat (length (myNodes k)) + 1,
     mk_Mesh (myNodes k ++ [thePnt]) (myTriangles k));
  AddTriangle k n1 n2 n3 :=
    mk_Mesh (myNodes k) (myTriangles k ++ [(n1, n2, n3)])
}.

(** The user never asks for a break. *)
Definition no_break : Message_ProgressIndicator := {|
  UserBreak := fun _ => false
|}.

Definition never : @never_breaks no_break := fun _ => eq_refl.

(** The user has asked for a break before the reading starts. *)
Definition break_at_once : Message_ProgressIndicator := {|
  UserBreak := fun _ => true
|}.

Definition w0 : World Mesh := mk_World (mk_Mesh [] []) [] 0.

(** A text given by its lines, each closed by a line feed. *)
Definition text (ls : list string) : list byte :=
  concat (map (fun l => list_byte_of_string l ++ [Cstd.LF]) ls).

(** The four bytes of a 32-bit pattern, least significant first. *)
Definition le32 (v : Z) : list byte :=
  map (fun k =>
         match Byte.of_N (Z.to_N (Z.land (Z.shiftr v (8 * k)) 0xFF)) with
         | Some b => b
         | None => x00
         end)
      [0; 1; 2; 3].

(** The binary32 patterns of 0, of 1 and of a value next to 1e-9. *)
Definition f32_zero : list byte := le32 0.
Definition f32_one : list byte := le32 0x3F800000.
Definition f32_tiny : list byte := le32 0x3089705F.

(** Three coordinates; a facet record with the normal (0, 0, 1). *)
Definition vec3 (a b c : list byte) : list byte := a ++ b ++ c.
Definition facet_record (p1 p2 p3 : list byte) : list byte :=
  vec3 f32_zero f32_zero f32_one ++ p1 ++ p2 ++ p3 ++ [x00; x00].

(** The origin, a point at 1e-9 of it, and the unit points of the x
    and of the y axis. *)
Definition pt_O : list byte := vec3 f32_zero f32_zero f32_zero.
Definition pt_O' : list byte := vec3 f32_tiny f32_zero f32_zero.
Definition pt_X : list byte := vec3 f32_one f32_zero f32_zero.
Definition pt_Y : list byte := vec3 f32_zero f32_one f32_zero.

(** A binary block: 80 bytes of header, the count, the records. *)
Definition binary_block (count : Z) (records : list (list byte))
    : list byte :=
  repeat x00 80 ++ le32 count ++ concat records.

(** Two facets on the same three points, the origin of the second one
    moved by 1e-9. *)
Definition two_near_facets : list byte :=
  binary_block 2 [facet_record pt_O pt_X pt_Y; facet_record pt_O' pt_X pt_Y].

(** A count of two, and one record. *)
Definition one_facet_of_two : list byte :=
  binary_block 2 [facet_record pt_O pt_X pt_Y].

(** A count with the top bit set, and one record. *)
Definition negative_count : list byte :=
  binary_block 0xFFFFFFFF [facet_record pt_O pt_X pt_Y].

(** The lines of a facet of a text. *)
Definition unit_facet : FacetText :=
  mk_FacetText
    (list_byte_of_string "facet normal 0 0 1")
    (list_byte_of_string "  outer loop")
    (list_byte_of_string "    vertex 0 0 0")
    (list_byte_of_string "    vertex 1 0 0")
    (list_byte_of_string "    vertex 0 1 0")
    (list_byte_of_string "  endloop")
    (list_byte_of_string "endfacet").

Definition solid_line : list byte := list_byte_of_string "solid x".

(** A text that stops after the [endfacet] of its only facet. *)
Definition truncated_text : list byte :=
  unlines (solid_line :: facet_lines unit_facet).

(** A text that stops after the second vertex of its second facet. *)
Definition vertex_eof_text : list byte :=
  unlines
    (solid_line :: facet_lines unit_facet
     ++ [ft_facet unit_facet; ft_outer unit_facet; ft_vertex1 unit_facet;
         ft_vertex2 unit_facet]).

(** A text with a line that opens no facet, and 2000 blanks after it. *)
Definition bogus_text : list byte :=
  text ["solid x"; "bogus"]%string ++ repeat " "%byte 2000.


(** 134 letters, and the same with a byte above ['~'] among them. *)
Definition plain_probe : list byte := repeat "a"%byte 134.
Definition marked_probe : list byte :=
  repeat "a"%byte 100 ++ [x80] ++ repeat "a"%byte 33.

End Example.

(* ===================================================================== *)
(** * Vocabulary of the further properties *)
(* ===================================================================== *)

Section SoundDefs.
Context {Sink : Type} {Mesh : RWStl_Reader Sink} {Std : Standard}.
Context {Indicator : Message_ProgressIndicator}.

(** Every node kept in the map of the tool has been registered by the
    sink, at the point it is kept under, among the events [evs]. *)
Definition tool_sound (mt : MergeNodeTool.t) (evs : list Event) : Prop :=
  forall h chain k v,
    NCollection_DataMap.myData1 (MergeNodeTool.myMap mt) !! h = Some chain ->
    In (k, v) chain -> In (EvAddNode k v) evs.

Definition block_sound (t0 : list Event) (mt : MergeNodeTool.t)
    (w : World Sink) : Prop :=
  exists evs, trace w = t0 ++ evs /\ tool_sound mt evs.

End SoundDefs.

(** A block of a binary file: the 84 bytes of its header, its facet
    records, and the white space that follows them. *)
Record BinaryBlock : Type := mk_BinaryBlock {
  bb_header : list byte;
  bb_records : list byte;
  bb_space : list byte
}.

Definition bb_count (b : BinaryBlock) : Z := int32_le (drop 80 (bb_header b)).

Definition bb_bytes (b : BinaryBlock) : list byte :=
  bb_header b ++ bb_records b ++ bb_space b.

Definition bb_facets (b : BinaryBlock) : list Facet :=
  facets_of (Z.to_nat (bb_count b)) (bb_records b).

(** A block that holds the records its header announces. *)
Definition block_ok (b : BinaryBlock) : bool :=
  (length (bb_header b) =? 84)%nat
  && (0 <=? bb_count b)
  && (Z.of_nat (length (bb_records b)) =? 50 * bb_count b)
  && forallb Cstd.isspace (bb_space b).

(** A block whose header does not start with white space. *)
Definition block_follows (b : BinaryBlock) : bool :=
  negb (Cstd.isspace (Cstd.deref (bb_header b))).

Section BlockDefs.
Context {Sink : Type} {Mesh : RWStl_Reader Sink} {Std : Standard}.
Context {Indicator : Message_ProgressIndicator}.

(** The blocks decoded one after the other, each with a merging tool of
    its own. *)
Definition decode_blocks (bs : list BinaryBlock) (w : World Sink)
    : World Sink :=
  fold_left
    (fun w b => snd (decode_facets (bb_facets b) (MergeNodeTool.create, w)))
    bs w.

End BlockDefs.

(** Two sequences of facet records with the same vertices in their
    first [n] records: bytes 12 to 47 of each record. *)
Definition same_vertices (n : nat) (b1 b2 : list byte) : Prop :=
  forall i, (i < n)%nat ->
    take 36 (drop (50 * i + 12) b1) = take 36 (drop (50 * i + 12) b2).

Module Sample.
Import Example.

(** A facet line with blanks before the keyword, written in both cases. *)
Definition keyword_line : list byte :=
  list_byte_of_string "  FaCeT normal 0 0 1".

(** The text of a solid, closed by its [endsolid] line. *)
Definition solid_text : list byte :=
  unlines (solid_line :: facet_lines unit_facet) ++ text ["endsolid x"]%string.


(** A binary block of one facet, followed by a blank. *)
Definition unit_block : BinaryBlock :=
  mk_BinaryBlock (repeat x00 80 ++ le32 1) (facet_record pt_O pt_X pt_Y)
    (list_byte_of_string " ").

(** The same facet with another normal and other attribute bytes. *)
Definition other_record : list byte :=
  vec3 f32_one f32_zero f32_zero ++ pt_O ++ pt_X ++ pt_Y ++ [x01; x02].

(** 10 letters, and the 134 bytes of [marked_probe] after them. *)
Definition shifted_probe : list byte := repeat "a"%byte 10 ++ marked_probe.

End Sample.


(* ===================================================================== *)
(** * Facts about streams and lines *)
(* ===================================================================== *)

Section StreamFacts.
Import IStream Standard_ReadLineBuffer.

Lemma split_eol_app_Some (chunk l r t : list byte) :
  split_eol chunk = Some (l, r) -> split_eol (chunk ++ t) = Some (l, r ++ t).
Proof.
  revert l r; induction chunk as [|c chunk IH]; intros l r H; simpl in *.
  - discriminate.
  - destruct (Cstd.code c =? 10).
    + injection H as <- <-. reflexivity.
    + destruct (split_eol chunk) as [[l' r']|]; [|discriminate].
      injection H as <- <-. rewrite (IH l' r' eq_refl). reflexivity.
Qed.

Lemma split_eol_app_None (chunk t : list byte) :
  split_eol chunk = None ->
  split_eol (chunk ++ t) =
  match split_eol t with Some (l, r) => Some (chunk ++ l, r) | None => None end.
Proof.
  induction chunk as [|c chunk IH]; intros H; simpl in *.
  - destruct (split_eol t) as [[l r]|]; reflexivity.
  - destruct (Cstd.code c =? 10); [discriminate|].
    destruct (split_eol chunk) as [[l' r']|]; [discriminate|].
    rewrite (IH eq_refl). destruct (split_eol t) as [[l r]|]; reflexivity.
Qed.

Lemma split_eol_length (t l r : list byte) :
  split_eol t = Some (l, r) -> length t = S (length l + length r).
Proof.
  revert l r; induction t as [|c t IH]; intros l r H; simpl in *.
  - discriminate.
  - destruct (Cstd.code c =? 10).
    + injection H as <- <-. reflexivity.
    + destruct (split_eol t) as [[l' r']|]; [|discriminate].
      injection H as <- <-. simpl. rewrite (IH l' r' eq_refl). reflexivity.
Qed.

Lemma split_eol_line (l r : list byte) :
  no_lf l = true -> split_eol (l ++ Cstd.LF :: r) = Some (l, r).
Proof.
  induction l as [|c l IH]; intros H; simpl in *.
  - reflexivity.
  - apply andb_prop in H as [Hc Hl].
    destruct (Cstd.code c =? 10); [discriminate|].
    rewrite (IH Hl). reflexivity.
Qed.

Lemma next_line_line (l r : list byte) :
  no_lf l = true -> next_line (l ++ Cstd.LF :: r) = (Some l, r).
Proof. intros H. unfold next_line. rewrite (split_eol_line l r H). reflexivity. Qed.

Lemma next_line_nil : next_line [] = (None, []).
Proof. reflexivity. Qed.

(** ** read *)

Lemma good_set_failbit (s : istream) : good (set_failbit s) = false.
Proof. unfold good; simpl. destruct (eofbit s); reflexivity. Qed.

Lemma avail_not_good (s : istream) : good s = false -> avail s = [].
Proof. unfold avail. intros ->. reflexivity. Qed.

Lemma avail_good (s : istream) : good s = true -> avail s = rest s.
Proof. unfold avail. intros ->. reflexivity. Qed.

Lemma read_avail (s : istream) (n : nat) :
  fst (read s n) ++ avail (snd (read s n)) = avail s.
Proof.
  unfold read. destruct (good s) eqn:Hg.
  - rewrite (avail_good s Hg).
    destruct (length (take n (rest s)) <? n)%nat eqn:Hlt; unfold fst, snd.
    + rewrite avail_not_good by apply good_set_failbit.
      rewrite app_nil_r. apply Nat.ltb_lt in Hlt.
      apply take_ge. rewrite length_take in Hlt. lia.
    + rewrite avail_good by exact Hg.
      apply Nat.ltb_ge in Hlt. rewrite length_take in *.
      unfold rest at 2. simpl. rewrite <- drop_drop. fold (rest s).
      replace (n `min` length (rest s))%nat with n by lia.
      apply take_drop.
  - unfold fst, snd. rewrite (avail_not_good s Hg).
    rewrite avail_not_good by apply good_set_failbit. reflexivity.
Qed.

Lemma read_bad (s : istream) (n : nat) : bad (snd (read s n)) = bad s.
Proof.
  unfold read. destruct (good s); [|reflexivity].
  destruct (length (take n (rest s)) <? n)%nat; reflexivity.
Qed.

Lemma read_short (s : istream) (n : nat) :
  (length (fst (read s n)) < n)%nat ->
  fail (snd (read s n)) = true /\ avail (snd (read s n)) = [].
Proof.
  unfold read. destruct (good s) eqn:Hg.
  - destruct (length (take n (rest s)) <? n)%nat eqn:Hlt; unfold fst, snd; intros H.
    + split; [reflexivity|]. apply avail_not_good, good_set_failbit.
    + apply Nat.ltb_ge in Hlt. lia.
  - unfold fst, snd. intros _. split; [reflexivity|].
    apply avail_not_good, good_set_failbit.
Qed.

Lemma tellg_avail (s : istream) : avail (snd (tellg s)) = avail s.
Proof.
  unfold tellg. destruct (good s) eqn:Hg; [reflexivity|].
  unfold snd. rewrite (avail_not_good s Hg).
  apply avail_not_good, good_set_failbit.
Qed.

Lemma tellg_bad (s : istream) : bad (snd (tellg s)) = bad s.
Proof. unfold tellg. destruct (good s); reflexivity. Qed.

(** ** ReadLine *)

Lemma ReadLine_chunks_spec (size : nat) :
  (0 < size)%nat ->
  forall (fuel : nat) (s : istream) (chunk acc : list byte),
  (length (avail s) < fuel)%nat -> bad s = false ->
  forall ol s' r, ReadLine_chunks fuel size s chunk acc = (ol, s', r) ->
  bad s' = false /\
  match split_eol (chunk ++ avail s) with
  | Some (l, t) => ol = Some (acc ++ l) /\ r ++ avail s' = t
  | None =>
      ol = match acc ++ chunk ++ avail s with [] => None | x => Some x end
      /\ r ++ avail s' = [] /\ fail s' = true
  end.
Proof.
  intros Hsize. induction fuel as [|fuel IH]; intros s chunk acc Hf Hb ol s' r H.
  - lia.
  - simpl in H. destruct (split_eol chunk) as [[l t]|] eqn:Hc.
    + injection H as <- <- <-. split; [exact Hb|].
      rewrite (split_eol_app_Some _ _ _ (avail s) Hc). auto.
    + rewrite (split_eol_app_None _ (avail s) Hc).
      pose proof (read_avail s size) as Ha.
      pose proof (read_bad s size) as Hb'.
      destruct (read s size) as [got s1] eqn:Hr. unfold fst, snd in *.
      rewrite Hb' , Hb in H.
      destruct got as [|g got].
      * (* end of the stream *)
        assert (Hs : (length (fst (read s size)) < size)%nat)
          by (rewrite Hr; simpl; lia).
        apply read_short in Hs. rewrite Hr in Hs. unfold snd in Hs.
        destruct Hs as [Hfail Hnil].
        simpl in Ha. rewrite Hnil in Ha. rewrite <- Ha.
        simpl. rewrite app_nil_r.
        assert (ol = match acc ++ chunk with [] => None | x => Some x end
                /\ s' = s1 /\ r = []) as (-> & -> & ->).
        { destruct (acc ++ chunk); injection H as <- <- <-; auto. }
        rewrite Hnil. split; [congruence|]. auto.
      * apply IH in H; [| |congruence].
        2:{ rewrite <- Ha in Hf. rewrite length_app in Hf. simpl in Hf. lia. }
        destruct H as [Hbs H]. split; [exact Hbs|].
        rewrite Ha in H.
        destruct (split_eol (avail s)) as [[l t]|].
        -- destruct H as [-> H]. rewrite app_assoc. auto.
        -- rewrite <- app_assoc in H. rewrite <- Ha at 1. rewrite Ha. exact H.
Qed.

Lemma ReadLine_chunks_length (size : nat) :
  forall (fuel : nat) (s : istream) (chunk acc : list byte) ol s' r,
  ReadLine_chunks fuel size s chunk acc = (ol, s', r) ->
  (length (r ++ avail s') <= length (chunk ++ avail s))%nat /\
  (is_Some ol ->
   length (r ++ avail s') < length (acc ++ chunk ++ avail s))%nat.
Proof.
  induction fuel as [|fuel IH]; intros s chunk acc ol s' r H; simpl in H.
  - destruct (split_eol chunk) as [[l t]|] eqn:Hc.
    + injection H as <- <- <-. apply split_eol_length in Hc.
      rewrite !length_app, Hc. lia.
    + injection H as <- <- <-. rewrite !length_app. simpl.
      split; [lia|]. intros [x Hx]; discriminate.
  - destruct (split_eol chunk) as [[l t]|] eqn:Hc.
    + injection H as <- <- <-. apply split_eol_length in Hc.
      rewrite !length_app, Hc. lia.
    + pose proof (read_avail s size) as Ha.
      destruct (read s size) as [got s1] eqn:Hr. unfold fst, snd in *.
      assert (Hlen : (length got + length (avail s1) = length (avail s))%nat)
        by (rewrite <- Ha, length_app; lia).
      destruct (bad s1).
      { injection H as <- <- <-. rewrite !length_app. simpl.
        split; [lia|]. intros [x Hx]; discriminate. }
      destruct got as [|g got].
      * destruct (acc ++ chunk) as [|x l] eqn:Hac.
        -- injection H as <- <- <-. rewrite !length_app. simpl in *.
           split; [lia|]. intros [y Hy]; discriminate.
        -- injection H as <- <- <-. simpl in *.
           assert (length (acc ++ chunk) = S (length l)) by (rewrite Hac; reflexivity).
           rewrite !length_app in *. simpl. lia.
      * apply IH in H. destruct H as [H1 H2].
        rewrite !length_app in *. simpl in *. split; [lia|].
        intros Hs. specialize (H2 Hs). lia.
Qed.

Lemma ReadLine_length (s : istream) (b : t) ol s' b' :
  ReadLine s b = (ol, s', b') ->
  (length (pending s' b') <= length (pending s b))%nat /\
  (is_Some ol -> length (pending s' b') < length (pending s b))%nat.
Proof.
  unfold ReadLine, pending.
  destruct (ReadLine_chunks _ _ _ _ _) as [[ol1 s1] r] eqn:H.
  intros E; injection E as <- <- <-. simpl.
  apply ReadLine_chunks_length in H. exact H.
Qed.

Lemma ReadLine_spec (s : istream) (b : t) :
  ready s b ->
  forall ol s' b', ReadLine s b = (ol, s', b') ->
  ol = fst (next_line (pending s b)) /\
  pending s' b' = snd (next_line (pending s b)) /\
  ready s' b' /\
  (ol = None -> fail s' = true).
Proof.
  intros [Hb Hsz] ol s' b'. unfold ReadLine, pending.
  destruct (ReadLine_chunks _ _ _ _ _) as [[ol1 s1] r] eqn:H.
  intros E; injection E as <- <- <-. simpl.
  apply (ReadLine_chunks_spec _ Hsz) in H; [|lia|exact Hb].
  destruct H as [Hb1 H]. unfold next_line, ready. simpl.
  destruct (split_eol (myReadBuffer b ++ avail s)) as [[l t]|].
  - destruct H as [-> <-]. simpl. repeat split; auto. discriminate.
  - destruct H as (-> & -> & Hf). simpl.
    destruct (myReadBuffer b ++ avail s); repeat split; auto.
Qed.

(** A line closed by a line feed is handed out whole. *)
Lemma ReadLine_line (s : istream) (b : t) (l rest : list byte) :
  ready s b -> pending s b = l ++ Cstd.LF :: rest -> no_lf l = true ->
  exists s' b', ReadLine s b = (Some l, s', b') /\ ready s' b'
                /\ pending s' b' = rest.
Proof.
  intros Hr Hp Hl. destruct (ReadLine s b) as [[ol s'] b'] eqn:E.
  destruct (ReadLine_spec s b Hr _ _ _ E) as (H1 & H2 & H3 & _).
  rewrite Hp, (next_line_line l rest Hl) in *. simpl in *. subst ol.
  exists s', b'. auto.
Qed.

(** At the end of the text no line is handed out, and the stream has
    failed. *)
Lemma ReadLine_eof (s : istream) (b : t) :
  ready s b -> pending s b = [] ->
  exists s' b', ReadLine s b = (None, s', b') /\ ready s' b'
                /\ pending s' b' = [] /\ fail s' = true.
Proof.
  intros Hr Hp. destruct (ReadLine s b) as [[ol s'] b'] eqn:E.
  destruct (ReadLine_spec s b Hr _ _ _ E) as (H1 & H2 & H3 & H4).
  rewrite Hp in *. simpl in *. subst ol.
  exists s', b'. auto.
Qed.

Lemma tellg_ready (s : istream) (b : t) :
  ready s b -> ready (snd (tellg s)) b.
Proof. intros [H1 H2]. split; [rewrite tellg_bad|]; assumption. Qed.

Lemma tellg_pending (s : istream) (b : t) :
  pending (snd (tellg s)) b = pending s b.
Proof. unfold pending. rewrite tellg_avail. reflexivity. Qed.

End StreamFacts.

(* ===================================================================== *)
(** * Facts about traces *)
(* ===================================================================== *)

Lemma returned_app (a b : list Event) :
  returned (a ++ b) = returned a ++ returned b.
Proof.
  induction a as [|e a IH]; simpl; [reflexivity|].
  destruct e; simpl; rewrite IH; reflexivity.
Qed.

Lemma triangles_registered_nil : triangles_registered [].
Proof. intros pre n1 n2 n3 post H. destruct pre; discriminate. Qed.

Lemma triangles_registered_snoc (evs : list Event) (e : Event) :
  triangles_registered evs ->
  (forall n1 n2 n3, e = EvAddTriangle n1 n2 n3 ->
     In n1 (returned evs) /\ In n2 (returned evs) /\ In n3 (returned evs)) ->
  triangles_registered (evs ++ [e]).
Proof.
  intros Hevs He pre n1 n2 n3 post H.
  induction post as [|x post' _] using rev_ind.
  - apply (app_inj_tail evs pre e (EvAddTriangle n1 n2 n3)) in H.
    destruct H as [-> ->]. eapply He; reflexivity.
  - change (pre ++ EvAddTriangle n1 n2 n3 :: post' ++ [x])
      with (pre ++ (EvAddTriangle n1 n2 n3 :: post') ++ [x]) in H.
    rewrite app_assoc in H. apply app_inj_tail in H. destruct H as [-> _].
    eapply Hevs; reflexivity.
Qed.

(* ===================================================================== *)
(** * Facts about the merging tool *)
(* ===================================================================== *)

Section ToolFacts.
Context {Sink : Type} {Mesh : RWStl_Reader Sink} {Std : Standard}.
Context {Indicator : Message_ProgressIndicator}.

(** The inquiries made so far play no part in the registration of
    nodes and triangles. *)
Lemma AddNode_polls (p : nat) (mt : MergeNodeTool.t) (w : World Sink)
    (x y z : float) :
  MergeNodeTool.AddNode mt (with_polls p w) x y z =
  let '(n, mt', w') := MergeNodeTool.AddNode mt w x y z in
  (n, mt', with_polls p w').
Proof.
  unfold MergeNodeTool.AddNode.
  destruct (MergeNodeTool.Find mt _); [reflexivity|].
  unfold reader_AddNode, with_polls; simpl.
  destruct (AddNode (sink w) _); reflexivity.
Qed.

Lemma add_triangle_polls (p : nat) (mt : MergeNodeTool.t) (w : World Sink)
    (a b c : gp_XYZ) :
  add_triangle mt (with_polls p w) a b c =
  (fst (add_triangle mt w a b c), with_polls p (snd (add_triangle mt w a b c))).
Proof.
  unfold add_triangle. rewrite AddNode_polls.
  destruct (MergeNodeTool.AddNode mt w _ _ _) as [[n1 mt1] w1].
  rewrite AddNode_polls.
  destruct (MergeNodeTool.AddNode mt1 w1 _ _ _) as [[n2 mt2] w2].
  rewrite AddNode_polls.
  destruct (MergeNodeTool.AddNode mt2 w2 _ _ _) as [[n3 mt3] w3].
  destruct (negb (n1 =? n2) && negb (n2 =? n3) && negb (n3 =? n1));
    reflexivity.
Qed.

Lemma decode_facets_polls (p : nat) (fs : list Facet)
    (mt : MergeNodeTool.t) (w : World Sink) :
  decode_facets fs (mt, with_polls p w) =
  (fst (decode_facets fs (mt, w)), with_polls p (snd (decode_facets fs (mt, w)))).
Proof.
  revert mt w. induction fs as [|[[a b] c] fs IH]; intros mt w.
  - reflexivity.
  - unfold decode_facets in *. simpl.
    rewrite add_triangle_polls.
    destruct (add_triangle mt w a b c) as [mt' w']. simpl. apply IH.
Qed.

(** ** The invariant of a block *)


Lemma block_inv_start (w : World Sink) :
  block_inv (trace w) MergeNodeTool.create w.
Proof.
  exists []. rewrite app_nil_r. split; [reflexivity|].
  split; [apply triangles_registered_nil|].
  intros h chain k v H. unfold MergeNodeTool.create in H. simpl in H.
  rewrite lookup_empty in H. discriminate.
Qed.

Lemma block_inv_polls t0 mt (w : World Sink) p :
  block_inv t0 mt w -> block_inv t0 mt (with_polls p w).
Proof. intros (evs & H); exists evs; exact H. Qed.

Lemma block_inv_SendFail t0 mt (w : World Sink) msg :
  block_inv t0 mt w -> block_inv t0 mt (SendFail w msg).
Proof.
  intros (evs & H1 & H2 & H3). exists (evs ++ [EvSendFail msg]).
  unfold SendFail; simpl. rewrite H1, app_assoc.
  split; [reflexivity|]. split.
  - apply triangles_registered_snoc; [exact H2|]. intros; discriminate.
  - rewrite returned_app; simpl. rewrite app_nil_r. exact H3.
Qed.

Lemma find_node_In (chain : list (gp_XYZ * Z)) (k : gp_XYZ) (v : Z) :
  NCollection_DataMap.find_node MergeNodeTool.IsEqual chain k = Some v ->
  exists k', In (k', v) chain.
Proof.
  induction chain as [|[k0 v0] chain IH]; simpl; [discriminate|].
  destruct (MergeNodeTool.IsEqual k0 k).
  - intros [= ->]. exists k0. left; reflexivity.
  - intros H. destruct (IH H) as [k' Hk]. exists k'. right; exact Hk.
Qed.

(** [AddNode] keeps the invariant, and the index it hands out has been
    handed back by the sink since the start of the block. *)
Lemma AddNode_inv t0 mt (w : World Sink) x y z :
  block_inv t0 mt w ->
  forall n mt' w', MergeNodeTool.AddNode mt w x y z = (n, mt', w') ->
  block_inv t0 mt' w' /\
  (exists ext, trace w' = trace w ++ ext) /\
  (forall evs, trace w' = t0 ++ evs -> In n (returned evs)).
Proof.
  intros (evs & H1 & H2 & H3) n mt' w'. unfold MergeNodeTool.AddNode.
  destruct (MergeNodeTool.Find mt _) as [i|] eqn:Hf.
  - intros [= <- <- <-]. split; [exists evs; auto|]. split.
    + exists []. rewrite app_nil_r. reflexivity.
    + intros evs' He. rewrite H1 in He. apply app_inv_head in He. subst evs'.
      unfold MergeNodeTool.Find, NCollection_DataMap.Find,
        NCollection_DataMap.chain_of in Hf.
      destruct (NCollection_DataMap.myData1 (MergeNodeTool.myMap mt) !! _)
        as [chain|] eqn:Hc; simpl in Hf; [|discriminate].
      apply find_node_In in Hf. destruct Hf as [k' Hk].
      eapply H3; eassumption.
  - unfold reader_AddNode.
    destruct (AddNode (sink w) _) as [i k] eqn:Ha.
    intros [= <- <- <-]. simpl. split; [|split].
    + exists (evs ++ [EvAddNode (mk_XYZ x y z) i]).
      rewrite H1, app_assoc. split; [reflexivity|]. split.
      * apply triangles_registered_snoc; [exact H2|]. intros; discriminate.
      * rewrite returned_app; simpl.
        intros h chain k0 v Hl Hin.
        unfold MergeNodeTool.Bind, NCollection_DataMap.Bind in Hl. simpl in Hl.
        apply in_or_app.
        destruct (decide (MergeNodeTool.HashCode (mk_XYZ x y z)
                    (NCollection_DataMap.myNbBuckets (MergeNodeTool.myMap mt)) = h))
          as [<-|Hne].
        -- rewrite lookup_insert_eq in Hl. injection Hl as <-.
           destruct Hin as [[= <- <-]|Hin]; [right; left; reflexivity|].
           left. unfold NCollection_DataMap.chain_of in Hin.
           destruct (NCollection_DataMap.myData1 (MergeNodeTool.myMap mt) !! _)
             as [chain|] eqn:Hc; simpl in Hin; [|contradiction].
           eapply H3; eassumption.
        -- rewrite lookup_insert_ne in Hl by exact Hne.
           left. eapply H3; eassumption.
    + exists [EvAddNode (mk_XYZ x y z) i]. reflexivity.
    + intros evs' He. rewrite H1, <- app_assoc in He.
      apply app_inv_head in He. subst evs'.
      rewrite returned_app. apply in_or_app. right. left. reflexivity.
Qed.

Lemma add_triangle_inv t0 mt (w : World Sink) a b c :
  block_inv t0 mt w ->
  block_inv t0 (fst (add_triangle mt w a b c)) (snd (add_triangle mt w a b c)).
Proof.
  intros H0. unfold add_triangle.
  destruct (MergeNodeTool.AddNode mt w _ _ _) as [[n1 mt1] w1] eqn:E1.
  destruct (AddNode_inv _ _ _ _ _ _ H0 _ _ _ E1) as (I1 & _ & R1).
  destruct (MergeNodeTool.AddNode mt1 w1 _ _ _) as [[n2 mt2] w2] eqn:E2.
  destruct (AddNode_inv _ _ _ _ _ _ I1 _ _ _ E2) as (I2 & [x2 X2] & R2).
  destruct (MergeNodeTool.AddNode mt2 w2 _ _ _) as [[n3 mt3] w3] eqn:E3.
  destruct (AddNode_inv _ _ _ _ _ _ I2 _ _ _ E3) as (I3 & [x3 X3] & R3).
  destruct (negb (n1 =? n2) && negb (n2 =? n3) && negb (n3 =? n1));
    simpl; [|exact I3].
  destruct I3 as (evs & H1 & H2 & H3).
  exists (evs ++ [EvAddTriangle n1 n2 n3]).
  unfold reader_AddTriangle; simpl. rewrite H1, app_assoc.
  split; [reflexivity|]. split.
  - apply triangles_registered_snoc; [exact H2|].
    intros m1 m2 m3 [= <- <- <-].
    destruct I1 as (evs1 & T1 & _). destruct I2 as (evs2 & T2 & _).
    assert (Hevs2 : evs2 = evs1 ++ x2).
    { rewrite T1, T2, <- app_assoc in X2. apply app_inv_head in X2. exact X2. }
    assert (Hevs : evs = evs2 ++ x3).
    { rewrite T2, H1, <- app_assoc in X3. apply app_inv_head in X3. exact X3. }
    specialize (R1 _ T1). specialize (R2 _ T2). specialize (R3 _ H1).
    subst evs evs2. rewrite !returned_app in *.
    repeat split; auto using in_or_app.
  - rewrite returned_app; simpl. rewrite app_nil_r. exact H3.
Qed.

End ToolFacts.

(* ===================================================================== *)
(** * Facts about the text reader *)
(* ===================================================================== *)

Section AsciiFacts.
Context {Sink : Type} {Mesh : RWStl_Reader Sink} {Std : Standard}.
Context {Indicator : Message_ProgressIndicator}.
Import IStream Standard_ReadLineBuffer.



Lemma read_vertices_length (n : nat) :
  forall s b acc,
  (length (VL_pending (read_vertices n s b acc)) <= length (pending s b))%nat.
Proof.
  induction n as [|n IH]; intros s b acc; simpl; [lia|].
  destruct (ReadLine s b) as [[ol s'] b'] eqn:E.
  apply ReadLine_length in E. destruct E as [E _].
  destruct ol as [l|]; [|simpl; lia].
  destruct (ReadVertex l) as [ok v]. destruct ok; [|simpl; lia].
  specialize (IH s' b' (acc ++ [v])). lia.
Qed.

(** One pass through the body either leaves the loop or uses up some
    of the pending text; it keeps the invariant of the block. *)
Lemma ReadAscii_body_inv (t0 : list Event) (st : AsciiLoop Sink) :
  block_inv t0 (al_tool st) (al_world st) ->
  match ReadAscii_body st with
  | Continue st' =>
      (length (al_pending st') < length (al_pending st))%nat
      /\ block_inv t0 (al_tool st') (al_world st')
  | Break st' | Return _ st' => block_inv t0 (al_tool st') (al_world st')
  end.
Proof.
  intros Hinv. unfold ReadAscii_body, al_pending.
  pose proof (tellg_pending (al_stream st) (al_buffer st)) as Ht.
  destruct (tellg (al_stream st)) as [aPos s1]. unfold snd in Ht.
  rewrite <- Ht.
  assert (Hw : block_inv t0 (al_tool st)
            (if aPos >? aProgressPos st then PS_Next (al_world st) else al_world st))
    by (destruct (aPos >? aProgressPos st); exact Hinv).
  assert (Hw1 : forall (X : World Sink * Z), X =
     (if aPos >? aProgressPos st
      then (PS_Next (al_world st), aProgressPos st + aStepB)
      else (al_world st, aProgressPos st)) ->
     block_inv t0 (al_tool st) (fst X)).
  { intros X ->. destruct (aPos >? aProgressPos st); exact Hinv. }
  destruct (if aPos >? aProgressPos st
            then (PS_Next (al_world st), aProgressPos st + aStepB)
            else (al_world st, aProgressPos st)) as [w1 pp] eqn:Ew.
  specialize (Hw1 _ eq_refl). simpl in Hw1. clear Hw Ew.
  destruct (ReadLine s1 (al_buffer st)) as [[ol s2] b2] eqn:E1.
  apply ReadLine_length in E1. destruct E1 as [L1 L1'].
  destruct ol as [aLine|]; [|apply block_inv_SendFail; exact Hw1].
  specialize (L1' ltac:(eexists; reflexivity)).
  destruct (str_starts_with aLine kw_endsolid 8); [exact Hw1|].
  destruct (negb (str_starts_with aLine kw_facet 5));
    [apply block_inv_SendFail; exact Hw1|].
  destruct (ReadLine s2 b2) as [[ol2 s3] b3] eqn:E2.
  apply ReadLine_length in E2. destruct E2 as [L2 _].
  destruct (match ol2 with
            | Some l => negb (str_starts_with l kw_outer 5)
            | None => true
            end); [apply block_inv_SendFail; exact Hw1|].
  pose proof (read_vertices_length 3 s3 b3 []) as L3.
  destruct (read_vertices 3 s3 b3 []) as [aVertex s4 b4|s4 b4|s4 b4];
    [|exact Hw1|apply block_inv_SendFail; exact Hw1].
  simpl in L3.
  pose proof (add_triangle_inv t0 (al_tool st) w1
                (nth 0 aVertex (mk_XYZ 0 0 0)) (nth 1 aVertex (mk_XYZ 0 0 0))
                (nth 2 aVertex (mk_XYZ 0 0 0)) Hw1) as Ha.
  destruct (add_triangle _ _ _ _ _) as [mt' w2]. simpl in Ha.
  destruct (ReadLine s4 b4) as [[ol5 s5] b5] eqn:E5.
  apply ReadLine_length in E5. destruct E5 as [L5 _].
  destruct (ReadLine s5 b5) as [[ol6 s6] b6] eqn:E6.
  apply ReadLine_length in E6. destruct E6 as [L6 _].
  simpl. split; [lia|exact Ha].
Qed.

Lemma ReadAscii_while_S (fuel : nat) (st : AsciiLoop Sink) :
  ReadAscii_while (S fuel) st =
  let '(more, st1) := ReadAscii_More st in
  if more then
    match ReadAscii_body st1 with
    | Continue st2 => ReadAscii_while fuel st2
    | Break st2 => Some (ReadAscii_More st2)
    | Return r st2 => Some (r, st2)
    end
  else Some (ReadAscii_More st1).
Proof. reflexivity. Qed.

Lemma ReadAscii_More_eq (st : AsciiLoop Sink) :
  ReadAscii_More st =
  (negb (UserBreak (polls (al_world st))),
   mk_AsciiLoop (al_stream st) (al_buffer st) (al_tool st)
     (with_polls (S (polls (al_world st))) (al_world st))
     (aProgressPos st) (aNbLine st)).
Proof. reflexivity. Qed.

Lemma ReadAscii_while_inv (t0 : list Event) :
  forall (fuel : nat) (st : AsciiLoop Sink),
  (length (al_pending st) < fuel)%nat ->
  block_inv t0 (al_tool st) (al_world st) ->
  exists r st', ReadAscii_while fuel st = Some (r, st')
                /\ block_inv t0 (al_tool st') (al_world st').
Proof.
  induction fuel as [|fuel IH]; intros st Hf Hinv; [lia|].
  rewrite ReadAscii_while_S, ReadAscii_More_eq.
  set (st1 := mk_AsciiLoop _ _ _ _ _ _).
  assert (Hw : block_inv t0 (al_tool st1) (al_world st1))
    by (apply block_inv_polls; exact Hinv).
  assert (Hret : forall st2 : AsciiLoop Sink,
            block_inv t0 (al_tool st2) (al_world st2) ->
            exists r st', Some (ReadAscii_More st2) = Some (r, st')
              /\ block_inv t0 (al_tool st') (al_world st')).
  { intros st2 H2. rewrite ReadAscii_More_eq.
    eexists _, _. split; [reflexivity|]. simpl.
    apply block_inv_polls; exact H2. }
  destruct (negb (UserBreak (polls (al_world st)))).
  - pose proof (ReadAscii_body_inv t0 st1 Hw) as Hb.
    destruct (ReadAscii_body st1) as [st2|st2|r st2].
    + destruct Hb as [Hl Hb]. apply IH; [|exact Hb].
      unfold al_pending in *. simpl in Hl. lia.
    + apply Hret. exact Hb.
    + eexists _, _. split; [reflexivity|exact Hb].
  - apply Hret. exact Hw.
Qed.

(** [ReadAscii] returns, and the events of the block keep to the
    indices of the sink. *)
Lemma ReadAscii_returns (s : istream) (b : Standard_ReadLineBuffer.t)
    (theUntilPos : Z) (w : World Sink) :
  exists r s' b' w' evs,
    ReadAscii s b theUntilPos w = Some (r, s', b', w')
    /\ trace w' = trace w ++ evs /\ triangles_registered evs.
Proof.
  unfold ReadAscii. destruct (tellg s) as [aStartPos s0].
  destruct (ReadLine s0 b) as [[ol s1] b1].
  destruct ol as [l|].
  - destruct (ReadAscii_while_inv (trace w)
                (S (length (pending s1 b1)))
                (mk_AsciiLoop s1 b1 MergeNodeTool.create w
                   (aStartPos + aStepB) 1)) as (r & st' & E & I).
    + unfold al_pending; simpl; lia.
    + simpl. apply block_inv_start.
    + rewrite E. destruct I as (evs & I1 & I2 & _).
      exists r, (al_stream st'), (al_buffer st'), (al_world st'), evs. auto.
  - exists false, s1, b1, (SendFail w msg_premature), [EvSendFail msg_premature].
    split; [reflexivity|]. split; [reflexivity|].
    apply (triangles_registered_snoc [] _ triangles_registered_nil).
    intros; discriminate.
Qed.

(** ** The way through a text of well-formed facets *)

Lemma unlines_cons (l : list byte) (ls : list (list byte)) (tail : list byte) :
  unlines (l :: ls) ++ tail = l ++ Cstd.LF :: (unlines ls ++ tail).
Proof. unfold unlines. simpl. rewrite <- !app_assoc. reflexivity. Qed.

Lemma unlines_app (l1 l2 : list (list byte)) :
  unlines (l1 ++ l2) = unlines l1 ++ unlines l2.
Proof. unfold unlines. rewrite map_app, concat_app. reflexivity. Qed.

Lemma read_vertices_done (vs : list (list byte)) :
  forall s b acc tail,
  ready s b -> pending s b = unlines vs ++ tail ->
  forallb vertex_ok vs = true ->
  exists s' b',
    read_vertices (length vs) s b acc =
      VL_Done (acc ++ map (fun l => snd (ReadVertex l)) vs) s' b'
    /\ ready s' b' /\ pending s' b' = tail.
Proof.
  induction vs as [|v vs IH]; intros s b acc tail Hr Hp Hok.
  - exists s, b. simpl. rewrite app_nil_r. auto.
  - simpl in Hok. apply andb_prop in Hok as [Hv Hvs].
    unfold vertex_ok in Hv. apply andb_prop in Hv as [Hlf Hrv].
    rewrite unlines_cons in Hp.
    destruct (ReadLine_line s b v _ Hr Hp Hlf) as (s1 & b1 & E & Hr1 & Hp1).
    simpl. rewrite E.
    destruct (ReadVertex v) as [ok p] eqn:Ev. simpl in Hrv. subst ok.
    destruct (IH s1 b1 (acc ++ [p]) tail Hr1 Hp1 Hvs) as (s' & b' & E' & H').
    exists s', b'. rewrite E', <- app_assoc. simpl. auto.
Qed.

Lemma read_vertices_eof (vs : list (list byte)) :
  forall n s b acc,
  ready s b -> pending s b = unlines vs ->
  forallb vertex_ok vs = true -> (length vs < n)%nat ->
  exists s' b',
    read_vertices n s b acc = VL_EOF s' b'
    /\ ready s' b' /\ pending s' b' = [] /\ fail s' = true.
Proof.
  induction vs as [|v vs IH]; intros n s b acc Hr Hp Hok Hn.
  - destruct n as [|n]; [simpl in Hn; lia|].
    destruct (ReadLine_eof s b Hr Hp) as (s1 & b1 & E & H).
    exists s1, b1. simpl. rewrite E. split; [reflexivity|exact H].
  - destruct n as [|n]; [simpl in Hn; lia|].
    simpl in Hok. apply andb_prop in Hok as [Hv Hvs].
    unfold vertex_ok in Hv. apply andb_prop in Hv as [Hlf Hrv].
    rewrite <- (app_nil_r (unlines (v :: vs))), unlines_cons, app_nil_r in Hp.
    destruct (ReadLine_line s b v _ Hr Hp Hlf) as (s1 & b1 & E & Hr1 & Hp1).
    simpl. rewrite E.
    destruct (ReadVertex v) as [ok p] eqn:Ev. simpl in Hrv. subst ok.
    apply IH; auto. simpl in Hn. lia.
Qed.


(** The first two statements of the body. *)
Lemma ReadAscii_body_start (st : AsciiLoop Sink) :
  exists s1 pp,
    ReadAscii_body st =
    (let mt := al_tool st in
     let n := aNbLine st in
     let w1 := al_world st in
     let aProgressPos1 := pp in
     match ReadLine s1 (al_buffer st) with
     | (None, s2, b2) =>
         Return false
           (mk_AsciiLoop s2 b2 mt (SendFail w1 msg_premature) aProgressPos1 n)
     | (Some aLine, s2, b2) =>
         if str_starts_with aLine kw_endsolid 8 then
           Break (mk_AsciiLoop s2 b2 mt w1 aProgressPos1 n)
         else if negb (str_starts_with aLine kw_facet 5) then
           Return false
             (mk_AsciiLoop s2 b2 mt
                (SendFail w1 (AsciiString_plus msg_facet (n + 1)))
                aProgressPos1 n)
         else
           let '(aLine2, s3, b3) := ReadLine s2 b2 in
           if match aLine2 with
              | None => true
              | Some l => negb (str_starts_with l kw_outer 5)
              end
           then
             Return false
               (mk_AsciiLoop s3 b3 mt
                  (SendFail w1 (AsciiString_plus msg_facet (n + 1)))
                  aProgressPos1 n)
           else
             match read_vertices 3 s3 b3 [] with
             | VL_Error s4 b4 =>
                 Return false
                   (mk_AsciiLoop s4 b4 mt
                      (SendFail w1 (AsciiString_plus msg_vertex n))
                      aProgressPos1 n)
             | VL_EOF s4 b4 =>
                 Break (mk_AsciiLoop s4 b4 mt w1 aProgressPos1 n)
             | VL_Done aVertex s4 b4 =>
                 let n5 := n + 5 in
                 let zero := mk_XYZ 0 0 0 in
                 let '(mt', w2) :=
                   add_triangle mt w1 (nth 0 aVertex zero)
                     (nth 1 aVertex zero) (nth 2 aVertex zero) in
                 let '(_, s5, b5) := ReadLine s4 b4 in
                 let '(_, s6, b6) := ReadLine s5 b5 in
                 Continue (mk_AsciiLoop s6 b6 mt' w2 aProgressPos1 (n5 + 2))
             end
     end)
    /\ (ready (al_stream st) (al_buffer st) -> ready s1 (al_buffer st))
    /\ pending s1 (al_buffer st) = al_pending st.
Proof.
  unfold ReadAscii_body.
  pose proof (tellg_pending (al_stream st) (al_buffer st)) as Hp.
  pose proof (tellg_ready (al_stream st) (al_buffer st)) as Hr.
  destruct (tellg (al_stream st)) as [aPos s1]. unfold snd in *.
  exists s1.
  destruct (aPos >? aProgressPos st); eexists; (split; [reflexivity|]); auto.
Qed.

Lemma ReadAscii_body_facet (st : AsciiLoop Sink) (f : FacetText)
    (tail : list byte) :
  at_text st (unlines (facet_lines f) ++ tail) -> facet_ok f = true ->
  exists s' b' pp,
    ReadAscii_body st =
      Continue
        (mk_AsciiLoop s' b'
           (fst (decode_step (al_tool st, al_world st) (facet_points f)))
           (snd (decode_step (al_tool st, al_world st) (facet_points f)))
           pp (aNbLine st + 7))
    /\ ready s' b' /\ pending s' b' = tail.
Proof.
  intros [Hr Hp] Hok.
  destruct (ReadAscii_body_start st) as (s1 & pp & -> & Hr1 & Hp1).
  specialize (Hr1 Hr). rewrite Hp in Hp1. clear Hr Hp.
  unfold facet_ok in Hok.
  apply andb_prop in Hok as [Hok Hv3]. apply andb_prop in Hok as [Hok Hv2].
  apply andb_prop in Hok as [Hok Hv1]. apply andb_prop in Hok as [Hok Hou].
  apply andb_prop in Hok as [Hok Hfa]. apply andb_prop in Hok as [Hlf Hes].
  unfold facet_lines in *. simpl in Hlf.
  apply andb_prop in Hlf as [L1 Hlf]. apply andb_prop in Hlf as [L2 Hlf].
  apply andb_prop in Hlf as [L3 Hlf]. apply andb_prop in Hlf as [L4 Hlf].
  apply andb_prop in Hlf as [L5 Hlf]. apply andb_prop in Hlf as [L6 Hlf].
  apply andb_prop in Hlf as [L7 _].
  apply negb_true_iff in Hes.
  rewrite !unlines_cons in Hp1. cbv zeta.
  destruct (ReadLine_line _ _ _ _ Hr1 Hp1 L1) as (s2 & b2 & -> & Hr2 & Hp2).
  rewrite Hes, Hfa. simpl negb. cbv iota.
  destruct (ReadLine_line _ _ _ _ Hr2 Hp2 L2) as (s3 & b3 & -> & Hr3 & Hp3).
  rewrite Hou. simpl negb. cbv iota.
  destruct (read_vertices_done [ft_vertex1 f; ft_vertex2 f; ft_vertex3 f]
              s3 b3 []
              (ft_endloop f ++ Cstd.LF :: ft_endfacet f ++ Cstd.LF
                 :: (unlines [] ++ tail)) Hr3)
    as (s4 & b4 & E4 & Hr4 & Hp4).
  { rewrite !unlines_cons. exact Hp3. }
  { simpl. unfold vertex_ok. rewrite L3, L4, L5, Hv1, Hv2, Hv3. reflexivity. }
  simpl length in E4. rewrite E4. simpl app. simpl map. simpl nth.
  unfold decode_step, facet_points. simpl fst. simpl snd.
  destruct (add_triangle _ _ _ _ _) as [mt' w2]. simpl fst. simpl snd.
  destruct (ReadLine_line _ _ _ _ Hr4 Hp4 L6) as (s5 & b5 & -> & Hr5 & Hp5).
  destruct (ReadLine_line _ _ _ _ Hr5 Hp5 L7) as (s6 & b6 & -> & Hr6 & Hp6).
  exists s6, b6, pp. split; [|auto].
  f_equal. f_equal. lia.
Qed.

Lemma decode_step_polls (p : nat) (mt : MergeNodeTool.t) (w : World Sink)
    (f : Facet) :
  decode_step (mt, with_polls p w) f =
  (fst (decode_step (mt, w) f), with_polls p (snd (decode_step (mt, w) f))).
Proof. destruct f as [[a b] c]. unfold decode_step. simpl. apply add_triangle_polls. Qed.

Lemma unlines_length (ls : list (list byte)) :
  (length ls <= length (unlines ls))%nat.
Proof.
  induction ls as [|l ls IH]; [simpl; lia|].
  rewrite <- (app_nil_r (unlines (l :: ls))), unlines_cons, app_nil_r.
  rewrite length_app. simpl. lia.
Qed.

Lemma facets_lines_length (fs : list FacetText) :
  length (concat (map facet_lines fs)) = (7 * length fs)%nat.
Proof.
  induction fs as [|f fs IH]; [reflexivity|].
  cbn [map concat facet_lines app length]. rewrite IH. lia.
Qed.

Lemma facets_text_length (fs : list FacetText) :
  (7 * length fs <= length (unlines (concat (map facet_lines fs))))%nat.
Proof. rewrite <- facets_lines_length. apply unlines_length. Qed.

(** The passes over a run of well-formed facets. *)
Lemma ReadAscii_while_facets (fs : list FacetText) :
  never_breaks ->
  forall (fuel : nat) (st : AsciiLoop Sink) (tail : list byte),
  at_text st (unlines (concat (map facet_lines fs)) ++ tail) ->
  forallb facet_ok fs = true ->
  exists s' b' pp,
    ReadAscii_while (length fs + fuel) st =
    ReadAscii_while fuel
      (mk_AsciiLoop s' b'
         (fst (decode_facets (map facet_points fs) (al_tool st, al_world st)))
         (with_polls (polls (al_world st) + length fs)
            (snd (decode_facets (map facet_points fs)
                    (al_tool st, al_world st))))
         pp (aNbLine st + 7 * Z.of_nat (length fs)))
    /\ ready s' b' /\ pending s' b' = tail.
Proof.
  intros Hnb. induction fs as [|f fs IH]; intros fuel st tail [Hr Hp] Hok.
  - exists (al_stream st), (al_buffer st), (aProgressPos st). simpl.
    split; [|split; [exact Hr|exact Hp]].
    f_equal. destruct st as [s b mt [k t p] pp n]; simpl.
    unfold with_polls; simpl. f_equal; [f_equal; lia|lia].
  - simpl in Hok. apply andb_prop in Hok as [Hf Hfs].
    cbn [map concat] in Hp. rewrite unlines_app, <- app_assoc in Hp.
    change (length (f :: fs) + fuel)%nat with (S (length fs + fuel)).
    rewrite ReadAscii_while_S, ReadAscii_More_eq, Hnb. simpl negb. cbv iota.
    set (st1 := mk_AsciiLoop _ _ _ _ _ _).
    destruct (ReadAscii_body_facet st1 f _ (conj Hr Hp) Hf)
      as (s1 & b1 & pp1 & -> & Hr1 & Hp1).
    set (st2 := mk_AsciiLoop _ _ _ _ _ _).
    destruct (IH fuel st2 tail (conj Hr1 Hp1) Hfs)
      as (s' & b' & pp & -> & Hr' & Hp').
    exists s', b', pp. split; [|auto].
    f_equal. subst st2 st1.
    cbn [al_tool al_world aNbLine al_stream al_buffer aProgressPos].
    rewrite decode_step_polls. cbn [fst snd].
    rewrite decode_facets_polls. cbn [fst snd].
    change (decode_facets (map facet_points (f :: fs)) (al_tool st, al_world st))
      with (decode_facets (map facet_points fs)
              (decode_step (al_tool st, al_world st) (facet_points f))).
    destruct (decode_step (al_tool st, al_world st) (facet_points f)) as [mt1 w1].
    cbn [fst snd].
    f_equal; [|rewrite length_cons; lia].
    unfold with_polls. cbn [polls sink trace]. f_equal. rewrite length_cons. lia.
Qed.

(** The text ends where a facet could start. *)
Lemma ReadAscii_while_eof (fuel : nat) (st : AsciiLoop Sink) :
  never_breaks -> at_text st [] ->
  exists s' b' pp,
    ReadAscii_while (S fuel) st =
    Some (false,
          mk_AsciiLoop s' b' (al_tool st)
            (SendFail (with_polls (S (polls (al_world st))) (al_world st))
               msg_premature) pp (aNbLine st))
    /\ fail s' = true.
Proof.
  intros Hnb [Hr Hp].
  rewrite ReadAscii_while_S, ReadAscii_More_eq, Hnb. simpl negb. cbv iota.
  set (st1 := mk_AsciiLoop _ _ _ _ _ _).
  destruct (ReadAscii_body_start st1) as (s1 & pp & -> & Hr1 & Hp1).
  specialize (Hr1 Hr). unfold al_pending in *. simpl in Hp1. rewrite Hp in Hp1.
  cbv zeta.
  destruct (ReadLine_eof _ _ Hr1 Hp1) as (s2 & b2 & -> & _ & _ & Hf).
  exists s2, b2, pp. split; [reflexivity|exact Hf].
Qed.



(** The text ends where a vertex line is due. *)
Lemma ReadAscii_while_vertex_eof (fuel : nat) (st : AsciiLoop Sink)
    (lf lo : list byte) (vs : list (list byte)) :
  never_breaks -> at_text st (unlines (lf :: lo :: vs)) ->
  no_lf lf = true -> no_lf lo = true ->
  str_starts_with lf kw_endsolid 8 = false ->
  str_starts_with lf kw_facet 5 = true ->
  str_starts_with lo kw_outer 5 = true ->
  forallb vertex_ok vs = true -> (length vs < 3)%nat ->
  exists s' b' pp,
    ReadAscii_while (S fuel) st =
    Some (true,
          mk_AsciiLoop s' b' (al_tool st)
            (with_polls (S (S (polls (al_world st)))) (al_world st))
            pp (aNbLine st))
    /\ fail s' = true.
Proof.
  intros Hnb [Hr Hp] Hlf Hlo He Hf Ho Hvs Hn.
  rewrite ReadAscii_while_S, ReadAscii_More_eq, Hnb. simpl negb. cbv iota.
  set (st1 := mk_AsciiLoop _ _ _ _ _ _).
  destruct (ReadAscii_body_start st1) as (s1 & pp & -> & Hr1 & Hp1).
  specialize (Hr1 Hr). unfold al_pending in *. simpl in Hp1. rewrite Hp in Hp1.
  rewrite <- (app_nil_r (unlines _)), !unlines_cons in Hp1.
  cbv zeta.
  destruct (ReadLine_line _ _ _ _ Hr1 Hp1 Hlf) as (s2 & b2 & -> & Hr2 & Hp2).
  rewrite He, Hf. simpl negb. cbv iota.
  destruct (ReadLine_line _ _ _ _ Hr2 Hp2 Hlo) as (s3 & b3 & -> & Hr3 & Hp3).
  rewrite Ho. simpl negb. cbv iota.
  rewrite app_nil_r in Hp3.
  destruct (read_vertices_eof vs 3 s3 b3 [] Hr3 Hp3 Hvs Hn)
    as (s4 & b4 & -> & _ & _ & Hfail).
  rewrite ReadAscii_More_eq, Hnb. simpl.
  exists s4, b4, pp. split; [reflexivity|exact Hfail].
Qed.

End AsciiFacts.

(* ===================================================================== *)
(** * Facts about the binary reader *)
(* ===================================================================== *)

Section ReadFacts.
Import IStream.

Lemma read_full (s : istream) (n : nat) :
  (n <= length (avail s))%nat ->
  exists s', read s n = (take n (avail s), s')
             /\ avail s' = drop n (avail s)
             /\ (0 < n -> good s' = true /\ gpos s' = (gpos s + n)%nat)%nat.
Proof.
  intros Hn. unfold read. destruct (good s) eqn:Hg.
  - rewrite (avail_good s Hg) in *.
    assert (Hl : length (take n (rest s)) = n) by (rewrite length_take; lia).
    rewrite Hl, Nat.ltb_irrefl. eexists. split; [reflexivity|].
    split; [|intros _; split; [exact Hg|reflexivity]].
    rewrite avail_good by exact Hg. unfold rest. simpl.
    rewrite <- drop_drop. reflexivity.
  - rewrite (avail_not_good s Hg) in *. simpl in Hn.
    assert (n = 0)%nat as -> by lia.
    eexists. split; [reflexivity|].
    split; [apply avail_not_good, good_set_failbit|lia].
Qed.

Lemma read_lacking (s : istream) (n : nat) :
  (length (avail s) < n)%nat ->
  exists s', read s n = (avail s, s') /\ fail s' = true /\ avail s' = [].
Proof.
  intros Hn. pose proof (read_avail s n) as Ha.
  pose proof (read_short s n) as Hs.
  destruct (read s n) as [got s']. unfold fst, snd in *.
  assert (Hl : (length got < n)%nat).
  { rewrite <- Ha, length_app in Hn. lia. }
  destruct (Hs Hl) as [Hf Hnil]. rewrite Hnil, app_nil_r in Ha. subst got.
  exists s'. auto.
Qed.

End ReadFacts.

Section RecordFacts.

Lemma nth_drop_take (j k m : nat) (l : list byte) :
  (j + k < m)%nat ->
  nth k (drop j (take m l)) Cstd.NUL = nth k (drop j l) Cstd.NUL.
Proof.
  intros H. rewrite !nth_lookup, !lookup_drop, lookup_take_lt by lia.
  reflexivity.
Qed.

Lemma readStlFloat_take (j m : nat) (l : list byte) :
  (j + 4 <= m)%nat ->
  readStlFloat (drop j (take m l)) = readStlFloat (drop j l).
Proof.
  intros H. unfold readStlFloat, uint32_le.
  rewrite !nth_drop_take by lia. reflexivity.
Qed.

Lemma readStlFloatVec3_take (j m : nat) (l : list byte) :
  (j + 12 <= m)%nat ->
  readStlFloatVec3 (drop j (take m l)) = readStlFloatVec3 (drop j l).
Proof.
  intros H. unfold readStlFloatVec3. rewrite !drop_drop.
  rewrite !readStlFloat_take by lia. reflexivity.
Qed.

Lemma facet_of_record_take (m : nat) (l : list byte) :
  (48 <= m)%nat -> facet_of_record (take m l) = facet_of_record l.
Proof.
  intros H. unfold facet_of_record.
  rewrite !readStlFloatVec3_take by lia. reflexivity.
Qed.

Lemma facets_of_take (n : nat) :
  forall (m : nat) (l : list byte),
  (50 * n <= m)%nat -> facets_of n (take m l) = facets_of n l.
Proof.
  induction n as [|n IH]; intros m l H; [reflexivity|].
  cbn [facets_of]. rewrite facet_of_record_take by lia. f_equal.
  replace m with (50 + (m - 50))%nat by lia.
  rewrite <- take_drop_commute. apply IH. lia.
Qed.

Lemma facets_of_app (a b : nat) (l : list byte) :
  facets_of (a + b) l = facets_of a l ++ facets_of b (drop (50 * a) l).
Proof.
  revert l. induction a as [|a IH]; intros l; [reflexivity|].
  cbn [Nat.add facets_of app]. f_equal. rewrite IH, drop_drop.
  replace (50 + 50 * a)%nat with (50 * S a)%nat by lia. reflexivity.
Qed.

End RecordFacts.

Section BinaryFacts.
Context {Sink : Type} {Mesh : RWStl_Reader Sink} {Std : Standard}.
Context {Indicator : Message_ProgressIndicator}.
Import IStream.


Lemma ReadBinary_for_S (fuel : nat) (aNbFacets : Z) (st : BinaryLoop Sink) :
  ReadBinary_for (S fuel) aNbFacets st =
  if aNbFacetRead st <? aNbFacets then
    let '(more, st1) := ReadBinary_More st in
    if more then
      match ReadBinary_body aNbFacets st1 with
      | Continue st2 => ReadBinary_for fuel aNbFacets (ReadBinary_incr st2)
      | Break st2 => Some (ReadBinary_More st2)
      | Return r st2 => Some (r, st2)
      end
    else Some (ReadBinary_More st1)
  else Some (ReadBinary_More st).
Proof. reflexivity. Qed.

Lemma ReadBinary_More_eq (st : BinaryLoop Sink) :
  ReadBinary_More st =
  (negb (UserBreak (polls (bl_world st))),
   mk_BinaryLoop (bl_stream st) (bl_tool st)
     (with_polls (S (polls (bl_world st))) (bl_world st))
     (aNbFacetRead st) (aNbRead st) (aNbFacesInBuffer st) (aBuffer st)
     (aBufferPtr st)).
Proof. reflexivity. Qed.

(** One pass through the body either returns or leaves less to do; it
    keeps the invariant of the block. *)
Lemma ReadBinary_body_inv (t0 : list Event) (aNbFacets : Z)
    (st : BinaryLoop Sink) :
  aNbFacetRead st < aNbFacets ->
  block_inv t0 (bl_tool st) (bl_world st) ->
  match ReadBinary_body aNbFacets st with
  | Continue st' =>
      (bl_measure (ReadBinary_incr st') < bl_measure st)%nat
      /\ block_inv t0 (bl_tool st') (bl_world st')
  | Break st' | Return _ st' => block_inv t0 (bl_tool st') (bl_world st')
  end.
Proof.
  intros Hi Hinv. unfold ReadBinary_body.
  destruct (aNbFacesInBuffer st <=? 0) eqn:Hf.
  - apply Z.leb_le in Hf.
    set (n := Z.min THE_CHUNK_NBFACETS (aNbFacets - aNbFacetRead st)).
    assert (Hn : 1 <= n) by (unfold n, THE_CHUNK_NBFACETS; lia).
    pose proof (read_avail (bl_stream st)
                  (Z.to_nat (n * Z.of_nat aFaceDataLen))) as Ha.
    destruct (read (bl_stream st) _) as [got s'] eqn:Er.
    unfold fst, snd in Ha.
    destruct (negb (Z.of_nat (length got) =? n * Z.of_nat aFaceDataLen)) eqn:Hc.
    + apply block_inv_SendFail; exact Hinv.
    + apply negb_false_iff, Z.eqb_eq in Hc.
      cbn [bl_tool bl_world aBufferPtr aBuffer bl_stream aNbFacetRead
           aNbRead aNbFacesInBuffer].
      pose proof (add_triangle_inv t0 (bl_tool st) (bl_world st)
        (readStlFloatVec3 (drop aVec3Size (drop 0 got)))
        (readStlFloatVec3 (drop (aVec3Size * 2) (drop 0 got)))
        (readStlFloatVec3 (drop (aVec3Size * 3) (drop 0 got))) Hinv) as Hadd.
      destruct (add_triangle _ _ _ _ _) as [mt' w'].
      split; [|exact Hadd].
      unfold bl_measure, ReadBinary_incr. simpl.
      assert (length (avail (bl_stream st)) = length got + length (avail s'))%nat
        by (rewrite <- Ha, length_app; reflexivity).
      unfold aFaceDataLen, aVec3Size in Hc. lia.
  - apply Z.leb_gt in Hf.
    pose proof (add_triangle_inv t0 (bl_tool st) (bl_world st)
      (readStlFloatVec3 (drop aVec3Size (drop (aBufferPtr st) (aBuffer st))))
      (readStlFloatVec3 (drop (aVec3Size * 2) (drop (aBufferPtr st) (aBuffer st))))
      (readStlFloatVec3 (drop (aVec3Size * 3) (drop (aBufferPtr st) (aBuffer st))))
      Hinv) as Hadd.
    destruct (add_triangle _ _ _ _ _) as [mt' w'].
    split; [|exact Hadd].
    unfold bl_measure, ReadBinary_incr. simpl. lia.
Qed.

Lemma ReadBinary_for_inv (t0 : list Event) (aNbFacets : Z) :
  forall (fuel : nat) (st : BinaryLoop Sink),
  (bl_measure st < fuel)%nat ->
  block_inv t0 (bl_tool st) (bl_world st) ->
  exists r st', ReadBinary_for fuel aNbFacets st = Some (r, st')
                /\ block_inv t0 (bl_tool st') (bl_world st').
Proof.
  induction fuel as [|fuel IH]; intros st Hf Hinv; [lia|].
  rewrite ReadBinary_for_S.
  assert (Hret : forall st2 : BinaryLoop Sink,
            block_inv t0 (bl_tool st2) (bl_world st2) ->
            exists r st', Some (ReadBinary_More st2) = Some (r, st')
              /\ block_inv t0 (bl_tool st') (bl_world st')).
  { intros st2 H2. rewrite ReadBinary_More_eq.
    eexists _, _. split; [reflexivity|]. simpl.
    apply block_inv_polls; exact H2. }
  destruct (aNbFacetRead st <? aNbFacets) eqn:Hi; [|apply Hret; exact Hinv].
  apply Z.ltb_lt in Hi.
  rewrite ReadBinary_More_eq.
  set (st1 := mk_BinaryLoop _ _ _ _ _ _ _ _).
  assert (Hw : block_inv t0 (bl_tool st1) (bl_world st1))
    by (apply block_inv_polls; exact Hinv).
  destruct (negb (UserBreak (polls (bl_world st)))); [|apply Hret; exact Hw].
  pose proof (ReadBinary_body_inv t0 aNbFacets st1 Hi Hw) as Hb.
  destruct (ReadBinary_body aNbFacets st1) as [st2|st2|r st2].
  - destruct Hb as [Hl Hb]. apply IH; [|exact Hb].
    assert (bl_measure st1 = bl_measure st) by reflexivity. lia.
  - apply Hret. exact Hb.
  - eexists _, _. split; [reflexivity|exact Hb].
Qed.

(** [ReadBinary] returns, and the events of the block keep to the
    indices of the sink. *)
Lemma ReadBinary_returns (s : istream) (w : World Sink) :
  exists r s' w' evs,
    ReadBinary s w = Some (r, s', w')
    /\ trace w' = trace w ++ evs /\ triangles_registered evs.
Proof.
  unfold ReadBinary. destruct (read s THE_STL_HEADER_SIZE) as [aHeader s1].
  destruct (negb (length aHeader =? THE_STL_HEADER_SIZE)%nat).
  - exists false, s1, (SendFail w msg_corrupted), [EvSendFail msg_corrupted].
    split; [reflexivity|]. split; [reflexivity|].
    apply (triangles_registered_snoc [] _ triangles_registered_nil).
    intros; discriminate.
  - destruct (ReadBinary_for_inv (trace w) (int32_le (drop 80 aHeader))
                (S (length (avail s1)))
                (mk_BinaryLoop s1 MergeNodeTool.create w 0 0 0 [] 0))
      as (r & st' & E & I).
    + unfold bl_measure; simpl; lia.
    + simpl. apply block_inv_start.
    + rewrite E. destruct I as (evs & I1 & I2 & _).
      exists r, (bl_stream st'), (bl_world st'), evs. auto.
Qed.

(** More fuel does not change a result. *)
Lemma ReadBinary_for_mono (aNbFacets : Z) :
  forall (fuel : nat) (st : BinaryLoop Sink) r,
  ReadBinary_for fuel aNbFacets st = Some r ->
  forall k, ReadBinary_for (fuel + k) aNbFacets st = Some r.
Proof.
  induction fuel as [|fuel IH]; intros st r H k; [discriminate|].
  change (S fuel + k)%nat with (S (fuel + k)).
  rewrite ReadBinary_for_S in *.
  destruct (aNbFacetRead st <? aNbFacets); [|exact H].
  destruct (ReadBinary_More st) as [more st1].
  destruct more; [|exact H].
  destruct (ReadBinary_body aNbFacets st1) as [st2|st2|r2 st2];
    [apply IH; exact H|exact H|exact H].
Qed.

(** ** The way through the records of a block *)


(** A pass with facets left in the buffer. *)
Lemma ReadBinary_body_buffered (aNbFacets : Z) (st : BinaryLoop Sink) :
  0 < aNbFacesInBuffer st ->
  ReadBinary_body aNbFacets st =
  Continue
    (mk_BinaryLoop (bl_stream st)
       (fst (decode_step (bl_tool st, bl_world st)
               (facet_of_record (drop (aBufferPtr st) (aBuffer st)))))
       (snd (decode_step (bl_tool st, bl_world st)
               (facet_of_record (drop (aBufferPtr st) (aBuffer st)))))
       (aNbFacetRead st) (aNbRead st) (aNbFacesInBuffer st) (aBuffer st)
       (aBufferPtr st)).
Proof.
  intros Hf. unfold ReadBinary_body.
  apply Z.leb_gt in Hf. rewrite Hf.
  unfold decode_step, facet_of_record. cbn [fst snd].
  change (aVec3Size * 2)%nat with 24%nat.
  change (aVec3Size * 3)%nat with 36%nat.
  change aVec3Size with 12%nat.
  destruct (add_triangle _ _ _ _ _) as [mt' w']. reflexivity.
Qed.

(** A pass that fills the buffer. *)
Lemma ReadBinary_body_refill (aNbFacets : Z) (st : BinaryLoop Sink) :
  aNbFacesInBuffer st <= 0 -> aNbFacetRead st < aNbFacets ->
  let n := Z.min 80 (aNbFacets - aNbFacetRead st) in
  (50 * Z.to_nat n <= length (avail (bl_stream st)))%nat ->
  exists s',
    ReadBinary_body aNbFacets st =
    ReadBinary_body aNbFacets
      (mk_BinaryLoop s' (bl_tool st) (bl_world st) (aNbFacetRead st)
         (aNbRead st) n (take (50 * Z.to_nat n) (avail (bl_stream st))) 0)
    /\ avail s' = drop (50 * Z.to_nat n) (avail (bl_stream st)).
Proof.
  intros Hf Hi n Hl. unfold ReadBinary_body at 1.
  apply Z.leb_le in Hf. rewrite Hf.
  change (Z.min THE_CHUNK_NBFACETS (aNbFacets - aNbFacetRead st)) with n.
  assert (Hn : 1 <= n) by (unfold n; lia).
  assert (Hto : Z.to_nat (n * Z.of_nat aFaceDataLen) = (50 * Z.to_nat n)%nat)
    by (unfold aFaceDataLen, aVec3Size; lia).
  rewrite Hto.
  destruct (read_full (bl_stream st) _ Hl) as (s' & -> & Ha & _).
  rewrite length_take, Nat.min_l by exact Hl.
  assert (He : (Z.of_nat (50 * Z.to_nat n) =? n * Z.of_nat aFaceDataLen) = true)
    by (apply Z.eqb_eq; unfold aFaceDataLen, aVec3Size; lia).
  rewrite He. cbn [negb]. exists s'. split; [|exact Ha].
  rewrite ReadBinary_body_buffered by (cbn [aNbFacesInBuffer]; lia).
  unfold decode_step, facet_of_record.
  cbn [bl_stream bl_tool bl_world aNbFacetRead aNbRead aNbFacesInBuffer
       aBuffer aBufferPtr fst snd].
  change (aVec3Size * 2)%nat with 24%nat.
  change (aVec3Size * 3)%nat with 36%nat.
  change aVec3Size with 12%nat.
  destruct (add_triangle _ _ _ _ _) as [mt' w']. reflexivity.
Qed.

(** A pass that finds the stream short of the chunk it asks for. *)
Lemma ReadBinary_body_short (aNbFacets : Z) (st : BinaryLoop Sink) :
  aNbFacesInBuffer st <= 0 -> aNbFacetRead st < aNbFacets ->
  let n := Z.min 80 (aNbFacets - aNbFacetRead st) in
  (length (avail (bl_stream st)) < 50 * Z.to_nat n)%nat ->
  exists s',
    ReadBinary_body aNbFacets st =
    Return false
      (mk_BinaryLoop s' (bl_tool st) (SendFail (bl_world st) msg_read_failed)
         (aNbFacetRead st) (aNbRead st) n (aBuffer st) (aBufferPtr st))
    /\ fail s' = true /\ avail s' = [].
Proof.
  intros Hf Hi n Hl. unfold ReadBinary_body.
  apply Z.leb_le in Hf. rewrite Hf.
  change (Z.min THE_CHUNK_NBFACETS (aNbFacets - aNbFacetRead st)) with n.
  assert (Hn : 1 <= n) by (unfold n; lia).
  assert (Hto : Z.to_nat (n * Z.of_nat aFaceDataLen) = (50 * Z.to_nat n)%nat)
    by (unfold aFaceDataLen, aVec3Size; lia).
  rewrite Hto.
  destruct (read_lacking (bl_stream st) _ Hl) as (s' & -> & Hfail & Ha).
  assert (He : (Z.of_nat (length (avail (bl_stream st))) =?
                n * Z.of_nat aFaceDataLen) = false)
    by (apply Z.eqb_neq; unfold aFaceDataLen, aVec3Size; lia).
  rewrite He. cbn [negb]. exists s'. auto.
Qed.

(** The passes over the facets left in the buffer. *)
Lemma ReadBinary_for_buffer (aNbFacets : Z) :
  never_breaks ->
  forall (f fuel : nat) (st : BinaryLoop Sink),
  aNbFacesInBuffer st = Z.of_nat f ->
  aNbFacetRead st + Z.of_nat f <= aNbFacets ->
  ReadBinary_for (f + fuel) aNbFacets st =
  ReadBinary_for fuel aNbFacets
    (mk_BinaryLoop (bl_stream st)
       (fst (decode_facets (facets_of f (drop (aBufferPtr st) (aBuffer st)))
               (bl_tool st, bl_world st)))
       (with_polls (polls (bl_world st) + f)
          (snd (decode_facets
                  (facets_of f (drop (aBufferPtr st) (aBuffer st)))
                  (bl_tool st, bl_world st))))
       (aNbFacetRead st + Z.of_nat f) (aNbRead st + Z.of_nat f) 0
       (aBuffer st) (aBufferPtr st + 50 * f)).
Proof.
  intros Hnb. induction f as [|f IH]; intros fuel st Hf Hi.
  - cbn [Nat.add]. f_equal.
    destruct st as [s mt [k t p] i r fb buf ptr].
    cbn [bl_stream bl_tool bl_world aNbFacetRead aNbRead aNbFacesInBuffer
         aBuffer aBufferPtr fst snd facets_of decode_facets fold_left
         polls sink trace with_polls] in *.
    subst fb. unfold with_polls. cbn [polls sink trace].
    f_equal; [f_equal|..]; lia.
  - change (S f + fuel)%nat with (S (f + fuel)).
    rewrite ReadBinary_for_S.
    replace (aNbFacetRead st <? aNbFacets) with true
      by (symmetry; apply Z.ltb_lt; lia).
    rewrite ReadBinary_More_eq, Hnb. cbn [negb].
    set (st1 := mk_BinaryLoop _ _ _ _ _ _ _ _).
    rewrite ReadBinary_body_buffered by (subst st1; cbn [aNbFacesInBuffer]; lia).
    rewrite IH; subst st1;
      cbn [ReadBinary_incr aNbFacesInBuffer aNbFacetRead aNbRead bl_stream
           bl_tool bl_world aBuffer aBufferPtr PS_Next]; [|lia|lia].
    f_equal. unfold PS_Next.
    rewrite decode_step_polls. cbn [fst snd].
    cbn [facets_of].
    change (decode_facets (?x :: ?l) ?a) with (decode_facets l (decode_step a x)).
    rewrite decode_facets_polls.
    rewrite <- (drop_drop (aBuffer st)).
    destruct (decode_step (bl_tool st, bl_world st)
                (facet_of_record (drop (aBufferPtr st) (aBuffer st))))
      as [mt1 w1].
    cbn [fst snd].
    unfold aFaceDataLen, aVec3Size.
    f_equal; [|lia|lia|lia].
    unfold with_polls. cbn [polls sink trace]. f_equal. lia.
Qed.

(** A pass that fills the buffer goes on as if the buffer had been
    full at its start. *)
Lemma ReadBinary_for_refill (aNbFacets : Z) (st : BinaryLoop Sink) :
  never_breaks ->
  aNbFacesInBuffer st <= 0 -> aNbFacetRead st < aNbFacets ->
  let n := Z.min 80 (aNbFacets - aNbFacetRead st) in
  (50 * Z.to_nat n <= length (avail (bl_stream st)))%nat ->
  exists s',
    avail s' = drop (50 * Z.to_nat n) (avail (bl_stream st)) /\
    forall fuel,
      ReadBinary_for fuel aNbFacets st =
      ReadBinary_for fuel aNbFacets
        (mk_BinaryLoop s' (bl_tool st) (bl_world st) (aNbFacetRead st)
           (aNbRead st) n (take (50 * Z.to_nat n) (avail (bl_stream st))) 0).
Proof.
  intros Hnb Hf Hi n Hl.
  destruct (ReadBinary_body_refill aNbFacets
              (mk_BinaryLoop (bl_stream st) (bl_tool st)
                 (with_polls (S (polls (bl_world st))) (bl_world st))
                 (aNbFacetRead st) (aNbRead st) (aNbFacesInBuffer st)
                 (aBuffer st) (aBufferPtr st)) Hf Hi Hl) as (s' & Hb & Ha).
  exists s'. split; [exact Ha|].
  intros [|fuel]; [reflexivity|].
  rewrite !ReadBinary_for_S, !ReadBinary_More_eq.
  cbn [bl_stream bl_tool bl_world aNbFacetRead aNbRead aNbFacesInBuffer
       aBuffer aBufferPtr] in *.
  apply Z.ltb_lt in Hi. rewrite Hi, Hnb. cbn [negb].
  fold n in Hb. rewrite Hb. reflexivity.
Qed.

Lemma binary_decoded_chunk (rem : Z) (L : nat) :
  0 < rem -> let n := Z.to_nat (Z.min 80 rem) in
  (50 * n <= L)%nat ->
  binary_decoded rem L = (n + binary_decoded (rem - Z.of_nat n) (L - 50 * n))%nat
  /\ (50 * rem <=? Z.of_nat L)
      = (50 * (rem - Z.of_nat n) <=? Z.of_nat (L - 50 * n)%nat).
Proof.
  intros Hr n Hn. unfold binary_decoded.
  assert (Hn1 : (1 <= n <= 80)%nat) by (unfold n; lia).
  assert (Hnr : Z.of_nat n <= rem) by (unfold n; lia).
  destruct (50 * rem <=? Z.of_nat L) eqn:E1;
    destruct (50 * (rem - Z.of_nat n) <=? Z.of_nat (L - 50 * n)%nat) eqn:E2;
    try apply Z.leb_le in E1; try apply Z.leb_gt in E1;
    try apply Z.leb_le in E2; try apply Z.leb_gt in E2; try lia.
  split; [|reflexivity].
  assert (n = 80%nat) as -> by (unfold n in *; lia).
  replace L with (4000 * 1 + (L - 50 * 80))%nat at 1 by lia.
  rewrite (Nat.mul_comm 4000 1), Nat.div_add_l by lia. lia.
Qed.

Lemma decode_facets_app (l1 l2 : list Facet)
    (st : MergeNodeTool.t * World Sink) :
  decode_facets (l1 ++ l2) st = decode_facets l2 (decode_facets l1 st).
Proof. unfold decode_facets. apply fold_left_app. Qed.

(** The passes of the loop from a state with an empty buffer: chunk
    after chunk, up to the announced count or to the chunk that the
    stream cannot fill. *)
Lemma ReadBinary_for_chunks (aNbFacets : Z) :
  never_breaks ->
  forall (R : nat) (st : BinaryLoop Sink),
  aNbFacesInBuffer st = 0 ->
  Z.to_nat (aNbFacets - aNbFacetRead st) = R ->
  let bytes := avail (bl_stream st) in
  let rem := aNbFacets - aNbFacetRead st in
  let ok := 50 * rem <=? Z.of_nat (length bytes) in
  let D := binary_decoded rem (length bytes) in
  let X := decode_facets (facets_of D bytes) (bl_tool st, bl_world st) in
  exists fuel st',
    ReadBinary_for fuel aNbFacets st = Some (ok, st')
    /\ sink (bl_world st') = sink (snd X)
    /\ trace (bl_world st') =
        trace (snd X) ++ (if ok then [] else [EvSendFail msg_read_failed])
    /\ avail (bl_stream st') = (if ok then drop (50 * D) bytes else [])
    /\ (ok = false -> fail (bl_stream st') = true).
Proof.
  intros Hnb R. induction R as [R IH] using lt_wf_ind.
  intros st Hf HR bytes rem ok D X.
  destruct (aNbFacetRead st <? aNbFacets) eqn:Hi.
  - apply Z.ltb_lt in Hi.
    set (n := Z.min 80 rem).
    assert (Hn : 1 <= n <= 80) by (unfold n, rem; lia).
    destruct (le_lt_dec (50 * Z.to_nat n) (length bytes)) as [Hl|Hl].
    + (* the chunk is there *)
      destruct (ReadBinary_for_refill aNbFacets st Hnb ltac:(lia) Hi Hl)
        as (s' & Ha & Hrefill).
      fold rem in Hrefill. fold n in Hrefill. fold bytes in Hrefill, Ha.
      set (st1 := mk_BinaryLoop s' (bl_tool st) (bl_world st)
                    (aNbFacetRead st) (aNbRead st) n
                    (take (50 * Z.to_nat n) bytes) 0) in *.
      pose proof (fun fuel => ReadBinary_for_buffer aNbFacets Hnb
                    (Z.to_nat n) fuel st1) as Hbuf.
      cbn [st1 bl_stream bl_tool bl_world aNbFacetRead aNbRead
           aNbFacesInBuffer aBuffer aBufferPtr] in Hbuf.
      rewrite drop_0, facets_of_take in Hbuf by lia.
      set (Xn := decode_facets (facets_of (Z.to_nat n) bytes)
                   (bl_tool st, bl_world st)) in *.
      set (st2 := mk_BinaryLoop s' (fst Xn)
                    (with_polls (polls (bl_world st) + Z.to_nat n) (snd Xn))
                    (aNbFacetRead st + Z.of_nat (Z.to_nat n))
                    (aNbRead st + Z.of_nat (Z.to_nat n)) 0
                    (take (50 * Z.to_nat n) bytes) (0 + 50 * Z.to_nat n)) in *.
      destruct (IH (Z.to_nat (aNbFacets - aNbFacetRead st2))
                  ltac:(subst st2; cbn [aNbFacetRead]; lia) st2
                  eq_refl eq_refl)
        as (fuel & st' & Hrun & Hsink & Htrace & Havail & Hfail).
      change (Z.to_nat (Z.min 80 (aNbFacets - aNbFacetRead st)))
        with (Z.to_nat n) in Ha.
      cbn [st2 bl_stream bl_tool bl_world aNbFacetRead]
        in Hsink, Htrace, Havail, Hfail, Hrun.
      rewrite Ha in Hsink, Htrace, Havail, Hfail, Hrun.
      rewrite length_drop in Hsink, Htrace, Havail, Hfail, Hrun.
      destruct (binary_decoded_chunk rem (length bytes) ltac:(unfold rem; lia) Hl)
        as [HD Hok].
      fold n in HD, Hok.
      replace (aNbFacets - (aNbFacetRead st + Z.of_nat (Z.to_nat n)))
        with (rem - Z.of_nat (Z.to_nat n)) in * by (unfold rem; lia).
      rewrite <- Hok in *. fold ok in Hsink, Htrace, Havail, Hfail, Hrun.
      fold D in HD.
      set (D' := binary_decoded (rem - Z.of_nat (Z.to_nat n))
                   (length bytes - 50 * Z.to_nat n)) in *.
      rewrite decode_facets_polls in Hsink, Htrace. cbn [fst snd] in Hsink, Htrace.
      assert (HX : decode_facets (facets_of D' (drop (50 * Z.to_nat n) bytes))
                     (fst Xn, snd Xn) = X).
      { unfold X. rewrite HD, facets_of_app, decode_facets_app.
        fold Xn. destruct Xn; reflexivity. }
      rewrite HX in Hsink, Htrace.
      exists (Z.to_nat n + fuel)%nat, st'.
      rewrite Hrefill, Hbuf by (try reflexivity; unfold rem in *; lia).
      split; [exact Hrun|]. split; [exact Hsink|]. split; [exact Htrace|].
      split; [|exact Hfail].
      rewrite Havail. destruct ok; [|reflexivity].
      rewrite drop_drop, HD. f_equal. lia.
    + (* the stream is short of the chunk *)
      destruct (ReadBinary_body_short aNbFacets
                  (mk_BinaryLoop (bl_stream st) (bl_tool st)
                     (with_polls (S (polls (bl_world st))) (bl_world st))
                     (aNbFacetRead st) (aNbRead st) (aNbFacesInBuffer st)
                     (aBuffer st) (aBufferPtr st))
                  ltac:(cbn [aNbFacesInBuffer]; lia) Hi Hl)
        as (s' & Hb & Hfail & Ha).
      assert (Hok : ok = false) by (apply Z.leb_gt; unfold rem, n in *; lia).
      assert (HD : D = 0%nat).
      { unfold D, binary_decoded. fold ok. rewrite Hok.
        rewrite Nat.div_small by lia. reflexivity. }
      exists 1%nat. eexists.
      rewrite ReadBinary_for_S, ReadBinary_More_eq, Hnb.
      replace (aNbFacetRead st <? aNbFacets) with true
        by (symmetry; apply Z.ltb_lt; exact Hi).
      cbn [negb]. rewrite Hb. rewrite Hok.
      split; [reflexivity|].
      unfold X. rewrite HD. cbn [facets_of decode_facets fold_left snd
        bl_world bl_stream].
      auto.
  - (* the announced count is reached *)
    apply Z.ltb_ge in Hi.
    assert (Hok : ok = true) by (apply Z.leb_le; unfold rem; lia).
    assert (HD : D = 0%nat).
    { unfold D, binary_decoded. fold ok. rewrite Hok. unfold rem. lia. }
    exists 1%nat. eexists.
    rewrite ReadBinary_for_S, ReadBinary_More_eq, Hnb.
    replace (aNbFacetRead st <? aNbFacets) with false
      by (symmetry; apply Z.ltb_ge; exact Hi).
    cbn [negb]. rewrite Hok. split; [reflexivity|].
    unfold X. rewrite HD. cbn [facets_of decode_facets fold_left snd
      bl_world bl_stream].
    rewrite app_nil_r, Nat.mul_0_r, drop_0.
    repeat split; auto. discriminate.
Qed.

End BinaryFacts.

Section DetectFacts.
Import IStream.

Lemma unget_iter (d : list byte) (n : nat) :
  forall p, (n <= p)%nat ->
  Nat.iter n unget (mk_istream d p false false false)
  = mk_istream d (p - n) false false false.
Proof.
  induction n as [|n IH]; intros p Hp.
  - simpl. rewrite Nat.sub_0_r. reflexivity.
  - rewrite Nat.iter_succ, IH by lia. unfold unget, good. cbn.
    destruct (p - n)%nat as [|q] eqn:E; [lia|].
    unfold set_gpos. cbn. f_equal. lia.
Qed.

Lemma IsAscii_scan_true (l : list byte) :
  IsAscii_scan l = true <-> (forall c, In c l -> Cstd.code c <= 0x7E).
Proof.
  induction l as [|c l IH]; simpl.
  - split; [intros _ c []|reflexivity].
  - change (Cstd.code "~"%byte) with 126.
    destruct (Cstd.code c >? 126) eqn:E.
    + split; [discriminate|]. intros H.
      specialize (H c (or_introl eq_refl)). lia.
    + rewrite IH. split.
      * intros H x [<-|Hx]; [lia|auto].
      * intros H x Hx. apply H. right; exact Hx.
Qed.

Lemma IsAscii_scan_false (l : list byte) :
  IsAscii_scan l = false <-> (exists c, In c l /\ 0x7E < Cstd.code c).
Proof.
  split.
  - intros H. induction l as [|c l IH]; simpl in H; [discriminate|].
    change (Cstd.code "~"%byte) with 126 in H.
    destruct (Cstd.code c >? 126) eqn:E.
    + exists c. split; [left; reflexivity|lia].
    + destruct (IH H) as (x & Hx & Hc). exists x. split; [right|]; assumption.
  - intros (c & Hc & Hgt). destruct (IsAscii_scan l) eqn:E; [|reflexivity].
    apply IsAscii_scan_true with (c := c) in E; [lia|exact Hc].
Qed.

End DetectFacts.

Section TopFacts.
Context {Sink : Type} {Mesh : RWStl_Reader Sink} {Std : Standard}.
Context {Indicator : Message_ProgressIndicator}.
Import IStream.

(** The probe of a file of 134 bytes or more reads the 134 bytes, puts
    them back and scans them. *)
Lemma IsAscii_probe (data : list byte) (w : World Sink) :
  (134 <= length data)%nat ->
  IsAscii (open data) w = (IsAscii_scan (take 134 data), open data, w).
Proof.
  intros Hl. unfold IsAscii, read.
  change (good (open data)) with true. cbv iota.
  change (rest (open data)) with (drop 0 data). rewrite drop_0.
  change THE_STL_MIN_FILE_SIZE with 134%nat.
  assert (Hlen : length (take 134 data) = 134%nat)
    by (rewrite length_take; lia).
  rewrite Hlen. change (134 <? 134)%nat with false. cbv iota.
  change (fail _) with false. cbv iota.
  change (set_gpos (open data) (gpos (open data) + 134))
    with (mk_istream data 134 false false false).
  rewrite unget_iter by lia.
  rewrite Hlen. change (134 <? 134)%nat with false. cbv iota.
  reflexivity.
Qed.

(** ** The binary block as a whole *)

Lemma ReadBinary_spec (s : istream) (w : World Sink) :
  never_breaks ->
  (84 <= length (avail s))%nat ->
  let bytes := drop 84 (avail s) in
  let aNbFacets := int32_le (drop 80 (take 84 (avail s))) in
  let ok := 50 * aNbFacets <=? Z.of_nat (length bytes) in
  let D := binary_decoded aNbFacets (length bytes) in
  let X := decode_facets (facets_of D bytes) (MergeNodeTool.create, w) in
  exists s' w',
    ReadBinary s w = Some (ok, s', w')
    /\ sink w' = sink (snd X)
    /\ trace w' =
       trace (snd X) ++ (if ok then [] else [EvSendFail msg_read_failed])
    /\ avail s' = (if ok then drop (50 * D) bytes else [])
    /\ (ok = false -> fail s' = true).
Proof.
  intros Hnb Hl bytes aNbFacets ok D X. unfold ReadBinary.
  destruct (read_full s THE_STL_HEADER_SIZE Hl) as (s1 & -> & Ha & _).
  assert (Hh : length (take THE_STL_HEADER_SIZE (avail s)) = THE_STL_HEADER_SIZE)
    by (rewrite length_take; unfold THE_STL_HEADER_SIZE in *; lia).
  rewrite Hh, Nat.eqb_refl. cbn [negb].
  change THE_STL_HEADER_SIZE with 84%nat in *. fold aNbFacets.
  set (st0 := mk_BinaryLoop s1 MergeNodeTool.create w 0 0 0 [] 0).
  destruct (ReadBinary_for_inv (trace w) aNbFacets (S (length (avail s1))) st0)
    as (r & st' & E & _).
  { unfold bl_measure, st0; simpl; lia. }
  { apply block_inv_start. }
  destruct (ReadBinary_for_chunks aNbFacets Hnb _ st0 eq_refl eq_refl)
    as (fuel & st'' & E' & H).
  cbn [st0 bl_stream bl_tool bl_world aNbFacetRead] in E', H.
  rewrite Z.sub_0_r, Ha in E', H. fold bytes in E', H. fold ok in E', H.
  fold D in H. fold X in H.
  pose proof (ReadBinary_for_mono aNbFacets _ _ _ E fuel) as M1.
  pose proof (ReadBinary_for_mono aNbFacets _ _ _ E' (S (length (avail s1)))) as M2.
  rewrite Nat.add_comm, M1 in M2. injection M2 as -> ->.
  rewrite E. exists (bl_stream st''), (bl_world st''). split; [reflexivity|exact H].
Qed.

End TopFacts.

Lemma count_events_snoc (kind : Event -> bool) (t : list Event) (e : Event) :
  count_events kind (t ++ [e])
  = (count_events kind t + (if kind e then 1 else 0))%nat.
Proof.
  unfold count_events. rewrite List.filter_app, length_app. simpl.
  destruct (kind e); reflexivity.
Qed.

Section MergeFacts.
Context {Sink : Type} {Mesh : RWStl_Reader Sink} {Std : Standard}.
Context {Indicator : Message_ProgressIndicator}.


Lemma XYZ_eta (p : gp_XYZ) : mk_XYZ (XYZ_X p) (XYZ_Y p) (XYZ_Z p) = p.
Proof. destruct p; reflexivity. Qed.

Lemma find_node_hit (chain : list (gp_XYZ * Z)) (p v : gp_XYZ) (i : Z) :
  In (p, i) chain -> MergeNodeTool.IsEqual p v = true ->
  exists j, NCollection_DataMap.find_node MergeNodeTool.IsEqual chain v = Some j.
Proof.
  induction chain as [|[k0 v0] chain IH]; intros Hin He; [destruct Hin|].
  simpl. destruct (MergeNodeTool.IsEqual k0 v) eqn:E; [eexists; reflexivity|].
  destruct Hin as [[= -> ->]|Hin]; [congruence|]. apply IH; assumption.
Qed.

Lemma find_node_miss (chain : list (gp_XYZ * Z)) (v : gp_XYZ) :
  (forall k i, In (k, i) chain -> MergeNodeTool.IsEqual k v = false) ->
  NCollection_DataMap.find_node MergeNodeTool.IsEqual chain v = None.
Proof.
  induction chain as [|[k0 v0] chain IH]; intros H; [reflexivity|].
  simpl. rewrite (H k0 v0 (or_introl eq_refl)). apply IH.
  intros k i Hin. apply (H k i). right; exact Hin.
Qed.

Lemma Find_hit (m : MergeNodeTool.t) (p v : gp_XYZ) :
  stored m p -> MergeNodeTool.IsEqual p v = true ->
  MergeNodeTool.HashCode v (nb_buckets m) = MergeNodeTool.HashCode p (nb_buckets m) ->
  exists j, MergeNodeTool.Find m v = Some j.
Proof.
  intros [i Hin] He Hh.
  unfold MergeNodeTool.Find, NCollection_DataMap.Find.
  unfold NCollection_DataMap.chain_of in *. fold (nb_buckets m) in *.
  rewrite Hh. eapply find_node_hit; eassumption.
Qed.

Lemma Find_miss (m : MergeNodeTool.t) (ks : list gp_XYZ) (v : gp_XYZ) :
  keys_among m ks ->
  (forall k, In k ks -> MergeNodeTool.IsEqual k v = false) ->
  MergeNodeTool.Find m v = None.
Proof.
  intros Hk Hne.
  unfold MergeNodeTool.Find, NCollection_DataMap.Find.
  apply find_node_miss. intros k i Hin. apply Hne.
  unfold NCollection_DataMap.chain_of in Hin.
  destruct (NCollection_DataMap.myData1 (MergeNodeTool.myMap m) !! _)
    as [chain|] eqn:E; simpl in Hin; [|destruct Hin].
  eapply Hk; eassumption.
Qed.

Lemma keys_among_create : keys_among MergeNodeTool.create [].
Proof.
  intros h chain k i H. unfold MergeNodeTool.create in H. simpl in H.
  rewrite lookup_empty in H. discriminate.
Qed.

Lemma Bind_keys (m : MergeNodeTool.t) (ks : list gp_XYZ) (p : gp_XYZ) (i : Z) :
  keys_among m ks -> keys_among (MergeNodeTool.Bind m p i) (p :: ks).
Proof.
  intros Hk h chain k j Hl Hin.
  unfold MergeNodeTool.Bind, NCollection_DataMap.Bind in Hl. simpl in Hl.
  destruct (decide (MergeNodeTool.HashCode p
              (NCollection_DataMap.myNbBuckets (MergeNodeTool.myMap m)) = h))
    as [<-|Hne].
  - rewrite lookup_insert_eq in Hl. injection Hl as <-.
    destruct Hin as [[= <- <-]|Hin]; [left; reflexivity|]. right.
    unfold NCollection_DataMap.chain_of in Hin.
    destruct (NCollection_DataMap.myData1 (MergeNodeTool.myMap m) !! _)
      as [chain|] eqn:E; simpl in Hin; [|destruct Hin].
    eapply Hk; eassumption.
  - rewrite lookup_insert_ne in Hl by exact Hne. right.
    eapply Hk; eassumption.
Qed.

Lemma Bind_stored_new (m : MergeNodeTool.t) (p : gp_XYZ) (i : Z) :
  stored (MergeNodeTool.Bind m p i) p.
Proof.
  exists i. unfold MergeNodeTool.Bind, NCollection_DataMap.Bind,
    NCollection_DataMap.chain_of. simpl.
  rewrite lookup_insert_eq. simpl. left; reflexivity.
Qed.

Lemma Bind_stored_old (m : MergeNodeTool.t) (p q : gp_XYZ) (i : Z) :
  stored m q -> stored (MergeNodeTool.Bind m p i) q.
Proof.
  intros [j Hin]. exists j.
  unfold MergeNodeTool.Bind, NCollection_DataMap.Bind,
    NCollection_DataMap.chain_of in *. simpl.
  destruct (decide (MergeNodeTool.HashCode p
              (NCollection_DataMap.myNbBuckets (MergeNodeTool.myMap m))
            = MergeNodeTool.HashCode q
              (NCollection_DataMap.myNbBuckets (MergeNodeTool.myMap m))))
    as [E|Hne].
  - rewrite E, lookup_insert_eq. simpl. right. rewrite <- E in Hin |- *.
    rewrite E. rewrite E in Hin. exact Hin.
  - rewrite lookup_insert_ne by exact Hne. exact Hin.
Qed.

Lemma Bind_nb (m : MergeNodeTool.t) (p : gp_XYZ) (i : Z) :
  nb_buckets (MergeNodeTool.Bind m p i) = nb_buckets m.
Proof. reflexivity. Qed.

(** A vertex that is found costs no call to the sink. *)
Lemma AddNode_hit (m : MergeNodeTool.t) (w : World Sink) (v : gp_XYZ) (j : Z) :
  MergeNodeTool.Find m v = Some j ->
  MergeNodeTool.AddNode m w (XYZ_X v) (XYZ_Y v) (XYZ_Z v) = (j, m, w).
Proof.
  intros H. unfold MergeNodeTool.AddNode. rewrite XYZ_eta, H. reflexivity.
Qed.

(** A vertex that is not found is registered and bound. *)
Lemma AddNode_miss (m : MergeNodeTool.t) (w : World Sink) (v : gp_XYZ) :
  MergeNodeTool.Find m v = None ->
  MergeNodeTool.AddNode m w (XYZ_X v) (XYZ_Y v) (XYZ_Z v)
  = (fst (reader_AddNode w v),
     MergeNodeTool.Bind m v (fst (reader_AddNode w v)),
     snd (reader_AddNode w v)).
Proof.
  intros H. unfold MergeNodeTool.AddNode. rewrite XYZ_eta, H.
  destruct (reader_AddNode w v); reflexivity.
Qed.

Lemma reader_AddNode_count (w : World Sink) (v : gp_XYZ) :
  count_events is_AddNode (trace (snd (reader_AddNode w v)))
  = S (count_events is_AddNode (trace w)).
Proof.
  unfold reader_AddNode. destruct (AddNode (sink w) v) as [i k]. simpl.
  rewrite count_events_snoc. simpl. lia.
Qed.

(** The registration of a triangle is no registration of a node. *)
Lemma add_triangle_tail_count (w : World Sink) (n1 n2 n3 : Z) :
  count_events is_AddNode
    (trace (if negb (n1 =? n2) && negb (n2 =? n3) && negb (n3 =? n1)
            then reader_AddTriangle w n1 n2 n3 else w))
  = count_events is_AddNode (trace w).
Proof.
  destruct (negb (n1 =? n2) && negb (n2 =? n3) && negb (n3 =? n1));
    [|reflexivity].
  unfold reader_AddTriangle. simpl. rewrite count_events_snoc. simpl. lia.
Qed.

Lemma reuses_hit (m : MergeNodeTool.t) (ps : list gp_XYZ) (v : gp_XYZ) :
  nb_buckets m = 1024 -> (forall p, In p ps -> stored m p) ->
  reuses_one_of ps v = true ->
  exists j, MergeNodeTool.Find m v = Some j.
Proof.
  intros Hnb Hst Hr. unfold reuses_one_of in Hr.
  apply existsb_exists in Hr. destruct Hr as (p & Hp & Hr).
  unfold reuses in Hr. apply andb_prop in Hr as [He Hh].
  apply Z.eqb_eq in Hh.
  apply (Find_hit m p v (Hst p Hp) He). rewrite Hnb. exact Hh.
Qed.

(** A facet whose vertices are all found leaves the map as it is and
    registers no node. *)
Lemma decode_step_reuses (m : MergeNodeTool.t) (w : World Sink)
    (ps : list gp_XYZ) (f : Facet) :
  nb_buckets m = 1024 -> (forall p, In p ps -> stored m p) ->
  facet_reuses ps f = true ->
  fst (decode_step (m, w) f) = m /\
  count_events is_AddNode (trace (snd (decode_step (m, w) f)))
  = count_events is_AddNode (trace w).
Proof.
  intros Hnb Hst Hf. destruct f as [[a b] c]. simpl in Hf.
  apply andb_prop in Hf as [Hf Hc]. apply andb_prop in Hf as [Ha Hb].
  destruct (reuses_hit m ps a Hnb Hst Ha) as [ja Ea].
  destruct (reuses_hit m ps b Hnb Hst Hb) as [jb Eb].
  destruct (reuses_hit m ps c Hnb Hst Hc) as [jc Ec].
  unfold decode_step, add_triangle. cbn [fst snd].
  rewrite (AddNode_hit m w a ja Ea), (AddNode_hit m w b jb Eb),
    (AddNode_hit m w c jc Ec).
  split.
  - destruct (negb (ja =? jb) && negb (jb =? jc) && negb (jc =? ja)); reflexivity.
  - rewrite <- (add_triangle_tail_count w ja jb jc).
    destruct (negb (ja =? jb) && negb (jb =? jc) && negb (jc =? ja)); reflexivity.
Qed.

Lemma decode_facets_reuses (ps : list gp_XYZ) (fs : list Facet) :
  forall (m : MergeNodeTool.t) (w : World Sink),
  nb_buckets m = 1024 -> (forall p, In p ps -> stored m p) ->
  forallb (facet_reuses ps) fs = true ->
  count_events is_AddNode (trace (snd (decode_facets fs (m, w))))
  = count_events is_AddNode (trace w).
Proof.
  induction fs as [|f fs IH]; intros m w Hnb Hst Hfs; [reflexivity|].
  simpl in Hfs. apply andb_prop in Hfs as [Hf Hfs].
  change (decode_facets (f :: fs) (m, w))
    with (decode_facets fs (decode_step (m, w) f)).
  destruct (decode_step_reuses m w ps f Hnb Hst Hf) as [Hm Hc].
  destruct (decode_step (m, w) f) as [m' w']. simpl in Hm, Hc. subst m'.
  rewrite (IH m w' Hnb Hst Hfs). exact Hc.
Qed.

(** The first facet of three points that are not within the tolerance
    of one another registers the three of them. *)
Lemma decode_step_first (w : World Sink) (p1 p2 p3 : gp_XYZ) :
  MergeNodeTool.IsEqual p1 p2 = false ->
  MergeNodeTool.IsEqual p1 p3 = false ->
  MergeNodeTool.IsEqual p2 p3 = false ->
  let r := decode_step (MergeNodeTool.create, w) (p1, p2, p3) in
  nb_buckets (fst r) = 1024
  /\ (forall p, In p [p1; p2; p3] -> stored (fst r) p)
  /\ count_events is_AddNode (trace (snd r))
     = (count_events is_AddNode (trace w) + 3)%nat.
Proof.
  intros H12 H13 H23. unfold decode_step, add_triangle. cbn [fst snd].
  pose proof keys_among_create as K0.
  rewrite AddNode_miss
    by (apply (Find_miss _ [] _ K0); intros k []).
  set (n1 := fst (reader_AddNode w p1)).
  set (w1 := snd (reader_AddNode w p1)).
  set (m1 := MergeNodeTool.Bind MergeNodeTool.create p1 n1).
  pose proof (Bind_keys _ _ p1 n1 K0 : keys_among m1 [p1]) as K1.
  rewrite AddNode_miss
    by (apply (Find_miss _ [p1] _ K1); intros k [<-|[]]; exact H12).
  set (n2 := fst (reader_AddNode w1 p2)).
  set (w2 := snd (reader_AddNode w1 p2)).
  set (m2 := MergeNodeTool.Bind m1 p2 n2).
  pose proof (Bind_keys _ _ p2 n2 K1 : keys_among m2 [p2; p1]) as K2.
  rewrite AddNode_miss
    by (apply (Find_miss _ [p2; p1] _ K2); intros k [<-|[<-|[]]]; assumption).
  set (n3 := fst (reader_AddNode w2 p3)).
  set (w3 := snd (reader_AddNode w2 p3)).
  set (m3 := MergeNodeTool.Bind m2 p3 n3).
  assert (Hr : forall X : MergeNodeTool.t * World Sink,
            X = (if negb (n1 =? n2) && negb (n2 =? n3) && negb (n3 =? n1)
                 then (m3, reader_AddTriangle w3 n1 n2 n3) else (m3, w3)) ->
            fst X = m3 /\
            count_events is_AddNode (trace (snd X))
            = count_events is_AddNode (trace w3)).
  { intros X ->. rewrite <- (add_triangle_tail_count w3 n1 n2 n3).
    destruct (negb (n1 =? n2) && negb (n2 =? n3) && negb (n3 =? n1));
      split; reflexivity. }
  destruct (Hr _ eq_refl) as [-> ->].
  split; [reflexivity|]. split.
  - intros p [<-|[<-|[<-|[]]]].
    + apply Bind_stored_old, Bind_stored_old, Bind_stored_new.
    + apply Bind_stored_old, Bind_stored_new.
    + apply Bind_stored_new.
  - unfold w3, w2, w1. rewrite !reader_AddNode_count. lia.
Qed.

End MergeFacts.

(* ===================================================================== *)
(** * The blocks as a whole *)
(* ===================================================================== *)

Section BlockFacts.
Context {Sink : Type} {Mesh : RWStl_Reader Sink} {Std : Standard}.
Context {Indicator : Message_ProgressIndicator}.
Import IStream Standard_ReadLineBuffer.

(** Neither the resolution of vertices nor the registration of a
    triangle sends a failure message. *)
Lemma AddNode_fails (m : MergeNodeTool.t) (w : World Sink) (x y z : float) :
  count_events is_SendFail
    (trace (snd (MergeNodeTool.AddNode m w x y z)))
  = count_events is_SendFail (trace w).
Proof.
  unfold MergeNodeTool.AddNode. destruct (MergeNodeTool.Find m _); [reflexivity|].
  unfold reader_AddNode. destruct (AddNode (sink w) _) as [i k]. simpl.
  rewrite count_events_snoc. simpl. lia.
Qed.

Lemma decode_step_fails (st : MergeNodeTool.t * World Sink) (f : Facet) :
  count_events is_SendFail (trace (snd (decode_step st f)))
  = count_events is_SendFail (trace (snd st)).
Proof.
  destruct st as [m w], f as [[a b] c]. unfold decode_step, add_triangle.
  cbn [fst snd].
  pose proof (AddNode_fails m w (XYZ_X a) (XYZ_Y a) (XYZ_Z a)) as H1.
  destruct (MergeNodeTool.AddNode m w _ _ _) as [[n1 m1] w1].
  pose proof (AddNode_fails m1 w1 (XYZ_X b) (XYZ_Y b) (XYZ_Z b)) as H2.
  destruct (MergeNodeTool.AddNode m1 w1 _ _ _) as [[n2 m2] w2].
  pose proof (AddNode_fails m2 w2 (XYZ_X c) (XYZ_Y c) (XYZ_Z c)) as H3.
  destruct (MergeNodeTool.AddNode m2 w2 _ _ _) as [[n3 m3] w3].
  cbn [snd] in *.
  destruct (negb (n1 =? n2) && negb (n2 =? n3) && negb (n3 =? n1));
    cbn [snd]; [|lia].
  unfold reader_AddTriangle. cbn [trace]. rewrite count_events_snoc.
  simpl. lia.
Qed.

Lemma decode_facets_fails (fs : list Facet) :
  forall (st : MergeNodeTool.t * World Sink),
  count_events is_SendFail (trace (snd (decode_facets fs st)))
  = count_events is_SendFail (trace (snd st)).
Proof.
  induction fs as [|f fs IH]; intros st; [reflexivity|].
  change (decode_facets (f :: fs) st) with (decode_facets fs (decode_step st f)).
  rewrite IH. apply decode_step_fails.
Qed.

(** The header line of a block, and the loop after it. *)
Lemma ReadAscii_header (s : istream) (b : Standard_ReadLineBuffer.t)
    (theUntilPos : Z) (w : World Sink) (h txt : list byte) :
  ready s b -> pending s b = h ++ Cstd.LF :: txt -> no_lf h = true ->
  exists s1 b1 pp,
    ReadAscii s b theUntilPos w =
    match ReadAscii_while (S (length txt))
            (mk_AsciiLoop s1 b1 MergeNodeTool.create w pp 1) with
    | None => None
    | Some (r, st') => Some (r, al_stream st', al_buffer st', al_world st')
    end
    /\ ready s1 b1 /\ pending s1 b1 = txt.
Proof.
  intros Hr Hp Hh. unfold ReadAscii.
  pose proof (tellg_pending s b) as Hp0. pose proof (tellg_ready s b Hr) as Hr0.
  destruct (tellg s) as [aStartPos s0]. unfold snd in *. rewrite Hp in Hp0.
  destruct (ReadLine_line _ _ _ _ Hr0 Hp0 Hh) as (s1 & b1 & -> & Hr1 & Hp1).
  exists s1, b1, (aStartPos + aStepB). rewrite Hp1. auto.
Qed.

(** A block of well-formed facets, and what follows them: the loop
    after the facets starts with the facets decoded. *)
Lemma ReadAscii_facets (s : istream) (b : Standard_ReadLineBuffer.t)
    (theUntilPos : Z) (w : World Sink) (h : list byte)
    (fs : list FacetText) (tail : list byte) :
  never_breaks ->
  ready s b -> no_lf h = true -> forallb facet_ok fs = true ->
  pending s b = unlines (h :: concat (map facet_lines fs)) ++ tail ->
  exists st1 fuel,
    ReadAscii s b theUntilPos w =
    match ReadAscii_while (S fuel) st1 with
    | None => None
    | Some (r, st') => Some (r, al_stream st', al_buffer st', al_world st')
    end
    /\ at_text st1 tail
    /\ al_tool st1
       = fst (decode_facets (map facet_points fs) (MergeNodeTool.create, w))
    /\ al_world st1
       = with_polls (polls w + length fs)
           (snd (decode_facets (map facet_points fs)
                   (MergeNodeTool.create, w)))
    /\ aNbLine st1 = 1 + 7 * Z.of_nat (length fs).
Proof.
  intros Hnb Hr Hh Hfs Hp.
  rewrite unlines_cons in Hp.
  destruct (ReadAscii_header s b theUntilPos w h _ Hr Hp Hh)
    as (s1 & b1 & pp & -> & Hr1 & Hp1).
  pose proof (facets_text_length fs) as Hlen.
  set (txt := unlines (concat (map facet_lines fs)) ++ tail) in *.
  assert (Hfuel : S (length txt)
                  = (length fs + S (length txt - length fs))%nat).
  { unfold txt. rewrite length_app. lia. }
  rewrite Hfuel.
  destruct (ReadAscii_while_facets fs Hnb (S (length txt - length fs))
              (mk_AsciiLoop s1 b1 MergeNodeTool.create w pp 1) tail
              (conj Hr1 Hp1) Hfs)
    as (s2 & b2 & pp2 & -> & Hr2 & Hp2).
  eexists (mk_AsciiLoop s2 b2 _ _ pp2 _), (length txt - length fs)%nat.
  split; [reflexivity|]. split; [split; assumption|].
  cbn [al_tool al_world aNbLine]. auto.
Qed.

(** ** The text that stops after a facet *)

Lemma ReadAscii_truncated (s : istream) (b : Standard_ReadLineBuffer.t)
    (theUntilPos : Z) (w : World Sink) (h : list byte)
    (fs : list FacetText) :
  never_breaks ->
  ready s b -> no_lf h = true -> forallb facet_ok fs = true ->
  pending s b = unlines (h :: concat (map facet_lines fs)) ->
  let X := decode_facets (map facet_points fs) (MergeNodeTool.create, w) in
  exists s' b' w',
    ReadAscii s b theUntilPos w = Some (false, s', b', w')
    /\ fail s' = true
    /\ sink w' = sink (snd X)
    /\ trace w' = trace (snd X) ++ [EvSendFail msg_premature].
Proof.
  intros Hnb Hr Hh Hfs Hp X.
  rewrite <- (app_nil_r (unlines _)) in Hp.
  destruct (ReadAscii_facets s b theUntilPos w h fs [] Hnb Hr Hh Hfs Hp)
    as (st1 & fuel & -> & Hat & Ht & Hw & Hn).
  destruct (ReadAscii_while_eof fuel st1 Hnb Hat)
    as (s2 & b2 & pp2 & -> & Hf).
  exists s2, b2. eexists. cbn [al_stream al_buffer al_world al_tool].
  split; [reflexivity|]. split; [exact Hf|]. rewrite Hw. split; reflexivity.
Qed.

(** ** The text that stops where a vertex line is due *)

Lemma ReadAscii_vertex_eof (s : istream) (b : Standard_ReadLineBuffer.t)
    (theUntilPos : Z) (w : World Sink) (h : list byte)
    (fs : list FacetText) (lf lo : list byte) (vs : list (list byte)) :
  never_breaks ->
  ready s b -> no_lf h = true -> forallb facet_ok fs = true ->
  opening_ok lf lo = true ->
  forallb vertex_ok vs = true -> (length vs < 3)%nat ->
  pending s b =
    unlines (h :: concat (map facet_lines fs) ++ lf :: lo :: vs) ->
  let X := decode_facets (map facet_points fs) (MergeNodeTool.create, w) in
  exists s' b' w',
    ReadAscii s b theUntilPos w = Some (true, s', b', w')
    /\ sink w' = sink (snd X)
    /\ trace w' = trace (snd X)
    /\ count_events is_SendFail (trace w')
       = count_events is_SendFail (trace w).
Proof.
  intros Hnb Hr Hh Hfs Hop Hvs Hn Hp X.
  unfold opening_ok in Hop.
  apply andb_prop in Hop as [Hop Ho]. apply andb_prop in Hop as [Hop Hf].
  apply andb_prop in Hop as [Hop He]. apply andb_prop in Hop as [Hlf Hlo].
  apply negb_true_iff in He.
  change (h :: concat (map facet_lines fs) ++ lf :: lo :: vs)
    with ((h :: concat (map facet_lines fs)) ++ lf :: lo :: vs) in Hp.
  rewrite unlines_app in Hp.
  destruct (ReadAscii_facets s b theUntilPos w h fs _ Hnb Hr Hh Hfs Hp)
    as (st1 & fuel & -> & Hat & Ht & Hw & Hnl).
  destruct (ReadAscii_while_vertex_eof fuel st1 lf lo vs Hnb Hat
              Hlf Hlo He Hf Ho Hvs Hn)
    as (s2 & b2 & pp2 & -> & _).
  exists s2, b2. eexists. cbn [al_stream al_buffer al_world al_tool].
  split; [reflexivity|]. rewrite Hw.
  split; [reflexivity|]. split; [reflexivity|].
  cbn [with_polls trace]. apply (decode_facets_fails _ (_, w)).
Qed.

(** ** The text with a line that opens no facet *)


End BlockFacts.

(* ===================================================================== *)
(** * Lines of the first chunk, and a parse failure under Read *)
(* ===================================================================== *)

Section LineFacts.
Import IStream Standard_ReadLineBuffer.

(** The fuel that [ReadLine] hands over is enough: any fuel above the
    number of characters the stream can still deliver gives the same
    result. *)
Lemma ReadLine_chunks_enough (size : nat) :
  forall (fuel1 fuel2 : nat) (s : istream) (chunk acc : list byte),
  (length (avail s) < fuel1)%nat -> (length (avail s) < fuel2)%nat ->
  ReadLine_chunks fuel1 size s chunk acc
  = ReadLine_chunks fuel2 size s chunk acc.
Proof.
  induction fuel1 as [|fuel1 IH]; intros fuel2 s chunk acc H1 H2; [lia|].
  destruct fuel2 as [|fuel2]; [lia|].
  simpl. destruct (split_eol chunk) as [[l r]|]; [reflexivity|].
  pose proof (read_avail s size) as Ha.
  destruct (read s size) as [got s']. unfold fst, snd in Ha.
  destruct (bad s'); [reflexivity|].
  destruct got as [|g got]; [reflexivity|].
  apply IH; rewrite <- Ha, length_app in *; simpl in *; lia.
Qed.

Lemma ReadLine_chunks_Some (fuel size : nat) (s : istream)
    (chunk acc l r : list byte) :
  split_eol chunk = Some (l, r) ->
  ReadLine_chunks fuel size s chunk acc = (Some (acc ++ l), s, r).
Proof. intros H. destruct fuel; simpl; rewrite H; reflexivity. Qed.

Lemma ReadLine_chunks_None (fuel size : nat) (s : istream)
    (chunk acc : list byte) :
  split_eol chunk = None ->
  ReadLine_chunks (S fuel) size s chunk acc =
  let '(got, s') := read s size in
  if bad s' then (None, s', [])
  else
    match got with
    | [] =>
        match acc ++ chunk with
        | [] => (None, s', [])
        | last => (Some last, s', [])
        end
    | _ :: _ => ReadLine_chunks fuel size s' got (acc ++ chunk)
    end.
Proof. intros H. simpl. rewrite H. reflexivity. Qed.

(** A line that lies in the buffer is handed out without a look at the
    stream. *)
Lemma ReadLine_buffered (s : istream) (b : t) (l r : list byte) :
  split_eol (myReadBuffer b) = Some (l, r) ->
  ReadLine s b = (Some l, s, mk (myMaxBufferSize b) r).
Proof.
  intros H. unfold ReadLine.
  rewrite (ReadLine_chunks_Some _ _ _ _ _ _ _ H). reflexivity.
Qed.

(** With nothing in the buffer, a chunk is read; when the stream holds a
    whole chunk it stays good. *)
Lemma ReadLine_fill (s : istream) (b : t) (l r : list byte) :
  myReadBuffer b = [] -> good s = true ->
  (0 < myMaxBufferSize b <= length (rest s))%nat ->
  split_eol (take (myMaxBufferSize b) (rest s)) = Some (l, r) ->
  ReadLine s b
  = (Some l, set_gpos s (gpos s + myMaxBufferSize b), mk (myMaxBufferSize b) r).
Proof.
  intros Hb Hg Hsz Hl. unfold ReadLine. rewrite Hb.
  rewrite (ReadLine_chunks_None _ _ _ _ _ (eq_refl : split_eol [] = None)).
  unfold read. rewrite Hg.
  assert (Hlen : length (take (myMaxBufferSize b) (rest s)) = myMaxBufferSize b)
    by (rewrite length_take; lia).
  rewrite Hlen, Nat.ltb_irrefl.
  assert (Hbad : bad (set_gpos s (gpos s + myMaxBufferSize b)) = false).
  { unfold good in Hg. unfold bad, set_gpos. simpl.
    destruct (badbit s); [|reflexivity].
    rewrite !orb_true_r in Hg. discriminate. }
  rewrite Hbad.
  rewrite (ReadLine_chunks_Some _ _ _ _ _ _ _ Hl).
  destruct (take (myMaxBufferSize b) (rest s)) as [|g got] eqn:Et;
    [simpl in Hlen; lia|].
  reflexivity.
Qed.

Lemma split_eol_take (txt : list byte) :
  forall (n : nat) (l t : list byte),
  split_eol txt = Some (l, t) -> (length l < n)%nat ->
  split_eol (take n txt) = Some (l, take (n - length l - 1) t).
Proof.
  induction txt as [|c txt IH]; intros n l t H Hn; simpl in H; [discriminate|].
  destruct n as [|n]; [lia|]. simpl.
  destruct (Cstd.code c =? 10).
  - injection H as <- <-. simpl. rewrite Nat.sub_0_r. reflexivity.
  - destruct (split_eol txt) as [[l' t']|]; [|discriminate].
    injection H as <- <-. simpl in Hn.
    rewrite (IH n l' t' eq_refl) by lia. reflexivity.
Qed.

End LineFacts.

Section ParseFailure.
Context {Sink : Type} {Mesh : RWStl_Reader Sink} {Std : Standard}.
Context {Indicator : Message_ProgressIndicator}.
Import IStream Standard_ReadLineBuffer.

(** A text whose second line opens neither a facet nor the end of the
    solid, the two lines lying in the first 1024 bytes of a file of
    1024 bytes or more: the only event is the message "Error:
    unexpected format of facet at line 2" of the text parser, and
    [Read] returns true. *)
Lemma Read_true_after_bad_facet (w : World Sink) (h l tail : list byte) :
  never_breaks ->
  no_lf h = true -> no_lf l = true ->
  str_starts_with l kw_endsolid 8 = false ->
  str_starts_with l kw_facet 5 = false ->
  (length h + length l + 2 <= 1024)%nat ->
  (1024 <= length (h ++ Cstd.LF :: l ++ Cstd.LF :: tail))%nat ->
  IsAscii_scan (take 134 (h ++ Cstd.LF :: l ++ Cstd.LF :: tail)) = true ->
  exists w',
    Read (Some (h ++ Cstd.LF :: l ++ Cstd.LF :: tail)) w = Some (true, w')
    /\ sink w' = sink w
    /\ trace w' = trace w ++ [EvSendFail (AsciiString_plus msg_facet 2)].
Proof.
  intros Hnb Hh Hl He Hf Hlen Hdata Hscan.
  set (data := h ++ Cstd.LF :: l ++ Cstd.LF :: tail) in *.
  unfold Read.
  assert (Hd : Read_detect (length data) (open data) w = (true, open data, w)).
  { unfold Read_detect.
    destruct (length data <? THE_STL_MIN_FILE_SIZE)%nat eqn:E; [reflexivity|].
    apply Nat.ltb_ge in E. rewrite (IsAscii_probe data w E), Hscan.
    reflexivity. }
  rewrite Hd. cbn [Read_while]. change (good (open data)) with true. cbv iota.
  (* the header line *)
  unfold ReadAscii. change (tellg (open data)) with (0, open data).
  cbv beta iota zeta.
  assert (H1 : split_eol (take 1024 data)
               = Some (h, take (1024 - length h - 1) (l ++ Cstd.LF :: tail))).
  { apply split_eol_take; [apply split_eol_line; exact Hh|lia]. }
  assert (H2 : split_eol (take (1024 - length h - 1) (l ++ Cstd.LF :: tail))
               = Some (l, take (1024 - length h - 1 - length l - 1) tail)).
  { apply split_eol_take; [apply split_eol_line; exact Hl|lia]. }
  rewrite (ReadLine_fill (open data)
             (Standard_ReadLineBuffer.create THE_BUFFER_SIZE) h
             (take (1024 - length h - 1) (l ++ Cstd.LF :: tail))
             eq_refl eq_refl);
    [|change (rest (open data)) with (drop 0 data); rewrite drop_0;
      change (myMaxBufferSize (create THE_BUFFER_SIZE)) with 1024%nat; lia
     |change (rest (open data)) with (drop 0 data); rewrite drop_0;
      exact H1].
  cbn [myMaxBufferSize create].
  set (s1 := set_gpos (open data) (gpos (open data) + THE_BUFFER_SIZE)).
  (* the pass of the loop *)
  rewrite ReadAscii_while_S, ReadAscii_More_eq, Hnb. cbn [negb].
  unfold ReadAscii_body.
  cbn [al_stream al_buffer al_tool al_world aProgressPos aNbLine].
  change (tellg s1) with (Z.of_nat (gpos s1), s1).
  change (Z.of_nat (gpos s1) >? 0 + aStepB) with false. cbv iota.
  rewrite (ReadLine_buffered s1
             (mk THE_BUFFER_SIZE
                (take (1024 - length h - 1) (l ++ Cstd.LF :: tail)))
             l _ H2).
  rewrite He, Hf. cbn [negb]. cbv iota.
  eexists. split; [reflexivity|]. split; reflexivity.
Qed.

End ParseFailure.

(* ===================================================================== *)
(** * Read returns *)
(* ===================================================================== *)

Section Totality.
Context {Sink : Type} {Mesh : RWStl_Reader Sink} {Std : Standard}.
Context {Indicator : Message_ProgressIndicator}.
Import IStream Standard_ReadLineBuffer.

Lemma skip_while_length (p : byte -> bool) (l : list byte) :
  (length (Cstd.skip_while p l) <= length l)%nat.
Proof.
  induction l as [|c l IH]; simpl; [lia|]. destruct (p c); simpl; lia.
Qed.

Lemma ws_avail (s : istream) :
  (length (avail (ws s)) <= length (avail s))%nat.
Proof.
  unfold ws, avail. destruct (good s) eqn:Hg.
  - pose proof (skip_while_length Cstd.isspace (rest s)) as Hl.
    destruct (Cstd.skip_while Cstd.isspace (rest s)) as [|c r] eqn:E.
    + unfold good. cbn [set_eofbit set_gpos eofbit failbit badbit orb negb].
      simpl. lia.
    + unfold good in *. cbn [set_gpos eofbit failbit badbit].
      rewrite Hg. unfold rest in *. cbn [set_gpos gpos rdbuf].
      rewrite !length_drop. rewrite length_drop in Hl.
      cbn [length] in *. lia.
  - rewrite good_set_failbit. simpl; lia.
Qed.

Lemma avail_le_rdbuf (s : istream) : (length (avail s) <= length (rdbuf s))%nat.
Proof.
  unfold avail, rest. destruct (good s); [|simpl; lia].
  rewrite length_drop. lia.
Qed.

Lemma read_rdbuf (s : istream) (n : nat) : rdbuf (snd (read s n)) = rdbuf s.
Proof.
  unfold read. destruct (good s); [|reflexivity].
  destruct (length (take n (rest s)) <? n)%nat; reflexivity.
Qed.

Lemma unget_rdbuf (s : istream) : rdbuf (unget s) = rdbuf s.
Proof.
  unfold unget. destruct (good (set_eofbit s false)); [|reflexivity].
  destruct (gpos (set_eofbit s false)); reflexivity.
Qed.

Lemma unget_iter_rdbuf (n : nat) (s : istream) :
  rdbuf (Nat.iter n unget s) = rdbuf s.
Proof.
  induction n as [|n IH]; [reflexivity|].
  rewrite Nat.iter_succ, unget_rdbuf. exact IH.
Qed.

Lemma Read_detect_rdbuf (theEnd : nat) (s : istream) (w : World Sink) :
  rdbuf (snd (fst (Read_detect theEnd s w))) = rdbuf s.
Proof.
  unfold Read_detect. destruct (theEnd <? THE_STL_MIN_FILE_SIZE)%nat;
    [reflexivity|].
  unfold IsAscii. pose proof (read_rdbuf s THE_STL_MIN_FILE_SIZE) as Hr.
  destruct (read s THE_STL_MIN_FILE_SIZE) as [got s1]. unfold snd in Hr.
  destruct (fail s1); [exact Hr|].
  destruct (length got <? THE_STL_MIN_FILE_SIZE)%nat; simpl;
    rewrite unget_iter_rdbuf; exact Hr.
Qed.

(** ** The text reader uses up text *)

Lemma ReadAscii_body_pending (st : AsciiLoop Sink) :
  match ReadAscii_body st with
  | Continue st' | Break st' | Return _ st' =>
      (length (al_pending st') <= length (al_pending st))%nat
  end.
Proof.
  destruct (ReadAscii_body_start st) as (s1 & pp & -> & _ & Hp1).
  cbv zeta. rewrite <- Hp1. unfold al_pending.
  destruct (ReadLine s1 (al_buffer st)) as [[ol s2] b2] eqn:E1.
  apply ReadLine_length in E1. destruct E1 as [L1 _].
  destruct ol as [aLine|]; [|exact L1].
  destruct (str_starts_with aLine kw_endsolid 8); [exact L1|].
  destruct (negb (str_starts_with aLine kw_facet 5)); [exact L1|].
  destruct (ReadLine s2 b2) as [[ol2 s3] b3] eqn:E2.
  apply ReadLine_length in E2. destruct E2 as [L2 _].
  destruct (match ol2 with
            | Some l => negb (str_starts_with l kw_outer 5)
            | None => true
            end); [simpl; lia|].
  pose proof (read_vertices_length 3 s3 b3 []) as L3.
  destruct (read_vertices 3 s3 b3 []) as [aVertex s4 b4|s4 b4|s4 b4];
    simpl in L3; [|simpl; lia|simpl; lia].
  destruct (add_triangle _ _ _ _ _) as [mt' w2].
  destruct (ReadLine s4 b4) as [[ol5 s5] b5] eqn:E5.
  apply ReadLine_length in E5. destruct E5 as [L5 _].
  destruct (ReadLine s5 b5) as [[ol6 s6] b6] eqn:E6.
  apply ReadLine_length in E6. destruct E6 as [L6 _].
  simpl. lia.
Qed.

Lemma ReadAscii_while_pending :
  forall (fuel : nat) (st : AsciiLoop Sink) r st',
  ReadAscii_while fuel st = Some (r, st') ->
  (length (al_pending st') <= length (al_pending st))%nat.
Proof.
  induction fuel as [|fuel IH]; intros st r st' H; [discriminate|].
  rewrite ReadAscii_while_S, ReadAscii_More_eq in H.
  set (st1 := mk_AsciiLoop _ _ _ _ _ _) in H.
  assert (H1 : al_pending st1 = al_pending st) by reflexivity.
  destruct (negb (UserBreak (polls (al_world st)))).
  - pose proof (ReadAscii_body_pending st1) as Hb. rewrite H1 in Hb.
    destruct (ReadAscii_body st1) as [st2|st2|r2 st2].
    + apply IH in H. lia.
    + rewrite ReadAscii_More_eq in H. injection H as _ <-.
      unfold al_pending in *. simpl. lia.
    + injection H as _ <-. lia.
  - rewrite ReadAscii_More_eq in H. injection H as _ <-.
    unfold al_pending. simpl. lia.
Qed.

Lemma ReadAscii_pending (s : istream) (b : Standard_ReadLineBuffer.t)
    (theUntilPos : Z) (w : World Sink) r s' b' w' :
  ReadAscii s b theUntilPos w = Some (r, s', b', w') ->
  r = true -> (length (pending s' b') < length (pending s b))%nat.
Proof.
  unfold ReadAscii. pose proof (tellg_pending s b) as Ht.
  destruct (tellg s) as [aStartPos s0]. unfold snd in Ht. rewrite <- Ht.
  destruct (ReadLine s0 b) as [[ol s1] b1] eqn:E.
  apply ReadLine_length in E. destruct E as [_ L].
  destruct ol as [l|]; [|intros [= <- _ _ _]; discriminate].
  specialize (L ltac:(eexists; reflexivity)).
  destruct (ReadAscii_while _ _) as [[r0 st']|] eqn:Ew; [|discriminate].
  apply ReadAscii_while_pending in Ew. unfold al_pending in Ew. simpl in Ew.
  intros [= <- <- <- <-] _. lia.
Qed.

(** ** The binary reader uses up bytes *)

Lemma ReadBinary_body_avail (aNbFacets : Z) (st : BinaryLoop Sink) :
  match ReadBinary_body aNbFacets st with
  | Continue st' | Break st' | Return _ st' =>
      (length (avail (bl_stream st')) <= length (avail (bl_stream st)))%nat
  end.
Proof.
  unfold ReadBinary_body. destruct (aNbFacesInBuffer st <=? 0).
  - pose proof (read_avail (bl_stream st)
      (Z.to_nat (Z.min THE_CHUNK_NBFACETS (aNbFacets - aNbFacetRead st)
                 * Z.of_nat aFaceDataLen))) as Ha.
    destruct (read (bl_stream st) _) as [got s']. unfold fst, snd in Ha.
    assert (Hl : (length (avail s') <= length (avail (bl_stream st)))%nat)
      by (rewrite <- Ha, length_app; lia).
    destruct (negb _); [exact Hl|].
    destruct (add_triangle _ _ _ _ _) as [mt' w']. exact Hl.
  - destruct (add_triangle _ _ _ _ _) as [mt' w']. simpl. lia.
Qed.

Lemma ReadBinary_for_avail (aNbFacets : Z) :
  forall (fuel : nat) (st : BinaryLoop Sink) r st',
  ReadBinary_for fuel aNbFacets st = Some (r, st') ->
  (length (avail (bl_stream st')) <= length (avail (bl_stream st)))%nat.
Proof.
  induction fuel as [|fuel IH]; intros st r st' H; [discriminate|].
  rewrite ReadBinary_for_S in H.
  destruct (aNbFacetRead st <? aNbFacets).
  - rewrite ReadBinary_More_eq in H.
    set (st1 := mk_BinaryLoop _ _ _ _ _ _ _ _) in H.
    destruct (negb (UserBreak (polls (bl_world st)))).
    + pose proof (ReadBinary_body_avail aNbFacets st1) as Hb.
      destruct (ReadBinary_body aNbFacets st1) as [st2|st2|r2 st2].
      * apply IH in H. simpl in H, Hb. lia.
      * rewrite ReadBinary_More_eq in H. injection H as _ <-. simpl in *. lia.
      * injection H as _ <-. simpl in Hb. lia.
    + rewrite ReadBinary_More_eq in H. injection H as _ <-. simpl. lia.
  - rewrite ReadBinary_More_eq in H. injection H as _ <-. simpl. lia.
Qed.

Lemma ReadBinary_avail (s : istream) (w : World Sink) r s' w' :
  ReadBinary s w = Some (r, s', w') ->
  r = true -> (length (avail s') < length (avail s))%nat.
Proof.
  unfold ReadBinary. pose proof (read_avail s THE_STL_HEADER_SIZE) as Ha.
  destruct (read s THE_STL_HEADER_SIZE) as [aHeader s1]. unfold fst, snd in Ha.
  destruct (negb (length aHeader =? THE_STL_HEADER_SIZE)%nat) eqn:E;
    [intros [= <- _ _]; discriminate|].
  apply negb_false_iff, Nat.eqb_eq in E.
  destruct (ReadBinary_for _ _ _) as [[r0 st']|] eqn:Ef; [|discriminate].
  apply ReadBinary_for_avail in Ef. simpl in Ef.
  intros [= <- <- <-] _.
  rewrite <- Ha, length_app, E. unfold THE_STL_HEADER_SIZE. lia.
Qed.

(** ** The loop of Read *)

Lemma Read_while_returns (isAscii : bool) (theEnd : Z) :
  forall (fuel : nat) (s : istream) (b : Standard_ReadLineBuffer.t)
         (w : World Sink),
  (length (pending s b) < fuel)%nat ->
  exists r, Read_while fuel isAscii theEnd s b w = Some r.
Proof.
  induction fuel as [|fuel IH]; intros s b w Hf; [lia|].
  cbn [Read_while]. destruct (good s); [|eexists; reflexivity].
  destruct isAscii.
  - destruct (ReadAscii_returns s b theEnd w) as (r & s' & b' & w' & evs & E & _).
    rewrite E. destruct r; cbn [negb]; [|eexists; reflexivity].
    apply IH. pose proof (ReadAscii_pending _ _ _ _ _ _ _ _ E eq_refl) as Hl.
    pose proof (ws_avail s') as Hw. unfold pending in *.
    rewrite ?length_app in *. lia.
  - destruct (ReadBinary_returns s w) as (r & s' & w' & evs & E & _).
    rewrite E. destruct r; cbn [negb]; [|eexists; reflexivity].
    apply IH. pose proof (ReadBinary_avail _ _ _ _ _ E eq_refl) as Hl.
    pose proof (ws_avail s') as Hw. unfold pending in *.
    rewrite ?length_app in *. lia.
Qed.

(** [Read] returns, whatever the file, the sink and the user do. *)
Lemma Read_returns (theFile : option (list byte)) (w : World Sink) :
  exists r, Read theFile w = Some r.
Proof.
  destruct theFile as [data|]; [|eexists; reflexivity].
  unfold Read.
  pose proof (Read_detect_rdbuf (length data) (open data) w) as Hr.
  destruct (Read_detect (length data) (open data) w) as [[isAscii s1] w1].
  cbn [fst snd] in Hr.
  apply Read_while_returns.
  pose proof (avail_le_rdbuf s1) as Ha. rewrite Hr in Ha.
  unfold pending. simpl. simpl in Ha. lia.
Qed.

End Totality.

(* ===================================================================== *)
(** * The count of a binary block *)
(* ===================================================================== *)

Lemma lor_below (n a b : Z) :
  0 < n -> 0 <= a < 2 ^ n -> 0 <= b < 2 ^ n -> 0 <= Z.lor a b < 2 ^ n.
Proof.
  intros Hn Ha Hb.
  assert (H0 : 0 <= Z.lor a b) by (apply Z.lor_nonneg; lia).
  split; [exact H0|].
  destruct (Z.eq_dec (Z.lor a b) 0) as [->|Hne]; [lia|].
  apply Z.log2_lt_pow2; [lia|].
  rewrite Z.log2_lor by lia.
  assert (La : Z.log2 a < n).
  { destruct (Z.eq_dec a 0) as [->|]; [simpl; lia|]. apply Z.log2_lt_pow2; lia. }
  assert (Lb : Z.log2 b < n).
  { destruct (Z.eq_dec b 0) as [->|]; [simpl; lia|]. apply Z.log2_lt_pow2; lia. }
  lia.
Qed.

Lemma land_byte (v : Z) : 0 <= Z.land v 0xFF < 256.
Proof.
  change 0xFF with (Z.ones 8). rewrite Z.land_ones by lia.
  apply Z.mod_pos_bound. lia.
Qed.

Lemma uint32_le_bound (d : list byte) : 0 <= uint32_le d < 2 ^ 32.
Proof.
  unfold uint32_le.
  pose proof (land_byte (Cstd.code (nth 0 d Cstd.NUL))) as H0.
  pose proof (land_byte (Cstd.code (nth 1 d Cstd.NUL))) as H1.
  pose proof (land_byte (Cstd.code (nth 2 d Cstd.NUL))) as H2.
  pose proof (land_byte (Cstd.code (nth 3 d Cstd.NUL))) as H3.
  repeat apply lor_below; try lia;
    rewrite ?Z.shiftl_mul_pow2 by lia; lia.
Qed.

Section Claims.
Context {Sink : Type} {Mesh : RWStl_Reader Sink} {Std : Standard}.
Context {Indicator : Message_ProgressIndicator}.
Import IStream Standard_ReadLineBuffer.

(** C2 (as amended).  Decoding N >= 1 facets of one block, the first
    one made of three points that are not within the confusion
    tolerance of one another, every vertex of the later ones within
    the tolerance of one of the three and hashed to the same bucket of
    the map as it: the sink registers exactly 3 nodes, whatever N. *)
Theorem C2_three_nodes_for_repeats_in_the_bucket
    (w : World Sink) (p1 p2 p3 : gp_XYZ) (later : list Facet) :
  MergeNodeTool.IsEqual p1 p2 = false ->
  MergeNodeTool.IsEqual p1 p3 = false ->
  MergeNodeTool.IsEqual p2 p3 = false ->
  forallb (facet_reuses [p1; p2; p3]) later = true ->
  count_events is_AddNode
    (trace (snd (decode_facets ((p1, p2, p3) :: later)
                   (MergeNodeTool.create, w))))
  = (count_events is_AddNode (trace w) + 3)%nat.
Proof.
  intros H12 H13 H23 Hl.
  change (decode_facets ((p1, p2, p3) :: later) (MergeNodeTool.create, w))
    with (decode_facets later
            (decode_step (MergeNodeTool.create, w) (p1, p2, p3))).
  destruct (decode_step_first w p1 p2 p3 H12 H13 H23) as (Hnb & Hst & Hc).
  destruct (decode_step (MergeNodeTool.create, w) (p1, p2, p3)) as [m1 w1].
  cbn [fst snd] in *.
  rewrite (decode_facets_reuses [p1; p2; p3] later m1 w1 Hnb Hst Hl).
  exact Hc.
Qed.

(** C3.  For a stream of 134 bytes or more, the detection of the format
    in [Read] answers text when each of the first 134 bytes has an
    unsigned value of 0x7E or less, and binary when one of them has a
    greater one; the stream is left as it was opened. *)
Theorem C3_detection (data : list byte) (w : World Sink) :
  (134 <= length data)%nat ->
  ((forall c, In c (take 134 data) -> Cstd.code c <= 0x7E) ->
   Read_detect (length data) (open data) w = (true, open data, w))
  /\ ((exists c, In c (take 134 data) /\ 0x7E < Cstd.code c) ->
      Read_detect (length data) (open data) w = (false, open data, w)).
Proof.
  intros Hl. unfold Read_detect.
  replace (length data <? THE_STL_MIN_FILE_SIZE)%nat with false
    by (symmetry; apply Nat.ltb_ge; exact Hl).
  rewrite (IsAscii_probe data w Hl). split; intros H.
  - apply IsAscii_scan_true in H. rewrite H. reflexivity.
  - apply IsAscii_scan_false in H. rewrite H. reflexivity.
Qed.


(** C5 (as amended).  For a text of a header line and facets that
    stops right after an [endfacet] line, with no [endsolid] line: the
    text parser sends "Error: premature end of file" and [Read]
    returns false; every triangle parsed before the end of the stream
    has been handed to the sink. *)
Theorem C5_truncated_text_fails (w : World Sink) (h : list byte)
    (fs : list FacetText) :
  never_breaks ->
  no_lf h = true -> forallb facet_ok fs = true ->
  IsAscii_scan (take 134 (unlines (h :: concat (map facet_lines fs)))) = true ->
  let X := decode_facets (map facet_points fs) (MergeNodeTool.create, w) in
  exists w',
    Read (Some (unlines (h :: concat (map facet_lines fs)))) w
    = Some (false, w')
    /\ sink w' = sink (snd X)
    /\ trace w' = trace (snd X) ++ [EvSendFail msg_premature].
Proof.
  intros Hnb Hh Hfs Hscan X.
  set (data := unlines (h :: concat (map facet_lines fs))) in *.
  unfold Read.
  assert (Hd : Read_detect (length data) (open data) w = (true, open data, w)).
  { unfold Read_detect.
    destruct (length data <? THE_STL_MIN_FILE_SIZE)%nat eqn:E; [reflexivity|].
    apply Nat.ltb_ge in E. rewrite (IsAscii_probe data w E), Hscan.
    reflexivity. }
  rewrite Hd.
  assert (Hr : ready (open data)
                 (Standard_ReadLineBuffer.create THE_BUFFER_SIZE)).
  { split; [reflexivity|]. unfold THE_BUFFER_SIZE; simpl; lia. }
  assert (Hp : pending (open data)
                 (Standard_ReadLineBuffer.create THE_BUFFER_SIZE) = data).
  { unfold pending, avail, rest. simpl. apply drop_0. }
  destruct (ReadAscii_truncated (open data)
              (Standard_ReadLineBuffer.create THE_BUFFER_SIZE)
              (Z.of_nat (length data)) w h fs Hnb Hr Hh Hfs Hp)
    as (s' & b' & w' & E & Hf & Hs & Ht).
  exists w'. cbn [Read_while]. change (good (open data)) with true.
  cbv iota. rewrite E. cbn [negb]. rewrite Hf. auto.
Qed.

(** C6.  For a text that stops where a vertex line is due (after the
    two lines that open a facet and fewer than three vertex lines),
    the text parser ends the block as a regular one: it returns true,
    sends no failure message, and the nodes and triangles of the
    facets before are those handed to the sink. *)
Theorem C6_end_of_file_at_vertex (s : istream)
    (b : Standard_ReadLineBuffer.t) (theUntilPos : Z) (w : World Sink)
    (h : list byte) (fs : list FacetText) (lf lo : list byte)
    (vs : list (list byte)) :
  never_breaks ->
  ready s b -> no_lf h = true -> forallb facet_ok fs = true ->
  opening_ok lf lo = true ->
  forallb vertex_ok vs = true -> (length vs < 3)%nat ->
  pending s b =
    unlines (h :: concat (map facet_lines fs) ++ lf :: lo :: vs) ->
  let X := decode_facets (map facet_points fs) (MergeNodeTool.create, w) in
  exists s' b' w',
    ReadAscii s b theUntilPos w = Some (true, s', b', w')
    /\ sink w' = sink (snd X)
    /\ trace w' = trace (snd X)
    /\ count_events is_SendFail (trace w')
       = count_events is_SendFail (trace w).
Proof. apply ReadAscii_vertex_eof. Qed.

(** C7 (as amended).  For a binary block whose header announces
    [aNbFacets] facets: when the stream holds that many records, that
    many facets are decoded, the block reader returns true and what
    follows the records is left unread; when it holds fewer, the chunk
    read that comes up short is a failure ("Error: binary STL read
    failed" is sent, the block reader returns false and the stream has
    failed), and only the facets of the chunks of 80 read in full
    before it have been decoded. *)
Theorem C7_count_bounds_the_loop (s : istream) (w : World Sink) :
  never_breaks ->
  (84 <= length (avail s))%nat ->
  let bytes := drop 84 (avail s) in
  let aNbFacets := int32_le (drop 80 (take 84 (avail s))) in
  let ok := 50 * aNbFacets <=? Z.of_nat (length bytes) in
  let D := binary_decoded aNbFacets (length bytes) in
  let X := decode_facets (facets_of D bytes) (MergeNodeTool.create, w) in
  exists s' w',
    ReadBinary s w = Some (ok, s', w')
    /\ sink w' = sink (snd X)
    /\ trace w' =
       trace (snd X) ++ (if ok then [] else [EvSendFail msg_read_failed])
    /\ avail s' = (if ok then drop (50 * D) bytes else [])
    /\ (ok = false -> fail s' = true).
Proof. apply ReadBinary_spec. Qed.


(** C9.  Each of the two block readers returns, and in the events of
    the block every index of a triangle registration has been handed
    back by a node registration of the sink earlier in the block. *)
Theorem C9_triangle_indices_come_from_the_sink (s : istream)
    (b : Standard_ReadLineBuffer.t) (theUntilPos : Z) (w : World Sink) :
  (exists r s' b' w' evs,
     ReadAscii s b theUntilPos w = Some (r, s', b', w')
     /\ trace w' = trace w ++ evs /\ triangles_registered evs)
  /\ (exists r s' w' evs,
        ReadBinary s w = Some (r, s', w')
        /\ trace w' = trace w ++ evs /\ triangles_registered evs).
Proof.
  split; [apply ReadAscii_returns|apply ReadBinary_returns].
Qed.

(** C10.  For a binary block whose count field has the top bit set:
    the count, read as a signed 32-bit integer, is negative; the
    block reader goes through no facet, hands nothing to the sink,
    reads the 84 bytes of the header and no more, and (no break being
    requested) returns true. *)
Theorem C10_negative_count (s : istream) (w : World Sink) :
  (84 <= length (avail s))%nat ->
  2 ^ 31 <= uint32_le (drop 80 (take 84 (avail s))) ->
  UserBreak (polls w) = false ->
  int32_le (drop 80 (take 84 (avail s))) < 0
  /\ exists s',
       ReadBinary s w = Some (true, s', with_polls (S (polls w)) w)
       /\ good s' = true
       /\ gpos s' = (gpos s + 84)%nat
       /\ avail s' = drop 84 (avail s).
Proof.
  intros Hl Htop Hub.
  assert (Hneg : int32_le (drop 80 (take 84 (avail s))) < 0).
  { unfold int32_le.
    pose proof (uint32_le_bound (drop 80 (take 84 (avail s)))) as Hb.
    destruct (uint32_le (drop 80 (take 84 (avail s))) <? 2 ^ 31) eqn:E.
    - apply Z.ltb_lt in E. lia.
    - lia. }
  split; [exact Hneg|].
  unfold ReadBinary.
  destruct (read_full s THE_STL_HEADER_SIZE Hl) as (s1 & -> & Ha & Hg).
  destruct (Hg ltac:(unfold THE_STL_HEADER_SIZE; lia)) as [Hgood Hpos].
  assert (Hh : length (take THE_STL_HEADER_SIZE (avail s)) = THE_STL_HEADER_SIZE)
    by (rewrite length_take; unfold THE_STL_HEADER_SIZE in *; lia).
  rewrite Hh, Nat.eqb_refl. cbn [negb].
  change THE_STL_HEADER_SIZE with 84%nat in *.
  rewrite ReadBinary_for_S. cbn [aNbFacetRead].
  replace (0 <? int32_le (drop 80 (take 84 (avail s)))) with false
    by (symmetry; apply Z.ltb_ge; lia).
  rewrite ReadBinary_More_eq. cbn [bl_world bl_stream]. rewrite Hub.
  exists s1. cbn [negb]. auto.
Qed.

End Claims.

(* ===================================================================== *)
(** * The claims on concrete inputs *)
(* ===================================================================== *)

Section Concrete.
Import Example IStream.

(** C1.  On a text whose second line opens no facet, followed by 2000
    blanks, the text parser sends "Error: unexpected format of facet at
    line 2" and returns false, leaving the stream sound, and [Read]
    returns true. *)
Theorem C1_failed_parse_returns_true :
  option_map
    (fun r => (fst (fst (fst r)), fail (snd (fst (fst r))), trace (snd r)))
    (@ReadAscii Mesh builder platform no_break (open bogus_text)
       (Standard_ReadLineBuffer.create THE_BUFFER_SIZE)
       (Z.of_nat (length bogus_text)) w0)
  = Some (false, false,
          [EvSendFail "Error: unexpected format of facet at line 2"])
  /\ option_map (fun r => (fst r, trace (snd r)))
       (@Read Mesh builder platform no_break (Some bogus_text) w0)
     = Some (true,
             [EvSendFail "Error: unexpected format of facet at line 2"]).
Proof. vm_compute. split; reflexivity. Qed.

(** C2, the claim as stated, fails: the two facets of the block
    [two_near_facets] are made of three points that are not within the
    tolerance of one another, each vertex of the second facet is within
    the tolerance of one of them, and the sink registers four nodes. *)
Lemma C2_counterexample :
  let p1 := readStlFloatVec3 pt_O in
  let p2 := readStlFloatVec3 pt_X in
  let p3 := readStlFloatVec3 pt_Y in
  let q1 := readStlFloatVec3 pt_O' in
  facets_of 2 (drop 84 two_near_facets) = [(p1, p2, p3); (q1, p2, p3)]
  /\ MergeNodeTool.IsEqual p1 p2 = false
  /\ MergeNodeTool.IsEqual p1 p3 = false
  /\ MergeNodeTool.IsEqual p2 p3 = false
  /\ facet_near [p1; p2; p3] (q1, p2, p3) = true
  /\ option_map
       (fun r => (fst (fst r), count_events is_AddNode (trace (snd r))))
       (@ReadBinary Mesh builder platform no_break (open two_near_facets) w0)
     = Some (true, 4%nat).
Proof. vm_compute. repeat split; reflexivity. Qed.

(** C2 (as amended), on three points and two repeats of their facet. *)
Lemma C2_witness :
  let p1 := readStlFloatVec3 pt_O in
  let p2 := readStlFloatVec3 pt_X in
  let p3 := readStlFloatVec3 pt_Y in
  let later := [(p1, p2, p3); (p3, p1, p2)] in
  MergeNodeTool.IsEqual p1 p2 = false
  /\ MergeNodeTool.IsEqual p1 p3 = false
  /\ MergeNodeTool.IsEqual p2 p3 = false
  /\ forallb (@facet_reuses platform [p1; p2; p3]) later = true
  /\ count_events is_AddNode
       (trace (snd (@decode_facets Mesh builder platform
                      ((p1, p2, p3) :: later) (MergeNodeTool.create, w0))))
     = (count_events is_AddNode (trace w0) + 3)%nat.
Proof.
  intros p1 p2 p3 later.
  assert (H12 : MergeNodeTool.IsEqual p1 p2 = false) by (vm_compute; reflexivity).
  assert (H13 : MergeNodeTool.IsEqual p1 p3 = false) by (vm_compute; reflexivity).
  assert (H23 : MergeNodeTool.IsEqual p2 p3 = false) by (vm_compute; reflexivity).
  assert (Hl : forallb (@facet_reuses platform [p1; p2; p3]) later = true)
    by (vm_compute; reflexivity).
  split; [exact H12|]. split; [exact H13|]. split; [exact H23|].
  split; [exact Hl|].
  exact (@C2_three_nodes_for_repeats_in_the_bucket Mesh builder platform
           w0 p1 p2 p3 later H12 H13 H23 Hl).
Defined.

(** C3, on 134 letters. *)
Lemma C3_witness :
  (134 <= length plain_probe)%nat
  /\ (((forall c, In c (take 134 plain_probe) -> Cstd.code c <= 0x7E) ->
       Read_detect (length plain_probe) (open plain_probe) w0
       = (true, open plain_probe, w0))
      /\ ((exists c, In c (take 134 plain_probe) /\ 0x7E < Cstd.code c) ->
          Read_detect (length plain_probe) (open plain_probe) w0
          = (false, open plain_probe, w0))).
Proof.
  assert (Hl : (134 <= length plain_probe)%nat) by (vm_compute; lia).
  split; [exact Hl|].
  exact (C3_detection plain_probe w0 Hl).
Defined.

(** C5, the claim as stated, fails: on a text that stops after the
    [endfacet] line of its only facet, [Read] returns false, after the
    triangle has been registered and the failure sent. *)
Lemma C5_counterexample :
  option_map (fun r => (fst r, trace (snd r)))
    (@Read Mesh builder platform no_break (Some truncated_text) w0)
  = Some (false,
          [EvAddNode (mk_XYZ 0 0 0) 1; EvAddNode (mk_XYZ 1 0 0) 2;
           EvAddNode (mk_XYZ 0 1 0) 3; EvAddTriangle 1 2 3;
           EvSendFail "Error: premature end of file"]).
Proof. vm_compute. reflexivity. Qed.

(** C5 (as amended), on the same text. *)
Lemma C5_witness :
  @never_breaks no_break
  /\ no_lf solid_line = true
  /\ forallb (@facet_ok platform) [unit_facet] = true
  /\ IsAscii_scan
       (take 134 (unlines (solid_line :: concat (map facet_lines [unit_facet]))))
     = true
  /\ (let X := @decode_facets Mesh builder platform
                 (map (@facet_points platform) [unit_facet])
                 (MergeNodeTool.create, w0) in
      exists w',
        @Read Mesh builder platform no_break
          (Some (unlines (solid_line :: concat (map facet_lines [unit_facet]))))
          w0
        = Some (false, w')
        /\ sink w' = sink (snd X)
        /\ trace w' = trace (snd X) ++ [EvSendFail msg_premature]).
Proof.
  assert (H1 : no_lf solid_line = true) by (vm_compute; reflexivity).
  assert (H2 : forallb (@facet_ok platform) [unit_facet] = true)
    by (vm_compute; reflexivity).
  assert (H3 : IsAscii_scan
            (take 134
               (unlines (solid_line :: concat (map facet_lines [unit_facet]))))
          = true) by (vm_compute; reflexivity).
  split; [exact never|]. split; [exact H1|]. split; [exact H2|].
  split; [exact H3|].
  exact (@C5_truncated_text_fails Mesh builder platform no_break w0
           solid_line [unit_facet] never H1 H2 H3).
Defined.

(** C6, on a text that stops after the second vertex line of its
    second facet. *)
Lemma C6_witness :
  @never_breaks no_break
  /\ ready (open vertex_eof_text) (Standard_ReadLineBuffer.create 1024)
  /\ no_lf solid_line = true
  /\ forallb (@facet_ok platform) [unit_facet] = true
  /\ opening_ok (ft_facet unit_facet) (ft_outer unit_facet) = true
  /\ forallb (@vertex_ok platform)
       [ft_vertex1 unit_facet; ft_vertex2 unit_facet] = true
  /\ (length [ft_vertex1 unit_facet; ft_vertex2 unit_facet] < 3)%nat
  /\ Standard_ReadLineBuffer.pending (open vertex_eof_text)
       (Standard_ReadLineBuffer.create 1024)
     = unlines (solid_line :: concat (map facet_lines [unit_facet])
                ++ ft_facet unit_facet :: ft_outer unit_facet
                   :: [ft_vertex1 unit_facet; ft_vertex2 unit_facet])
  /\ (let X := @decode_facets Mesh builder platform
                 (map (@facet_points platform) [unit_facet])
                 (MergeNodeTool.create, w0) in
      exists s' b' w',
        @ReadAscii Mesh builder platform no_break (open vertex_eof_text)
          (Standard_ReadLineBuffer.create 1024) 0 w0
        = Some (true, s', b', w')
        /\ sink w' = sink (snd X)
        /\ trace w' = trace (snd X)
        /\ count_events is_SendFail (trace w')
           = count_events is_SendFail (trace w0)).
Proof.
  assert (Hr : ready (open vertex_eof_text)
                 (Standard_ReadLineBuffer.create 1024))
    by (split; [reflexivity|simpl; lia]).
  assert (H1 : no_lf solid_line = true) by (vm_compute; reflexivity).
  assert (H2 : forallb (@facet_ok platform) [unit_facet] = true)
    by (vm_compute; reflexivity).
  assert (H3 : opening_ok (ft_facet unit_facet) (ft_outer unit_facet) = true)
    by (vm_compute; reflexivity).
  assert (H4 : forallb (@vertex_ok platform)
            [ft_vertex1 unit_facet; ft_vertex2 unit_facet] = true)
    by (vm_compute; reflexivity).
  assert (H5 : (length [ft_vertex1 unit_facet; ft_vertex2 unit_facet] < 3)%nat)
    by (simpl; lia).
  assert (H6 : Standard_ReadLineBuffer.pending (open vertex_eof_text)
                 (Standard_ReadLineBuffer.create 1024)
               = unlines (solid_line :: concat (map facet_lines [unit_facet])
                          ++ ft_facet unit_facet :: ft_outer unit_facet
                             :: [ft_vertex1 unit_facet; ft_vertex2 unit_facet]))
    by (vm_compute; reflexivity).
  split; [exact never|]. split; [exact Hr|]. split; [exact H1|].
  split; [exact H2|]. split; [exact H3|]. split; [exact H4|].
  split; [exact H5|]. split; [exact H6|].
  exact (@C6_end_of_file_at_vertex Mesh builder platform no_break
           (open vertex_eof_text) (Standard_ReadLineBuffer.create 1024) 0 w0
           solid_line [unit_facet] (ft_facet unit_facet) (ft_outer unit_facet)
           [ft_vertex1 unit_facet; ft_vertex2 unit_facet]
           never Hr H1 H2 H3 H4 H5 H6).
Defined.

(** C7, the claim as stated, fails: on a block that announces two
    facets and holds the 50 bytes of one, nothing is decoded, the
    failure is sent and the block reader returns false with the stream
    failed. *)
Lemma C7_counterexample :
  int32_le (drop 80 (take 84 one_facet_of_two)) = 2
  /\ length (drop 84 one_facet_of_two) = 50%nat
  /\ option_map (fun r => (fst (fst r), fail (snd (fst r)), trace (snd r)))
       (@ReadBinary Mesh builder platform no_break (open one_facet_of_two) w0)
     = Some (false, true, [EvSendFail "Error: binary STL read failed"]).
Proof. vm_compute. repeat split; reflexivity. Qed.

(** C7 (as amended), on the same block. *)
Lemma C7_witness :
  @never_breaks no_break
  /\ (84 <= length (avail (open one_facet_of_two)))%nat
  /\ (let s := open one_facet_of_two in
      let bytes := drop 84 (avail s) in
      let aNbFacets := int32_le (drop 80 (take 84 (avail s))) in
      let ok := 50 * aNbFacets <=? Z.of_nat (length bytes) in
      let D := binary_decoded aNbFacets (length bytes) in
      let X := @decode_facets Mesh builder platform (facets_of D bytes)
                 (MergeNodeTool.create, w0) in
      exists s' w',
        @ReadBinary Mesh builder platform no_break s w0 = Some (ok, s', w')
        /\ sink w' = sink (snd X)
        /\ trace w' =
           trace (snd X) ++ (if ok then [] else [EvSendFail msg_read_failed])
        /\ avail s' = (if ok then drop (50 * D) bytes else [])
        /\ (ok = false -> fail s' = true)).
Proof.
  assert (Hl : (84 <= length (avail (open one_facet_of_two)))%nat)
    by (vm_compute; lia).
  split; [exact never|]. split; [exact Hl|].
  exact (@C7_count_bounds_the_loop Mesh builder platform no_break
           (open one_facet_of_two) w0 never Hl).
Defined.



(** C10, on a block whose count field is 0xFFFFFFFF. *)
Lemma C10_witness :
  (84 <= length (avail (open negative_count)))%nat
  /\ 2 ^ 31 <= uint32_le (drop 80 (take 84 (avail (open negative_count))))
  /\ @UserBreak no_break (polls w0) = false
  /\ int32_le (drop 80 (take 84 (avail (open negative_count)))) < 0
  /\ (exists s',
        @ReadBinary Mesh builder platform no_break (open negative_count) w0
        = Some (true, s', with_polls (S (polls w0)) w0)
        /\ good s' = true
        /\ gpos s' = (gpos (open negative_count) + 84)%nat
        /\ avail s' = drop 84 (avail (open negative_count))).
Proof.
  assert (Hl : (84 <= length (avail (open negative_count)))%nat)
    by (vm_compute; lia).
  assert (Ht : 2 ^ 31
               <= uint32_le (drop 80 (take 84 (avail (open negative_count)))))
    by (vm_compute; discriminate).
  assert (Hu : @UserBreak no_break (polls w0) = false) by reflexivity.
  split; [exact Hl|]. split; [exact Ht|]. split; [exact Hu|].
  exact (@C10_negative_count Mesh builder platform no_break
           (open negative_count) w0 Hl Ht Hu).
Defined.

End Concrete.

(* ===================================================================== *)
(** * Keywords and numbers of a line *)
(* ===================================================================== *)

Section WordFacts.

Lemma code_nonneg (c : byte) : 0 <= Cstd.code c.
Proof. unfold Cstd.code. lia. Qed.

Lemma tolower_zero (c : byte) : Cstd.tolower c = 0 <-> Cstd.code c = 0.
Proof.
  unfold Cstd.tolower. pose proof (code_nonneg c).
  destruct ((65 <=? Cstd.code c) && (Cstd.code c <=? 90)) eqn:E; [|tauto].
  apply andb_prop in E as [E1 E2]. apply Z.leb_le in E1. lia.
Qed.

Lemma isspace_not_NUL (c : byte) :
  Cstd.isspace c && negb (Cstd.code c =? 0) = Cstd.isspace c.
Proof.
  unfold Cstd.isspace. destruct (Cstd.code c =? 0) eqn:E.
  - apply Z.eqb_eq in E. rewrite E. reflexivity.
  - apply andb_true_r.
Qed.

Lemma skip_while_ext (p q : byte -> bool) (l : list byte) :
  (forall c, p c = q c) -> Cstd.skip_while p l = Cstd.skip_while q l.
Proof.
  intros H. induction l as [|c l IH]; [reflexivity|].
  simpl. rewrite H, IH. reflexivity.
Qed.

Lemma skip_while_app (p : byte -> bool) (pre l : list byte) :
  forallb p pre = true ->
  Cstd.skip_while p (pre ++ l) = Cstd.skip_while p l.
Proof.
  induction pre as [|c pre IH]; [reflexivity|].
  simpl. intros H. apply andb_prop in H as [-> H]. exact (IH H).
Qed.

Lemma skip_while_all (p : byte -> bool) (l : list byte) :
  forallb p l = true -> Cstd.skip_while p l = [].
Proof.
  intros H. rewrite <- (app_nil_r l) at 1. rewrite skip_while_app by exact H.
  reflexivity.
Qed.

Lemma skip_while_stop (p : byte -> bool) (c : byte) (l : list byte) :
  p c = false -> Cstd.skip_while p (c :: l) = c :: l.
Proof. intros H. simpl. rewrite H. reflexivity. Qed.

(** [strncasecmp] against a word that has no terminator among the
    characters compared. *)
Lemma strncasecmp_zero (n : nat) :
  forall (s1 s2 : list byte),
  (n <= length s2)%nat ->
  (forall c, In c (take n s2) -> Cstd.code c <> 0) ->
  Cstd.strncasecmp s1 s2 n = 0
  <-> map Cstd.tolower (take n s1) = map Cstd.tolower (take n s2).
Proof.
  induction n as [|n IH]; intros s1 s2 Hn Hw.
  - rewrite !take_0. simpl. tauto.
  - destruct s2 as [|c2 s2]; [simpl in Hn; lia|].
    assert (H2 : Cstd.tolower c2 <> 0).
    { rewrite tolower_zero. apply Hw. simpl. left. reflexivity. }
    assert (IH' := fun s => IH s s2 ltac:(simpl in Hn; lia)
                      (fun c Hc => Hw c (or_intror Hc))).
    cbn [Cstd.strncasecmp Cstd.deref tl].
    destruct s1 as [|c1 s1]; cbn [Cstd.deref tl take map].
    + change (Cstd.tolower Cstd.NUL) with 0.
      destruct (0 =? Cstd.tolower c2) eqn:E.
      * apply Z.eqb_eq in E. congruence.
      * cbn [negb]. split; [lia|discriminate].
    + destruct (Cstd.tolower c1 =? Cstd.tolower c2) eqn:E.
      * apply Z.eqb_eq in E. cbn [negb].
        destruct (Cstd.tolower c1 =? 0) eqn:E0;
          [apply Z.eqb_eq in E0; congruence|].
        rewrite IH', E. split; [intros ->; reflexivity|].
        intros H; injection H as H; exact H.
      * apply Z.eqb_neq in E. cbn [negb].
        split; [lia|]. intros H; injection H as H _. contradiction.
Qed.

End WordFacts.

Section WordProperties.
Context {Std : Standard}.

(** X1.  A line starts with a word, for the parser, exactly when its first
    [theN] characters after the leading white space are those of the
    word up to the case of the letters; whatever follows them is not
    looked at. *)
Theorem str_starts_with_iff (theStr theWord : list byte) (theN : nat) :
  (theN <= length theWord)%nat ->
  (forall c, In c (take theN theWord) -> Cstd.code c <> 0) ->
  str_starts_with theStr theWord theN = true
  <-> map Cstd.tolower (take theN (Cstd.skip_while Cstd.isspace theStr))
      = map Cstd.tolower (take theN theWord).
Proof.
  intros Hn Hw. unfold str_starts_with.
  rewrite (skip_while_ext _ Cstd.isspace theStr isspace_not_NUL).
  rewrite Z.eqb_eq. apply strncasecmp_zero; assumption.
Qed.

(** X2.  [ReadVertex] does not look for the word [vertex]: any run of
    letters and white space before the numbers is skipped. *)
Theorem ReadVertex_skips_any_word (pre theStr : list byte) :
  forallb (fun c => Cstd.isspace c || Cstd.isalpha c) pre = true ->
  ReadVertex (pre ++ theStr) = ReadVertex theStr.
Proof.
  intros H. unfold ReadVertex. rewrite skip_while_app by exact H. reflexivity.
Qed.

(** X3.  [ReadVertex] tests the last conversion only, and that is enough: a
    conversion that fails leaves the pointer where it is, so that the
    ones after it fail as well.  It returns true exactly when each of
    the three conversions has gone over a character at least. *)
Theorem ReadVertex_three_numbers (theStr : list byte) :
  let aStr :=
    Cstd.skip_while (fun c => Cstd.isspace c || Cstd.isalpha c) theStr in
  let n1 := snd (Strtod (Cstd.c_str aStr)) in
  let n2 := snd (Strtod (Cstd.c_str (drop n1 aStr))) in
  let n3 := snd (Strtod (Cstd.c_str (drop n2 (drop n1 aStr)))) in
  fst (ReadVertex theStr) = true <-> (n1 <> 0 /\ n2 <> 0 /\ n3 <> 0)%nat.
Proof.
  cbv zeta. unfold ReadVertex.
  set (aStr := Cstd.skip_while _ theStr).
  destruct (Strtod (Cstd.c_str aStr)) as [x n1] eqn:E1. cbn [snd].
  destruct (Strtod (Cstd.c_str (drop n1 aStr))) as [y n2] eqn:E2. cbn [snd].
  destruct (Strtod (Cstd.c_str (drop n2 (drop n1 aStr)))) as [z n3] eqn:E3.
  cbn [fst snd]. rewrite negb_true_iff, Nat.eqb_neq.
  split; [|tauto]. intros H3.
  destruct n1 as [|n1].
  { exfalso. apply H3. rewrite drop_0 in E2. rewrite E1 in E2.
    injection E2 as _ <-. rewrite !drop_0 in E3. rewrite E1 in E3.
    injection E3 as _ <-. reflexivity. }
  destruct n2 as [|n2]; [|repeat split; [discriminate|discriminate|exact H3]].
  exfalso. apply H3. rewrite drop_0 in E3. rewrite E2 in E3.
  injection E3 as _ <-. reflexivity.
Qed.

End WordProperties.

(* ===================================================================== *)
(** * Bytes of a number *)
(* ===================================================================== *)

Lemma code_byte (c : byte) : 0 <= Cstd.code c < 256.
Proof.
  unfold Cstd.code. pose proof (Byte.to_N_bounded c). lia.
Qed.

Lemma land_code (c : byte) : Z.land (Cstd.code c) 0xFF = Cstd.code c.
Proof.
  change 0xFF with (Z.ones 8). rewrite Z.land_ones by lia.
  apply Z.mod_small. pose proof (code_byte c). lia.
Qed.

Lemma lor_shiftl_add (a b n : Z) :
  0 <= n -> 0 <= a < 2 ^ n -> Z.lor a (Z.shiftl b n) = a + b * 2 ^ n.
Proof.
  intros Hn Ha.
  assert (H0 : Z.land a (Z.shiftl b n) = 0).
  { apply Z.bits_inj'. intros i Hi. rewrite Z.land_spec, Z.bits_0.
    destruct (Z.lt_ge_cases i n) as [Hlt|Hge].
    - rewrite Z.shiftl_spec_low by exact Hlt. apply andb_false_r.
    - rewrite <- (Z.mod_small a (2 ^ n)) by exact Ha.
      rewrite Z.mod_pow2_bits_high by lia. reflexivity. }
  rewrite <- Z.lxor_lor by exact H0.
  rewrite <- Z.add_nocarry_lxor by exact H0.
  rewrite Z.shiftl_mul_pow2 by exact Hn. reflexivity.
Qed.

(** X4.  The value [readStlFloat] assembles from four bytes: the first byte
    is the least significant one, and the bytes after the fourth play
    no part. *)
Theorem uint32_le_value (b0 b1 b2 b3 : byte) (more : list byte) :
  uint32_le (b0 :: b1 :: b2 :: b3 :: more)
  = Cstd.code b0 + 2 ^ 8 * Cstd.code b1 + 2 ^ 16 * Cstd.code b2
    + 2 ^ 24 * Cstd.code b3.
Proof.
  unfold uint32_le. cbn [nth]. rewrite !land_code.
  pose proof (code_byte b0). pose proof (code_byte b1).
  pose proof (code_byte b2). pose proof (code_byte b3).
  change 0x08 with 8. change 0x10 with 16. change 0x18 with 24.
  rewrite (lor_shiftl_add (Cstd.code b0) (Cstd.code b1) 8) by lia.
  rewrite (lor_shiftl_add _ (Cstd.code b2) 16) by lia.
  rewrite (lor_shiftl_add _ (Cstd.code b3) 24) by lia.
  lia.
Qed.

(* ===================================================================== *)
(** * The merging tool *)
(* ===================================================================== *)

Section MergeProperties.
Context {Sink : Type} {Mesh : RWStl_Reader Sink} {Std : Standard}.
Context {Indicator : Message_ProgressIndicator}.

(** X5.  A point that has gone through [AddNode], and that is within the
    tolerance of itself (no infinite or undefined coordinate), goes
    through it again with the same index, no call of the sink and no
    change of the map. *)
Theorem AddNode_twice (m : MergeNodeTool.t) (w w2 : World Sink)
    (x y z : float) :
  MergeNodeTool.IsEqual (mk_XYZ x y z) (mk_XYZ x y z) = true ->
  let r := MergeNodeTool.AddNode m w x y z in
  MergeNodeTool.AddNode (snd (fst r)) w2 x y z
  = (fst (fst r), snd (fst r), w2).
Proof.
  intros Hp r. subst r. unfold MergeNodeTool.AddNode.
  destruct (MergeNodeTool.Find m (mk_XYZ x y z)) as [i|] eqn:Hf.
  - cbn [fst snd]. rewrite Hf. reflexivity.
  - destruct (reader_AddNode w (mk_XYZ x y z)) as [i w'].
    cbn [fst snd].
    assert (Hb : MergeNodeTool.Find
                   (MergeNodeTool.Bind m (mk_XYZ x y z) i) (mk_XYZ x y z)
                 = Some i).
    { unfold MergeNodeTool.Find, MergeNodeTool.Bind,
        NCollection_DataMap.Find, NCollection_DataMap.Bind,
        NCollection_DataMap.chain_of.
      cbn [MergeNodeTool.myMap NCollection_DataMap.myData1
           NCollection_DataMap.myNbBuckets].
      rewrite lookup_insert_eq. cbn [default NCollection_DataMap.find_node].
      unfold id. cbn [NCollection_DataMap.find_node]. rewrite Hp. reflexivity. }
    rewrite Hb. reflexivity.
Qed.

Lemma find_node_near (chain : list (gp_XYZ * Z)) (p : gp_XYZ) (v : Z) :
  NCollection_DataMap.find_node MergeNodeTool.IsEqual chain p = Some v ->
  exists k, In (k, v) chain /\ MergeNodeTool.IsEqual k p = true.
Proof.
  induction chain as [|[k0 v0] chain IH]; simpl; [discriminate|].
  destruct (MergeNodeTool.IsEqual k0 p) eqn:E.
  - intros [= ->]. exists k0. split; [left; reflexivity|exact E].
  - intros H. destruct (IH H) as (k & Hk & Hn). exists k. split; [right|]; auto.
Qed.

Lemma block_sound_start (w : World Sink) :
  block_sound (trace w) MergeNodeTool.create w.
Proof.
  exists []. rewrite app_nil_r. split; [reflexivity|].
  intros h chain k v H. unfold MergeNodeTool.create in H. simpl in H.
  rewrite lookup_empty in H. discriminate.
Qed.

Lemma AddNode_sound (t0 : list Event) (mt : MergeNodeTool.t) (w : World Sink)
    (x y z : float) :
  block_sound t0 mt w ->
  forall n mt' w', MergeNodeTool.AddNode mt w x y z = (n, mt', w') ->
  block_sound t0 mt' w' /\
  exists evs q,
    trace w' = t0 ++ evs /\ In (EvAddNode q n) evs
    /\ (q = mk_XYZ x y z \/ MergeNodeTool.IsEqual q (mk_XYZ x y z) = true).
Proof.
  intros (evs & H1 & H3) n mt' w'. unfold MergeNodeTool.AddNode.
  destruct (MergeNodeTool.Find mt _) as [i|] eqn:Hf.
  - intros [= <- <- <-]. split; [exists evs; auto|].
    unfold MergeNodeTool.Find, NCollection_DataMap.Find,
      NCollection_DataMap.chain_of in Hf.
    destruct (NCollection_DataMap.myData1 (MergeNodeTool.myMap mt) !! _)
      as [chain|] eqn:Hc; simpl in Hf; [|discriminate].
    apply find_node_near in Hf. destruct Hf as (k & Hk & Hn).
    exists evs, k. split; [exact H1|]. split; [|right; exact Hn].
    eapply H3; eassumption.
  - unfold reader_AddNode.
    destruct (AddNode (sink w) _) as [i k] eqn:Ha.
    intros [= <- <- <-]. simpl. split.
    + exists (evs ++ [EvAddNode (mk_XYZ x y z) i]).
      rewrite H1, app_assoc. split; [reflexivity|].
      intros h chain k0 v Hl Hin.
      unfold MergeNodeTool.Bind, NCollection_DataMap.Bind in Hl. simpl in Hl.
      apply in_or_app.
      destruct (decide (MergeNodeTool.HashCode (mk_XYZ x y z)
                  (NCollection_DataMap.myNbBuckets (MergeNodeTool.myMap mt)) = h))
        as [<-|Hne].
      * rewrite lookup_insert_eq in Hl. injection Hl as <-.
        destruct Hin as [[= <- <-]|Hin]; [right; left; reflexivity|].
        left. unfold NCollection_DataMap.chain_of in Hin.
        destruct (NCollection_DataMap.myData1 (MergeNodeTool.myMap mt) !! _)
          as [chain|] eqn:Hc; simpl in Hin; [|contradiction].
        eapply H3; eassumption.
      * rewrite lookup_insert_ne in Hl by exact Hne.
        left. eapply H3; eassumption.
    + exists (evs ++ [EvAddNode (mk_XYZ x y z) i]), (mk_XYZ x y z).
      rewrite H1, app_assoc. split; [reflexivity|].
      split; [|left; reflexivity].
      apply in_or_app. right. left. reflexivity.
Qed.

Lemma block_sound_AddTriangle t0 mt (w : World Sink) n1 n2 n3 :
  block_sound t0 mt w -> block_sound t0 mt (reader_AddTriangle w n1 n2 n3).
Proof.
  intros (evs & H1 & H3). exists (evs ++ [EvAddTriangle n1 n2 n3]).
  unfold reader_AddTriangle. cbn [trace]. rewrite H1, app_assoc.
  split; [reflexivity|].
  intros h chain k v Hl Hin. apply in_or_app. left. eapply H3; eassumption.
Qed.

Lemma add_triangle_sound t0 mt (w : World Sink) a b c :
  block_sound t0 mt w ->
  block_sound t0 (fst (add_triangle mt w a b c)) (snd (add_triangle mt w a b c)).
Proof.
  intros H0. unfold add_triangle.
  destruct (MergeNodeTool.AddNode mt w _ _ _) as [[n1 mt1] w1] eqn:E1.
  destruct (AddNode_sound _ _ _ _ _ _ H0 _ _ _ E1) as (I1 & _).
  destruct (MergeNodeTool.AddNode mt1 w1 _ _ _) as [[n2 mt2] w2] eqn:E2.
  destruct (AddNode_sound _ _ _ _ _ _ I1 _ _ _ E2) as (I2 & _).
  destruct (MergeNodeTool.AddNode mt2 w2 _ _ _) as [[n3 mt3] w3] eqn:E3.
  destruct (AddNode_sound _ _ _ _ _ _ I2 _ _ _ E3) as (I3 & _).
  destruct (negb (n1 =? n2) && negb (n2 =? n3) && negb (n3 =? n1));
    cbn [fst snd]; [|exact I3].
  apply block_sound_AddTriangle. exact I3.
Qed.

Lemma decode_facets_sound t0 (fs : list Facet) :
  forall (st : MergeNodeTool.t * World Sink),
  block_sound t0 (fst st) (snd st) ->
  block_sound t0 (fst (decode_facets fs st)) (snd (decode_facets fs st)).
Proof.
  induction fs as [|[[a b] c] fs IH]; intros st H; [exact H|].
  change (decode_facets (((a, b), c) :: fs) st)
    with (decode_facets fs (decode_step st (a, b, c))).
  apply IH. unfold decode_step. apply add_triangle_sound. exact H.
Qed.

(** X6.  Whatever facets of a block have been decoded, the index that
    [AddNode] hands out for a point is the one the sink has given, in
    this block, to the point itself or to a point within the tolerance
    of it: two points are never merged from farther apart. *)
Theorem AddNode_index_is_of_a_near_node (w : World Sink) (fs : list Facet)
    (x y z : float) :
  let st := decode_facets fs (MergeNodeTool.create, w) in
  let r := MergeNodeTool.AddNode (fst st) (snd st) x y z in
  exists evs q,
    trace (snd r) = trace w ++ evs
    /\ In (EvAddNode q (fst (fst r))) evs
    /\ (q = mk_XYZ x y z \/ MergeNodeTool.IsEqual q (mk_XYZ x y z) = true).
Proof.
  intros st r.
  pose proof (decode_facets_sound (trace w) fs (MergeNodeTool.create, w)
                (block_sound_start w)) as Hs.
  fold st in Hs.
  destruct (MergeNodeTool.AddNode (fst st) (snd st) x y z)
    as [[n mt'] w'] eqn:E.
  destruct (AddNode_sound _ _ _ _ _ _ Hs _ _ _ E) as (_ & evs & q & H).
  subst r. cbn [fst snd]. exists evs, q. exact H.
Qed.

End MergeProperties.

(* ===================================================================== *)
(** * The probe, the header and the break *)
(* ===================================================================== *)

Section ProbeProperties.
Context {Sink : Type} {Mesh : RWStl_Reader Sink} {Std : Standard}.
Context {Indicator : Message_ProgressIndicator}.
Import IStream Standard_ReadLineBuffer.

(** X7.  On a good stream with 134 characters or more ahead, wherever it
    stands, [IsAscii] answers from the scan of these 134 characters,
    sends nothing and leaves the stream as it has found it. *)
Theorem IsAscii_restores_the_stream (s : istream) (w : World Sink) :
  good s = true -> (134 <= length (rest s))%nat ->
  IsAscii s w = (IsAscii_scan (take 134 (rest s)), s, w).
Proof.
  intros Hg Hl. destruct s as [d p e f b].
  unfold good in Hg. cbn [eofbit failbit badbit] in Hg.
  destruct e; [discriminate|]. destruct f; [discriminate|].
  destruct b; [discriminate|]. clear Hg.
  unfold IsAscii, read.
  change (good (mk_istream d p false false false)) with true. cbv iota.
  change THE_STL_MIN_FILE_SIZE with 134%nat.
  set (got := take 134 (rest (mk_istream d p false false false))).
  assert (Hlen : length got = 134%nat)
    by (unfold got; rewrite length_take; lia).
  cbv zeta. rewrite Hlen. change (134 <? 134)%nat with false. cbv iota.
  change (fail _) with false. cbv iota.
  change (set_gpos (mk_istream d p false false false)
            (gpos (mk_istream d p false false false) + 134))
    with (mk_istream d (p + 134) false false false).
  rewrite unget_iter by lia.
  rewrite Hlen. change (134 <? 134)%nat with false. cbv iota.
  replace (p + 134 - 134)%nat with p by lia. reflexivity.
Qed.

(** X8.  With fewer than 134 characters to read (or a stream that is not
    good), [IsAscii] sends "Error: Cannot read file", answers true, and
    leaves the stream failed: nothing is put back. *)
Theorem IsAscii_short_stream (s : istream) (w : World Sink) :
  (length (avail s) < 134)%nat ->
  exists s',
    IsAscii s w = (true, s', SendFail w "Error: Cannot read file")
    /\ fail s' = true /\ avail s' = [].
Proof.
  intros Hl. unfold IsAscii.
  destruct (read_lacking s THE_STL_MIN_FILE_SIZE Hl) as (s' & -> & Hf & Ha).
  rewrite Hf. exists s'. auto.
Qed.

(** X9.  With fewer than 84 characters to read, [ReadBinary] sends "Error:
    Corrupted binary STL file" and returns false, the stream failed. *)
Theorem ReadBinary_short_header (s : istream) (w : World Sink) :
  (length (avail s) < 84)%nat ->
  exists s',
    ReadBinary s w = Some (false, s', SendFail w msg_corrupted)
    /\ fail s' = true /\ avail s' = [].
Proof.
  intros Hl. unfold ReadBinary.
  destruct (read_lacking s THE_STL_HEADER_SIZE Hl) as (s' & -> & Hf & Ha).
  replace (length (avail s) =? THE_STL_HEADER_SIZE)%nat with false
    by (symmetry; apply Nat.eqb_neq; unfold THE_STL_HEADER_SIZE; lia).
  exists s'. auto.
Qed.

Lemma ReadBinary_break (s : istream) (w : World Sink) :
  (84 <= length (avail s))%nat ->
  UserBreak (polls w) = true -> UserBreak (S (polls w)) = true ->
  exists s' p,
    ReadBinary s w = Some (false, s', with_polls p w)
    /\ good s' = true /\ avail s' = drop 84 (avail s).
Proof.
  intros Hl U0 U1. unfold ReadBinary.
  destruct (read_full s THE_STL_HEADER_SIZE Hl) as (s1 & -> & Ha & Hg).
  assert (Hh : length (take THE_STL_HEADER_SIZE (avail s)) = THE_STL_HEADER_SIZE)
    by (rewrite length_take; unfold THE_STL_HEADER_SIZE in *; lia).
  rewrite Hh, Nat.eqb_refl. cbn [negb].
  destruct (Hg ltac:(unfold THE_STL_HEADER_SIZE; lia)) as [Hg1 _].
  rewrite ReadBinary_for_S. cbn [aNbFacetRead].
  destruct (0 <? _).
  - rewrite ReadBinary_More_eq. cbn [bl_world]. rewrite U0. cbn [negb].
    rewrite ReadBinary_More_eq. cbn [bl_world bl_stream with_polls polls].
    rewrite U1. cbn [negb].
    exists s1, (S (S (polls w))). cbn [sink trace]. auto.
  - rewrite ReadBinary_More_eq. cbn [bl_world bl_stream]. rewrite U0.
    cbn [negb]. exists s1, (S (polls w)). auto.
Qed.

(** X10.  A break requested before a binary block is read: [ReadBinary]
    reads the 84 bytes of the header and no facet, hands nothing to the
    sink, sends no message and returns false. *)
Theorem ReadBinary_cancelled (s : istream) (w : World Sink) :
  (84 <= length (avail s))%nat ->
  UserBreak (polls w) = true -> UserBreak (S (polls w)) = true ->
  exists s' p,
    ReadBinary s w = Some (false, s', with_polls p w)
    /\ good s' = true /\ avail s' = drop 84 (avail s).
Proof. apply ReadBinary_break. Qed.

(** X11.  A break requested before a text block is read: [ReadAscii] goes
    over the header line and no more, hands nothing to the sink, sends
    no message and returns false. *)
Theorem ReadAscii_cancelled (s : istream) (b : Standard_ReadLineBuffer.t)
    (theUntilPos : Z) (w : World Sink) (h txt : list byte) :
  ready s b -> pending s b = h ++ Cstd.LF :: txt -> no_lf h = true ->
  UserBreak (polls w) = true -> UserBreak (S (polls w)) = true ->
  exists s' b',
    ReadAscii s b theUntilPos w
    = Some (false, s', b', with_polls (S (S (polls w))) w)
    /\ pending s' b' = txt.
Proof.
  intros Hr Hp Hh U0 U1.
  destruct (ReadAscii_header s b theUntilPos w h txt Hr Hp Hh)
    as (s1 & b1 & pp & -> & Hr1 & Hp1).
  rewrite ReadAscii_while_S, ReadAscii_More_eq. cbn [al_world].
  rewrite U0. cbn [negb]. rewrite ReadAscii_More_eq.
  cbn [al_world al_stream al_buffer with_polls polls]. rewrite U1. cbn [negb].
  exists s1, b1. cbn [sink trace]. auto.
Qed.

(** X12.  A break requested before a binary file is read: [Read] hands
    nothing to the sink, sends no message and returns true, the stop
    being no failure of the stream. *)
Theorem Read_cancelled_binary (data : list byte) (w : World Sink) :
  (134 <= length data)%nat -> IsAscii_scan (take 134 data) = false ->
  UserBreak (polls w) = true -> UserBreak (S (polls w)) = true ->
  exists p, Read (Some data) w = Some (true, with_polls p w).
Proof.
  intros Hl Hs U0 U1. unfold Read, Read_detect.
  replace (length data <? THE_STL_MIN_FILE_SIZE)%nat with false
    by (symmetry; apply Nat.ltb_ge; exact Hl).
  rewrite (IsAscii_probe data w Hl), Hs.
  cbn [Read_while]. change (good (open data)) with true. cbv iota.
  destruct (ReadBinary_break (open data) w) as (s' & p & -> & Hg & _);
    [change (avail (open data)) with (drop 0 data); rewrite drop_0; lia
    |exact U0|exact U1|].
  cbn [negb]. exists p. unfold fail.
  unfold good in Hg. apply negb_true_iff in Hg.
  apply orb_false_elim in Hg as [Hg Hb]. apply orb_false_elim in Hg as [_ Hf].
  rewrite Hf, Hb. reflexivity.
Qed.

(** X23.  The detection of the format in [Read] never fails, whatever
    the file: a file shorter than 134 bytes is taken as a text without
    being probed, a longer one is probed on its first 134 bytes; "Error:
    Cannot read file" is never sent, and the stream is left at the
    start of the file. *)
Theorem Read_detect_never_fails (data : list byte) (w : World Sink) :
  Read_detect (length data) (open data) w
  = ((length data <? 134)%nat || IsAscii_scan (take 134 data), open data, w).
Proof.
  unfold Read_detect. change THE_STL_MIN_FILE_SIZE with 134%nat.
  destruct (length data <? 134)%nat eqn:E; [reflexivity|].
  apply Nat.ltb_ge in E. rewrite (IsAscii_probe data w E). reflexivity.
Qed.

End ProbeProperties.

(* ===================================================================== *)
(** * What a block reader sends and returns *)
(* ===================================================================== *)

Section OutcomeFacts.
Context {Sink : Type} {Mesh : RWStl_Reader Sink} {Std : Standard}.
Context {Indicator : Message_ProgressIndicator}.
Import IStream Standard_ReadLineBuffer.

Lemma count_events_app (kind : Event -> bool) (a b : list Event) :
  count_events kind (a ++ b)
  = (count_events kind a + count_events kind b)%nat.
Proof. unfold count_events. rewrite List.filter_app, length_app. reflexivity. Qed.

(** One call of [AddNode]: no inquiry, no message, no triangle, one
    node at most. *)
Lemma AddNode_counts (m : MergeNodeTool.t) (w : World Sink) (x y z : float) :
  let w' := snd (MergeNodeTool.AddNode m w x y z) in
  polls w' = polls w
  /\ count_events is_SendFail (trace w') = count_events is_SendFail (trace w)
  /\ count_events is_AddTriangle (trace w')
     = count_events is_AddTriangle (trace w)
  /\ (count_events is_AddNode (trace w')
      <= S (count_events is_AddNode (trace w)))%nat.
Proof.
  unfold MergeNodeTool.AddNode.
  destruct (MergeNodeTool.Find m _); cbn [snd]; [repeat split; lia|].
  unfold reader_AddNode. destruct (AddNode (sink w) _) as [i k].
  cbn [snd trace polls]. rewrite !count_events_snoc. cbn.
  repeat split; lia.
Qed.

(** The shared tail of the facet loops: no inquiry, no message, one
    triangle and three nodes at most. *)
Lemma add_triangle_counts (m : MergeNodeTool.t) (w : World Sink)
    (a b c : gp_XYZ) :
  let w' := snd (add_triangle m w a b c) in
  polls w' = polls w
  /\ count_events is_SendFail (trace w') = count_events is_SendFail (trace w)
  /\ (count_events is_AddTriangle (trace w')
      <= S (count_events is_AddTriangle (trace w)))%nat
  /\ (count_events is_AddNode (trace w')
      <= 3 + count_events is_AddNode (trace w))%nat.
Proof.
  unfold add_triangle.
  pose proof (AddNode_counts m w (XYZ_X a) (XYZ_Y a) (XYZ_Z a)) as H1.
  destruct (MergeNodeTool.AddNode m w _ _ _) as [[n1 m1] w1].
  pose proof (AddNode_counts m1 w1 (XYZ_X b) (XYZ_Y b) (XYZ_Z b)) as H2.
  destruct (MergeNodeTool.AddNode m1 w1 _ _ _) as [[n2 m2] w2].
  pose proof (AddNode_counts m2 w2 (XYZ_X c) (XYZ_Y c) (XYZ_Z c)) as H3.
  destruct (MergeNodeTool.AddNode m2 w2 _ _ _) as [[n3 m3] w3].
  cbn [snd] in *.
  destruct H1 as (P1 & F1 & T1 & N1). destruct H2 as (P2 & F2 & T2 & N2).
  destruct H3 as (P3 & F3 & T3 & N3).
  destruct (negb (n1 =? n2) && negb (n2 =? n3) && negb (n3 =? n1));
    cbn [snd]; [|repeat split; lia].
  unfold reader_AddTriangle. cbn [trace polls].
  rewrite !count_events_snoc. cbn. repeat split; lia.
Qed.

(** ** The binary reader *)

Lemma ReadBinary_body_outcome (aNbFacets : Z) (st : BinaryLoop Sink) :
  aNbFacetRead st < aNbFacets -> good (bl_stream st) = true ->
  match ReadBinary_body aNbFacets st with
  | Continue st2 =>
      polls (bl_world st2) = polls (bl_world st)
      /\ count_events is_SendFail (trace (bl_world st2))
         = count_events is_SendFail (trace (bl_world st))
      /\ (count_events is_AddTriangle (trace (bl_world st2))
          <= S (count_events is_AddTriangle (trace (bl_world st))))%nat
      /\ (count_events is_AddNode (trace (bl_world st2))
          <= 3 + count_events is_AddNode (trace (bl_world st)))%nat
      /\ good (bl_stream st2) = true
      /\ aNbFacetRead st2 = aNbFacetRead st
  | Return r st2 =>
      r = false
      /\ polls (bl_world st2) = polls (bl_world st)
      /\ count_events is_SendFail (trace (bl_world st2))
         = S (count_events is_SendFail (trace (bl_world st)))
      /\ count_events is_AddTriangle (trace (bl_world st2))
         = count_events is_AddTriangle (trace (bl_world st))
      /\ count_events is_AddNode (trace (bl_world st2))
         = count_events is_AddNode (trace (bl_world st))
      /\ fail (bl_stream st2) = true
  | Break _ => False
  end.
Proof.
  intros Hi Hg. unfold ReadBinary_body.
  destruct (aNbFacesInBuffer st <=? 0) eqn:Hf.
  - set (n := Z.min THE_CHUNK_NBFACETS (aNbFacets - aNbFacetRead st)).
    assert (Hn : 1 <= n) by (unfold n, THE_CHUNK_NBFACETS; lia).
    set (k := Z.to_nat (n * Z.of_nat aFaceDataLen)).
    assert (Hk : Z.of_nat k = n * Z.of_nat aFaceDataLen /\ (0 < k)%nat)
      by (unfold k, aFaceDataLen, aVec3Size; lia).
    destruct Hk as [Hk Hk0]. rewrite <- Hk.
    destruct (le_lt_dec k (length (avail (bl_stream st)))) as [Hle|Hlt].
    + destruct (read_full (bl_stream st) k Hle) as (s' & -> & _ & Hg').
      destruct (Hg' Hk0) as [Hg1 _].
      rewrite length_take, Nat.min_l by exact Hle.
      rewrite Z.eqb_refl. cbn [negb].
      cbn [bl_tool bl_world aBufferPtr aBuffer bl_stream aNbFacetRead
           aNbRead aNbFacesInBuffer].
      pose proof (add_triangle_counts (bl_tool st) (bl_world st)
        (readStlFloatVec3
           (drop aVec3Size (drop 0 (take k (avail (bl_stream st))))))
        (readStlFloatVec3
           (drop (aVec3Size * 2) (drop 0 (take k (avail (bl_stream st))))))
        (readStlFloatVec3
           (drop (aVec3Size * 3) (drop 0 (take k (avail (bl_stream st)))))))
        as Hadd.
      destruct (add_triangle _ _ _ _ _) as [mt' w'].
      cbn [snd bl_world bl_stream aNbFacetRead] in *.
      destruct Hadd as (P & F & T & N). repeat split; auto.
    + destruct (read_lacking (bl_stream st) k Hlt) as (s' & -> & Hfl & _).
      replace (Z.of_nat (length (avail (bl_stream st))) =? Z.of_nat k)
        with false by (symmetry; apply Z.eqb_neq; lia).
      cbn [negb bl_world bl_stream]. unfold SendFail. cbn [trace polls].
      rewrite !count_events_snoc. cbn. repeat split; auto; lia.
  - pose proof (add_triangle_counts (bl_tool st) (bl_world st)
      (readStlFloatVec3 (drop aVec3Size (drop (aBufferPtr st) (aBuffer st))))
      (readStlFloatVec3
         (drop (aVec3Size * 2) (drop (aBufferPtr st) (aBuffer st))))
      (readStlFloatVec3
         (drop (aVec3Size * 3) (drop (aBufferPtr st) (aBuffer st)))))
      as Hadd.
    destruct (add_triangle _ _ _ _ _) as [mt' w'].
    cbn [snd bl_world bl_stream aNbFacetRead] in *.
    destruct Hadd as (P & F & T & N). repeat split; auto.
Qed.

Lemma ReadBinary_for_outcome (aNbFacets : Z) :
  forall (fuel : nat) (st : BinaryLoop Sink) r st',
  ReadBinary_for fuel aNbFacets st = Some (r, st') ->
  good (bl_stream st) = true ->
  (count_events is_AddTriangle (trace (bl_world st'))
   <= count_events is_AddTriangle (trace (bl_world st))
      + Z.to_nat (aNbFacets - aNbFacetRead st))%nat
  /\ (count_events is_AddNode (trace (bl_world st'))
      <= count_events is_AddNode (trace (bl_world st))
         + 3 * Z.to_nat (aNbFacets - aNbFacetRead st))%nat
  /\ ((count_events is_SendFail (trace (bl_world st'))
       = count_events is_SendFail (trace (bl_world st))
       /\ r = negb (UserBreak (Nat.pred (polls (bl_world st'))))
       /\ (polls (bl_world st) < polls (bl_world st'))%nat
       /\ good (bl_stream st') = true)
      \/ (count_events is_SendFail (trace (bl_world st'))
          = S (count_events is_SendFail (trace (bl_world st)))
          /\ r = false /\ fail (bl_stream st') = true)).
Proof.
  induction fuel as [|fuel IH]; intros st r st' H Hg; [discriminate|].
  rewrite ReadBinary_for_S in H.
  assert (Hret : forall st2 : BinaryLoop Sink,
            Some (ReadBinary_More st2) = Some (r, st') ->
            count_events is_AddTriangle (trace (bl_world st'))
            = count_events is_AddTriangle (trace (bl_world st2))
            /\ count_events is_AddNode (trace (bl_world st'))
               = count_events is_AddNode (trace (bl_world st2))
            /\ count_events is_SendFail (trace (bl_world st'))
               = count_events is_SendFail (trace (bl_world st2))
            /\ r = negb (UserBreak (Nat.pred (polls (bl_world st'))))
            /\ polls (bl_world st') = S (polls (bl_world st2))
            /\ bl_stream st' = bl_stream st2).
  { intros st2 E. rewrite ReadBinary_More_eq in E. injection E as <- <-.
    cbn [bl_world bl_stream with_polls trace polls Nat.pred]. auto 10. }
  destruct (aNbFacetRead st <? aNbFacets) eqn:Hi.
  - apply Z.ltb_lt in Hi. rewrite ReadBinary_More_eq in H.
    set (st1 := mk_BinaryLoop _ _ _ _ _ _ _ _) in H.
    destruct (negb (UserBreak (polls (bl_world st)))).
    + pose proof (ReadBinary_body_outcome aNbFacets st1 Hi Hg) as Hb.
      destruct (ReadBinary_body aNbFacets st1) as [st2|st2|r2 st2];
        [|contradiction|].
      * destruct Hb as (P & F & T & N & G & R).
        apply IH in H; [|exact G].
        cbn [ReadBinary_incr bl_world bl_stream aNbFacetRead] in H.
        unfold PS_Next in H.
        cbn [st1 bl_world with_polls trace polls aNbFacetRead] in P, F, T, N, R.
        rewrite R in H. destruct H as (HT & HN & HF).
        split; [lia|]. split; [lia|].
        destruct HF as [(F1 & F2 & F3 & F4)|(F1 & F2 & F3)];
          [left|right]; repeat split; auto; lia.
      * injection H as <- <-.
        destruct Hb as (-> & P & F & T & N & Fl).
        cbn [st1 bl_world with_polls trace polls] in P, F, T, N.
        split; [lia|]. split; [lia|]. right. auto.
    + apply Hret in H. cbn [st1 bl_world bl_stream with_polls trace polls] in H.
      destruct H as (T & N & F & R & P & S'). rewrite S'.
      split; [lia|]. split; [lia|]. left. repeat split; auto. lia.
  - apply Hret in H. destruct H as (T & N & F & R & P & S'). rewrite S'.
    split; [lia|]. split; [lia|]. left. repeat split; auto. lia.
Qed.

Lemma ReadBinary_facts (s : istream) (w : World Sink) :
  match ReadBinary s w with
  | Some (r, s', w') =>
      let aNbFacets := int32_le (drop 80 (take 84 (avail s))) in
      (count_events is_AddTriangle (trace w')
       <= count_events is_AddTriangle (trace w) + Z.to_nat aNbFacets)%nat
      /\ (count_events is_AddNode (trace w')
          <= count_events is_AddNode (trace w) + 3 * Z.to_nat aNbFacets)%nat
      /\ ((count_events is_SendFail (trace w')
           = count_events is_SendFail (trace w)
           /\ r = negb (UserBreak (Nat.pred (polls w')))
           /\ (polls w < polls w')%nat
           /\ good s' = true)
          \/ (count_events is_SendFail (trace w')
              = S (count_events is_SendFail (trace w))
              /\ r = false /\ fail s' = true))
  | None => False
  end.
Proof.
  destruct (ReadBinary_returns s w) as (r & s' & w' & evs & E & _).
  rewrite E. revert E. unfold ReadBinary.
  destruct (le_lt_dec THE_STL_HEADER_SIZE (length (avail s))) as [Hle|Hlt].
  - destruct (read_full s THE_STL_HEADER_SIZE Hle) as (s1 & -> & _ & Hg).
    destruct (Hg ltac:(unfold THE_STL_HEADER_SIZE; lia)) as [Hg1 _].
    rewrite length_take, Nat.min_l, Nat.eqb_refl by exact Hle. cbn [negb].
    change THE_STL_HEADER_SIZE with 84%nat.
    destruct (ReadBinary_for _ _ _) as [[r0 st']|] eqn:Ef; [|discriminate].
    intros [= <- <- <-].
    apply ReadBinary_for_outcome in Ef; [|exact Hg1].
    cbn [bl_world bl_stream aNbFacetRead] in Ef. rewrite Z.sub_0_r in Ef.
    exact Ef.
  - destruct (read_lacking s THE_STL_HEADER_SIZE Hlt) as (s1 & -> & Hf & _).
    replace (length (avail s) =? THE_STL_HEADER_SIZE)%nat with false
      by (symmetry; apply Nat.eqb_neq; lia).
    cbn [negb]. intros [= <- <- <-]. unfold SendFail. cbn [trace polls].
    rewrite !count_events_snoc. cbn. split; [lia|]. split; [lia|].
    right. repeat split; auto; lia.
Qed.

(** X13.  [ReadBinary] returns, in one of two ways.  Either it has sent no
    message: the result is the answer of the last inquiry about a
    break, and the stream is good.  Or it has sent one message, for a
    header or a chunk cut short: the result is false and the stream has
    failed. *)
Theorem ReadBinary_outcome (s : istream) (w : World Sink) :
  match ReadBinary s w with
  | Some (r, s', w') =>
      (count_events is_SendFail (trace w')
       = count_events is_SendFail (trace w)
       /\ r = negb (UserBreak (Nat.pred (polls w')))
       /\ (polls w < polls w')%nat
       /\ good s' = true)
      \/ (count_events is_SendFail (trace w')
          = S (count_events is_SendFail (trace w))
          /\ r = false /\ fail s' = true)
  | None => False
  end.
Proof.
  pose proof (ReadBinary_facts s w) as H.
  destruct (ReadBinary s w) as [[[r s'] w']|]; [|exact H].
  destruct H as (_ & _ & H). exact H.
Qed.

(** X14.  Whatever the stream holds and whenever a break is requested,
    [ReadBinary] registers no more triangles than the count of the
    header announces, and no more than three nodes for each of them. *)
Theorem ReadBinary_within_the_count (s : istream) (w : World Sink) :
  match ReadBinary s w with
  | Some (r, s', w') =>
      let aNbFacets := int32_le (drop 80 (take 84 (avail s))) in
      (count_events is_AddTriangle (trace w')
       <= count_events is_AddTriangle (trace w) + Z.to_nat aNbFacets)%nat
      /\ (count_events is_AddNode (trace w')
          <= count_events is_AddNode (trace w) + 3 * Z.to_nat aNbFacets)%nat
  | None => False
  end.
Proof.
  pose proof (ReadBinary_facts s w) as H.
  destruct (ReadBinary s w) as [[[r s'] w']|]; [|exact H].
  destruct H as (H1 & H2 & _). split; assumption.
Qed.

(** ** The text reader *)

Lemma ReadAscii_body_outcome (st : AsciiLoop Sink) :
  match ReadAscii_body st with
  | Continue st2 | Break st2 =>
      polls (al_world st2) = polls (al_world st)
      /\ count_events is_SendFail (trace (al_world st2))
         = count_events is_SendFail (trace (al_world st))
  | Return r st2 =>
      r = false
      /\ polls (al_world st2) = polls (al_world st)
      /\ count_events is_SendFail (trace (al_world st2))
         = S (count_events is_SendFail (trace (al_world st)))
  end.
Proof.
  destruct (ReadAscii_body_start st) as (s1 & pp & -> & _ & _).
  cbv zeta.
  assert (HS : forall msg,
            polls (SendFail (al_world st) msg) = polls (al_world st)
            /\ count_events is_SendFail (trace (SendFail (al_world st) msg))
               = S (count_events is_SendFail (trace (al_world st)))).
  { intros msg. unfold SendFail. cbn [trace polls].
    rewrite count_events_snoc. cbn. split; lia. }
  destruct (ReadLine s1 (al_buffer st)) as [[ol s2] b2].
  destruct ol as [aLine|]; [|cbn [al_world]; split; [reflexivity|apply HS]].
  destruct (str_starts_with aLine kw_endsolid 8); [cbn [al_world]; auto|].
  destruct (negb (str_starts_with aLine kw_facet 5));
    [cbn [al_world]; split; [reflexivity|apply HS]|].
  destruct (ReadLine s2 b2) as [[ol2 s3] b3].
  destruct (match ol2 with
            | Some l => negb (str_starts_with l kw_outer 5)
            | None => true
            end); [cbn [al_world]; split; [reflexivity|apply HS]|].
  destruct (read_vertices 3 s3 b3 []) as [aVertex s4 b4|s4 b4|s4 b4];
    [|cbn [al_world]; auto|cbn [al_world]; split; [reflexivity|apply HS]].
  pose proof (add_triangle_counts (al_tool st) (al_world st)
                (nth 0 aVertex (mk_XYZ 0 0 0)) (nth 1 aVertex (mk_XYZ 0 0 0))
                (nth 2 aVertex (mk_XYZ 0 0 0))) as Hadd.
  destruct (add_triangle _ _ _ _ _) as [mt' w2].
  destruct (ReadLine s4 b4) as [[ol5 s5] b5].
  destruct (ReadLine s5 b5) as [[ol6 s6] b6].
  cbn [al_world snd] in *. destruct Hadd as (P & F & _). auto.
Qed.

Lemma ReadAscii_while_outcome :
  forall (fuel : nat) (st : AsciiLoop Sink) r st',
  ReadAscii_while fuel st = Some (r, st') ->
  (count_events is_SendFail (trace (al_world st'))
   = count_events is_SendFail (trace (al_world st))
   /\ r = negb (UserBreak (Nat.pred (polls (al_world st'))))
   /\ (polls (al_world st) < polls (al_world st'))%nat)
  \/ (count_events is_SendFail (trace (al_world st'))
      = S (count_events is_SendFail (trace (al_world st)))
      /\ r = false).
Proof.
  induction fuel as [|fuel IH]; intros st r st' H; [discriminate|].
  rewrite ReadAscii_while_S, ReadAscii_More_eq in H.
  set (st1 := mk_AsciiLoop _ _ _ _ _ _) in H.
  destruct (negb (UserBreak (polls (al_world st)))).
  - pose proof (ReadAscii_body_outcome st1) as Hb.
    cbn [st1 al_world with_polls trace polls] in Hb.
    destruct (ReadAscii_body st1) as [st2|st2|r2 st2].
    + destruct Hb as [P F]. apply IH in H.
      destruct H as [(F1 & F2 & F3)|(F1 & F2)]; [left|right];
        repeat split; auto; lia.
    + destruct Hb as [P F]. rewrite ReadAscii_More_eq in H.
      injection H as <- <-. cbn [al_world with_polls trace polls Nat.pred].
      left. repeat split; auto; lia.
    + destruct Hb as (-> & P & F). injection H as <- <-. right. auto.
  - rewrite ReadAscii_More_eq in H. injection H as <- <-.
    cbn [st1 al_world with_polls trace polls Nat.pred].
    left. repeat split; auto.
Qed.

(** X15.  [ReadAscii] returns, in one of two ways.  Either it has sent no
    message, and the result is the answer of the last inquiry about a
    break.  Or it has sent one message, and the result is false. *)
Theorem ReadAscii_outcome (s : istream) (b : Standard_ReadLineBuffer.t)
    (theUntilPos : Z) (w : World Sink) :
  match ReadAscii s b theUntilPos w with
  | Some (r, s', b', w') =>
      (count_events is_SendFail (trace w')
       = count_events is_SendFail (trace w)
       /\ r = negb (UserBreak (Nat.pred (polls w')))
       /\ (polls w < polls w')%nat)
      \/ (count_events is_SendFail (trace w')
          = S (count_events is_SendFail (trace w))
          /\ r = false)
  | None => False
  end.
Proof.
  destruct (ReadAscii_returns s b theUntilPos w)
    as (r & s' & b' & w' & evs & E & _).
  rewrite E. revert E. unfold ReadAscii.
  destruct (tellg s) as [aStartPos s0].
  destruct (ReadLine s0 b) as [[ol s1] b1].
  destruct ol as [l|].
  - destruct (ReadAscii_while _ _) as [[r0 st']|] eqn:Ew; [|discriminate].
    intros [= <- <- <- <-].
    apply ReadAscii_while_outcome in Ew. cbn [al_world] in Ew. exact Ew.
  - intros [= <- <- <- <-]. right. unfold SendFail. cbn [trace].
    rewrite count_events_snoc. cbn. split; [lia|reflexivity].
Qed.

End OutcomeFacts.

(* ===================================================================== *)
(** * The text of a solid *)
(* ===================================================================== *)

Section SolidFacts.
Context {Sink : Type} {Mesh : RWStl_Reader Sink} {Std : Standard}.
Context {Indicator : Message_ProgressIndicator}.
Import IStream Standard_ReadLineBuffer.

(** A line that closes the solid. *)
Lemma ReadAscii_while_endsolid (fuel : nat) (st : AsciiLoop Sink)
    (txt e tail : list byte) :
  never_breaks -> at_text st txt -> next_line txt = (Some e, tail) ->
  str_starts_with e kw_endsolid 8 = true ->
  exists s' b' pp,
    ReadAscii_while (S fuel) st =
    Some (true,
          mk_AsciiLoop s' b' (al_tool st)
            (with_polls (S (S (polls (al_world st)))) (al_world st))
            pp (aNbLine st))
    /\ ready s' b' /\ pending s' b' = tail.
Proof.
  intros Hnb [Hr Hp] Hl He.
  rewrite ReadAscii_while_S, ReadAscii_More_eq, Hnb. simpl negb. cbv iota.
  set (st1 := mk_AsciiLoop _ _ _ _ _ _).
  destruct (ReadAscii_body_start st1) as (s1 & pp & -> & Hr1 & Hp1).
  specialize (Hr1 Hr). unfold al_pending in *. simpl in Hp1. rewrite Hp in Hp1.
  cbv zeta.
  destruct (ReadLine s1 (al_buffer st1)) as [[ol s2] b2] eqn:E.
  destruct (ReadLine_spec _ _ Hr1 _ _ _ E) as (H1 & H2 & H3 & _).
  change (al_buffer st1) with (al_buffer st) in H1, H2.
  rewrite Hp1, Hl in H1, H2. cbn [fst snd] in H1, H2. subst ol.
  rewrite He. rewrite ReadAscii_More_eq, Hnb. cbn.
  exists s2, b2, pp. auto.
Qed.



End SolidFacts.

Section SolidProperties.
Context {Sink : Type} {Mesh : RWStl_Reader Sink} {Std : Standard}.
Context {Indicator : Message_ProgressIndicator}.
Import IStream Standard_ReadLineBuffer.

(** X16.  With nothing left to read, [ReadAscii] sends "Error: premature end
    of file" and returns false, the stream failed. *)
Theorem ReadAscii_nothing_to_read (s : istream)
    (b : Standard_ReadLineBuffer.t) (theUntilPos : Z) (w : World Sink) :
  ready s b -> pending s b = [] ->
  exists s' b',
    ReadAscii s b theUntilPos w
    = Some (false, s', b', SendFail w msg_premature)
    /\ fail s' = true.
Proof.
  intros Hr Hp. unfold ReadAscii.
  pose proof (tellg_pending s b) as Hp0. pose proof (tellg_ready s b Hr) as Hr0.
  destruct (tellg s) as [aStartPos s0]. unfold snd in *. rewrite Hp in Hp0.
  destruct (ReadLine_eof _ _ Hr0 Hp0) as (s1 & b1 & -> & _ & _ & Hf).
  exists s1, b1. auto.
Qed.

(** X17.  The text of a solid: a header line, facets, and a line that starts
    with [endsolid] (closed by a line feed or by the end of the text).
    [ReadAscii] returns true, the facets are decoded in their order, no
    message is sent, and what follows the closing line is left for the
    next block. *)
Theorem ReadAscii_solid (s : istream) (b : Standard_ReadLineBuffer.t)
    (theUntilPos : Z) (w : World Sink) (h : list byte)
    (fs : list FacetText) (txt e tail : list byte) :
  never_breaks ->
  ready s b -> no_lf h = true -> forallb facet_ok fs = true ->
  next_line txt = (Some e, tail) ->
  str_starts_with e kw_endsolid 8 = true ->
  pending s b = unlines (h :: concat (map facet_lines fs)) ++ txt ->
  let X := decode_facets (map facet_points fs) (MergeNodeTool.create, w) in
  exists s' b' w',
    ReadAscii s b theUntilPos w = Some (true, s', b', w')
    /\ sink w' = sink (snd X)
    /\ trace w' = trace (snd X)
    /\ count_events is_SendFail (trace w')
       = count_events is_SendFail (trace w)
    /\ ready s' b' /\ pending s' b' = tail.
Proof.
  intros Hnb Hr Hh Hfs Hl He Hp X.
  destruct (ReadAscii_facets s b theUntilPos w h fs _ Hnb Hr Hh Hfs Hp)
    as (st1 & fuel & -> & Hat & Ht & Hw & Hnl).
  destruct (ReadAscii_while_endsolid fuel st1 txt e tail Hnb Hat Hl He)
    as (s2 & b2 & pp2 & -> & Hr2 & Hp2).
  exists s2, b2. eexists. cbn [al_stream al_buffer al_world al_tool].
  split; [reflexivity|]. rewrite Hw.
  split; [reflexivity|]. split; [reflexivity|].
  split; [|split; assumption].
  cbn [with_polls trace]. apply (decode_facets_fails _ (_, w)).
Qed.


End SolidProperties.

(* ===================================================================== *)
(** * The blocks of a binary file *)
(* ===================================================================== *)

Section FileFacts.
Context {Sink : Type} {Mesh : RWStl_Reader Sink} {Std : Standard}.
Context {Indicator : Message_ProgressIndicator}.
Import IStream Standard_ReadLineBuffer.

Lemma good_flags (s : istream) :
  good s = true -> eofbit s = false /\ failbit s = false /\ badbit s = false.
Proof.
  unfold good. intros H. apply negb_true_iff in H.
  apply orb_false_elim in H as [H Hb]. apply orb_false_elim in H as [He Hf].
  auto.
Qed.

Lemma good_not_fail (s : istream) : good s = true -> fail s = false.
Proof.
  intros H. destruct (good_flags s H) as (_ & Hf & Hb).
  unfold fail. rewrite Hf, Hb. reflexivity.
Qed.

(** [ws] over white space closed by the end of the stream. *)
Lemma ws_to_the_end (s : istream) :
  good s = true -> forallb Cstd.isspace (rest s) = true ->
  good (ws s) = false /\ fail (ws s) = false.
Proof.
  intros Hg Hsp. unfold ws. rewrite Hg, (skip_while_all _ _ Hsp).
  destruct (good_flags s Hg) as (He & Hf & Hb).
  unfold good, fail. cbn [set_eofbit set_gpos eofbit failbit badbit].
  rewrite Hf, Hb. auto.
Qed.

(** [ws] over white space followed by another character. *)
Lemma ws_to_a_character (s : istream) (sp : list byte) (c : byte)
    (more : list byte) :
  good s = true -> rest s = sp ++ c :: more ->
  forallb Cstd.isspace sp = true -> Cstd.isspace c = false ->
  good (ws s) = true /\ rest (ws s) = c :: more.
Proof.
  intros Hg Hr Hsp Hc. unfold ws. rewrite Hg, Hr.
  rewrite (skip_while_app _ _ _ Hsp), (skip_while_stop _ _ _ Hc).
  split; [exact Hg|]. unfold rest in *. cbn [set_gpos gpos rdbuf].
  assert (Hd : rdbuf s = (take (gpos s) (rdbuf s) ++ sp) ++ c :: more).
  { rewrite <- app_assoc, <- Hr. symmetry. apply take_drop. }
  rewrite Hd at 2.
  replace (length (rdbuf s) - length (c :: more))%nat
    with (length (take (gpos s) (rdbuf s) ++ sp)).
  - apply drop_app_length.
  - rewrite Hd at 2. rewrite (length_app (_ ++ _)). lia.
Qed.

Lemma world_eta (w : World Sink) : mk_World (sink w) (trace w) (polls w) = w.
Proof. destruct w; reflexivity. Qed.

Lemma decode_blocks_polls (p : nat) (bs : list BinaryBlock) :
  forall (w : World Sink),
  decode_blocks bs (with_polls p w) = with_polls p (decode_blocks bs w).
Proof.
  induction bs as [|b bs IH]; intros w; [reflexivity|].
  unfold decode_blocks in *. cbn [fold_left].
  rewrite decode_facets_polls. cbn [snd]. apply IH.
Qed.

Lemma decode_blocks_same (bs : list BinaryBlock) (w1 w2 : World Sink) :
  sink w1 = sink w2 -> trace w1 = trace w2 ->
  sink (decode_blocks bs w1) = sink (decode_blocks bs w2)
  /\ trace (decode_blocks bs w1) = trace (decode_blocks bs w2).
Proof.
  intros Hs Ht.
  assert (E : w1 = with_polls (polls w1) w2).
  { unfold with_polls. rewrite <- Hs, <- Ht. symmetry. apply world_eta. }
  rewrite E, decode_blocks_polls. split; reflexivity.
Qed.

Lemma block_ok_length (bs : list BinaryBlock) :
  forallb block_ok bs = true ->
  (length bs <= length (concat (map bb_bytes bs)))%nat.
Proof.
  induction bs as [|b bs IH]; [simpl; lia|].
  cbn [forallb map concat]. intros H. apply andb_prop in H as [Hb Hbs].
  specialize (IH Hbs). rewrite length_app. unfold bb_bytes at 1.
  unfold block_ok in Hb. apply andb_prop in Hb as [Hb _].
  apply andb_prop in Hb as [Hb _]. apply andb_prop in Hb as [Hb _].
  apply Nat.eqb_eq in Hb. rewrite length_app, Hb. cbn [length]. lia.
Qed.

(** One block of a binary file, and what follows its records. *)
Lemma ReadBinary_block (s : istream) (w : World Sink) (b : BinaryBlock)
    (more : list byte) :
  never_breaks -> good s = true -> block_ok b = true ->
  rest s = bb_header b ++ bb_records b ++ more ->
  exists s' w',
    ReadBinary s w = Some (true, s', w')
    /\ sink w'
       = sink (snd (decode_facets (bb_facets b) (MergeNodeTool.create, w)))
    /\ trace w'
       = trace (snd (decode_facets (bb_facets b) (MergeNodeTool.create, w)))
    /\ good s' = true /\ rest s' = more.
Proof.
  intros Hnb Hg Hok Hr. unfold block_ok in Hok.
  apply andb_prop in Hok as [Hok _].
  apply andb_prop in Hok as [Hok Hrec]. apply andb_prop in Hok as [Hh Hc].
  apply Nat.eqb_eq in Hh. apply Z.leb_le in Hc. apply Z.eqb_eq in Hrec.
  assert (Ha : avail s = bb_header b ++ bb_records b ++ more)
    by (rewrite avail_good by exact Hg; exact Hr).
  assert (Hl : (84 <= length (avail s))%nat)
    by (rewrite Ha, length_app; lia).
  assert (Ht : take 84 (avail s) = bb_header b).
  { rewrite Ha, <- Hh. apply take_app_length. }
  assert (Hd : drop 84 (avail s) = bb_records b ++ more).
  { rewrite Ha, <- Hh. apply drop_app_length. }
  pose proof (ReadBinary_facts s w) as Ho.
  destruct (ReadBinary_spec s w Hnb Hl) as (s' & w' & E & Hs & Htr & Hav & _).
  rewrite Ht, Hd in E, Hs, Htr, Hav. fold (bb_count b) in E, Hs, Htr, Hav.
  assert (Hok : (50 * bb_count b
                 <=? Z.of_nat (length (bb_records b ++ more))) = true).
  { apply Z.leb_le. rewrite length_app. lia. }
  rewrite Hok in E, Htr, Hav.
  assert (HD : binary_decoded (bb_count b) (length (bb_records b ++ more))
               = Z.to_nat (bb_count b)).
  { unfold binary_decoded. rewrite Hok. reflexivity. }
  rewrite HD in Hs, Htr, Hav.
  assert (Hlen : length (bb_records b) = (50 * Z.to_nat (bb_count b))%nat)
    by lia.
  assert (Hf : facets_of (Z.to_nat (bb_count b)) (bb_records b ++ more)
               = bb_facets b).
  { unfold bb_facets.
    rewrite <- (facets_of_take _ (length (bb_records b)) (bb_records b ++ more))
      by lia.
    rewrite take_app_length. reflexivity. }
  rewrite Hf in Hs, Htr. rewrite app_nil_r in Htr.
  rewrite <- Hlen, drop_app_length in Hav.
  rewrite E in Ho. destruct Ho as (_ & _ & Ho).
  destruct Ho as [(_ & _ & _ & Hg')|(_ & Hfalse & _)]; [|discriminate].
  exists s', w'. split; [exact E|]. split; [exact Hs|].
  split; [exact Htr|]. split; [exact Hg'|].
  rewrite <- avail_good by exact Hg'. exact Hav.
Qed.

(** The loop of [Read] over the blocks of a binary file. *)
Lemma Read_while_blocks (theEnd : Z) (aBuffer : Standard_ReadLineBuffer.t) :
  never_breaks ->
  forall (bs : list BinaryBlock) (fuel : nat) (s : istream) (w : World Sink),
  (length bs < fuel)%nat ->
  match bs with
  | [] => good s = false /\ fail s = false
  | _ :: _ => good s = true /\ rest s = concat (map bb_bytes bs)
  end ->
  forallb block_ok bs = true -> forallb block_follows (tl bs) = true ->
  exists w',
    Read_while fuel false theEnd s aBuffer w = Some (true, w')
    /\ sink w' = sink (decode_blocks bs w)
    /\ trace w' = trace (decode_blocks bs w).
Proof.
  intros Hnb. induction bs as [|b bs IH]; intros fuel s w Hf Hs Hok Hfo.
  - destruct fuel as [|fuel]; [lia|]. destruct Hs as [Hg Hfl].
    cbn [Read_while]. rewrite Hg, Hfl. exists w. auto.
  - destruct fuel as [|fuel]; [simpl in Hf; lia|]. destruct Hs as [Hg Hr].
    cbn [forallb] in Hok. apply andb_prop in Hok as [Hb Hbs].
    cbn [Read_while]. rewrite Hg.
    cbn [map concat] in Hr. unfold bb_bytes at 1 in Hr.
    rewrite <- !app_assoc in Hr.
    destruct (ReadBinary_block s w b _ Hnb Hg Hb Hr)
      as (s' & w' & -> & Hsk & Htr & Hg' & Hr').
    cbn [negb].
    assert (Hsp : forallb Cstd.isspace (bb_space b) = true).
    { unfold block_ok in Hb. apply andb_prop in Hb as [_ Hb]. exact Hb. }
    assert (Hnext : match bs with
                    | [] => good (ws s') = false /\ fail (ws s') = false
                    | _ :: _ => good (ws s') = true
                                /\ rest (ws s') = concat (map bb_bytes bs)
                    end).
    { destruct bs as [|b1 bs'].
      - cbn [map concat] in Hr'. rewrite app_nil_r in Hr'.
        apply ws_to_the_end; [exact Hg'|]. rewrite Hr'. exact Hsp.
      - cbn [tl forallb] in Hfo. apply andb_prop in Hfo as [Hfo _].
        cbn [forallb] in Hbs. apply andb_prop in Hbs as [Hb1 _].
        unfold block_ok in Hb1. apply andb_prop in Hb1 as [Hb1 _].
        apply andb_prop in Hb1 as [Hb1 _]. apply andb_prop in Hb1 as [Hb1 _].
        apply Nat.eqb_eq in Hb1.
        unfold block_follows in Hfo. apply negb_true_iff in Hfo.
        cbn [map concat] in Hr' |- *. unfold bb_bytes at 1 in Hr'.
        unfold bb_bytes at 1.
        destruct (bb_header b1) as [|c hdr]; [discriminate|].
        cbn [Cstd.deref] in Hfo.
        rewrite <- !app_comm_cons in Hr' |- *.
        apply (ws_to_a_character s' (bb_space b) c _ Hg' Hr' Hsp Hfo). }
    destruct (IH fuel (ws s') w' ltac:(simpl in Hf; lia) Hnext Hbs)
      as (w'' & E & Hs2 & Ht2).
    { destruct bs as [|b1 [|b2 bs']]; try reflexivity.
      cbn [tl forallb] in Hfo |- *. apply andb_prop in Hfo as [_ Hfo].
      exact Hfo. }
    exists w''. split; [exact E|].
    change (decode_blocks (b :: bs) w)
      with (decode_blocks bs
              (snd (decode_facets (bb_facets b) (MergeNodeTool.create, w)))).
    destruct (decode_blocks_same bs w' _ Hsk Htr) as [S1 T1].
    rewrite Hs2, Ht2. auto.
Qed.

End FileFacts.

Section FileProperties.
Context {Sink : Type} {Mesh : RWStl_Reader Sink} {Std : Standard}.
Context {Indicator : Message_ProgressIndicator}.
Import IStream Standard_ReadLineBuffer.

(** X19.  A binary file made of blocks, each a header of 84 bytes, the
    records its count announces and white space, none but the first
    with a header that starts with white space: [Read] returns true,
    sends no message, and the blocks are decoded one after the other,
    each with a merging tool of its own. *)
Theorem Read_binary_blocks (bs : list BinaryBlock) (w : World Sink) :
  never_breaks ->
  forallb block_ok bs = true -> forallb block_follows (tl bs) = true ->
  (134 <= length (concat (map bb_bytes bs)))%nat ->
  IsAscii_scan (take 134 (concat (map bb_bytes bs))) = false ->
  exists w',
    Read (Some (concat (map bb_bytes bs))) w = Some (true, w')
    /\ sink w' = sink (decode_blocks bs w)
    /\ trace w' = trace (decode_blocks bs w).
Proof.
  intros Hnb Hok Hfo Hl Hs. set (data := concat (map bb_bytes bs)) in *.
  unfold Read, Read_detect.
  replace (length data <? THE_STL_MIN_FILE_SIZE)%nat with false
    by (symmetry; apply Nat.ltb_ge; exact Hl).
  rewrite (IsAscii_probe data w Hl), Hs.
  apply Read_while_blocks; try assumption.
  - pose proof (block_ok_length bs Hok). fold data in H. lia.
  - destruct bs as [|b bs']; [simpl in Hl; lia|].
    split; [reflexivity|]. unfold rest. cbn [open gpos rdbuf].
    rewrite drop_0. reflexivity.
Qed.

(** X20.  A binary file with fewer records than its count announces: [Read]
    returns false, after the facets of the chunks of 80 read in full
    have been decoded and "Error: binary STL read failed" sent. *)
Theorem Read_binary_truncated (data : list byte) (w : World Sink) :
  never_breaks ->
  (134 <= length data)%nat -> IsAscii_scan (take 134 data) = false ->
  Z.of_nat (length (drop 84 data)) < 50 * int32_le (drop 80 (take 84 data)) ->
  let D := (80 * (length (drop 84 data) / 4000))%nat in
  let X := decode_facets (facets_of D (drop 84 data))
             (MergeNodeTool.create, w) in
  exists w',
    Read (Some data) w = Some (false, w')
    /\ sink w' = sink (snd X)
    /\ trace w' = trace (snd X) ++ [EvSendFail msg_read_failed].
Proof.
  intros Hnb Hl Hs Hc D X. unfold Read, Read_detect.
  replace (length data <? THE_STL_MIN_FILE_SIZE)%nat with false
    by (symmetry; apply Nat.ltb_ge; exact Hl).
  rewrite (IsAscii_probe data w Hl), Hs.
  cbn [Read_while]. change (good (open data)) with true. cbv iota.
  assert (Ha : avail (open data) = data).
  { change (avail (open data)) with (drop 0 data). apply drop_0. }
  destruct (ReadBinary_spec (open data) w Hnb) as (s' & w' & E & H1 & H2 & _ & H4);
    [rewrite Ha; lia|].
  rewrite Ha in E, H1, H2, H4.
  assert (Hko : (50 * int32_le (drop 80 (take 84 data))
                 <=? Z.of_nat (length (drop 84 data))) = false)
    by (apply Z.leb_gt; exact Hc).
  rewrite Hko in E, H2, H4.
  assert (HD : binary_decoded (int32_le (drop 80 (take 84 data)))
                 (length (drop 84 data)) = D).
  { unfold binary_decoded. rewrite Hko. reflexivity. }
  rewrite HD in H1, H2. fold X in H1, H2.
  rewrite E. cbn [negb]. rewrite (H4 eq_refl). exists w'. auto.
Qed.

End FileProperties.

(* ===================================================================== *)
(** * The file as a whole *)
(* ===================================================================== *)

Lemma triangles_registered_app (a b : list Event) :
  triangles_registered a -> triangles_registered b ->
  triangles_registered (a ++ b).
Proof.
  intros Ha Hb pre n1 n2 n3 post E.
  apply app_eq_app in E. destruct E as [l [[E1 E2]|[E1 E2]]].
  - destruct l as [|e l].
    + cbn [app] in E2. symmetry in E2.
      destruct (Hb [] n1 n2 n3 post E2) as [[] _].
    + cbn [app] in E2. injection E2 as <- _.
      apply (Ha pre n1 n2 n3 l). exact E1.
  - destruct (Hb l n1 n2 n3 post E2) as (H1 & H2 & H3).
    rewrite E1, returned_app. repeat split; apply in_or_app; right; assumption.
Qed.

Section WholeFacts.
Context {Sink : Type} {Mesh : RWStl_Reader Sink} {Std : Standard}.
Context {Indicator : Message_ProgressIndicator}.
Import IStream Standard_ReadLineBuffer.

Lemma Read_while_registers (isAscii : bool) (theEnd : Z) :
  forall (fuel : nat) (s : istream) (b : Standard_ReadLineBuffer.t)
         (w : World Sink),
  (length (pending s b) < fuel)%nat ->
  exists r w' evs,
    Read_while fuel isAscii theEnd s b w = Some (r, w')
    /\ trace w' = trace w ++ evs /\ triangles_registered evs.
Proof.
  induction fuel as [|fuel IH]; intros s b w Hf; [lia|].
  cbn [Read_while].
  assert (Hnil : exists evs : list Event,
            trace w = trace w ++ evs /\ triangles_registered evs).
  { exists []. rewrite app_nil_r. split; [reflexivity|].
    apply triangles_registered_nil. }
  destruct (good s);
    [|destruct Hnil as (evs & H); exists (negb (fail s)), w, evs;
      split; [reflexivity|exact H]].
  destruct isAscii.
  - destruct (ReadAscii_returns s b theEnd w)
      as (r & s' & b' & w' & evs & E & Ht & Hr).
    rewrite E. destruct r; cbn [negb];
      [|exists (negb (fail s')), w', evs; auto].
    pose proof (ReadAscii_pending _ _ _ _ _ _ _ _ E eq_refl) as Hl.
    pose proof (ws_avail s') as Hw.
    destruct (IH (ws s') b' w') as (r2 & w2 & evs2 & E2 & Ht2 & Hr2).
    { unfold pending in *. rewrite ?length_app in *. lia. }
    exists r2, w2, (evs ++ evs2). split; [exact E2|].
    split; [rewrite Ht2, Ht, app_assoc; reflexivity|].
    apply triangles_registered_app; assumption.
  - destruct (ReadBinary_returns s w) as (r & s' & w' & evs & E & Ht & Hr).
    rewrite E. destruct r; cbn [negb];
      [|exists (negb (fail s')), w', evs; auto].
    pose proof (ReadBinary_avail _ _ _ _ _ E eq_refl) as Hl.
    pose proof (ws_avail s') as Hw.
    destruct (IH (ws s') b w') as (r2 & w2 & evs2 & E2 & Ht2 & Hr2).
    { unfold pending in *. rewrite ?length_app in *. lia. }
    exists r2, w2, (evs ++ evs2). split; [exact E2|].
    split; [rewrite Ht2, Ht, app_assoc; reflexivity|].
    apply triangles_registered_app; assumption.
Qed.

Lemma Read_detect_trace (theEnd : nat) (s : istream) (w : World Sink) :
  exists evs,
    trace (snd (Read_detect theEnd s w)) = trace w ++ evs
    /\ triangles_registered evs.
Proof.
  assert (Hnil : exists evs : list Event,
            trace w = trace w ++ evs /\ triangles_registered evs).
  { exists []. rewrite app_nil_r. split; [reflexivity|].
    apply triangles_registered_nil. }
  unfold Read_detect. destruct (theEnd <? THE_STL_MIN_FILE_SIZE)%nat;
    [exact Hnil|].
  unfold IsAscii. destruct (read s THE_STL_MIN_FILE_SIZE) as [got s1].
  destruct (fail s1).
  - cbn [snd]. eexists. split; [reflexivity|].
    apply (triangles_registered_snoc [] _ triangles_registered_nil).
    intros; discriminate.
  - destruct (length got <? THE_STL_MIN_FILE_SIZE)%nat; exact Hnil.
Qed.

Lemma same_vertices_facets (n : nat) :
  forall (b1 b2 : list byte),
  same_vertices n b1 b2 -> facets_of n b1 = facets_of n b2.
Proof.
  assert (Hv : forall (j : nat) (p : list byte), (j + 12 <= 36)%nat ->
            readStlFloatVec3 (drop (12 + j) p)
            = readStlFloatVec3 (drop j (take 36 (drop 12 p)))).
  { intros j p Hj. rewrite readStlFloatVec3_take by exact Hj.
    rewrite drop_drop. reflexivity. }
  assert (F : forall p : list byte,
            facet_of_record p
            = (readStlFloatVec3 (drop 0 (take 36 (drop 12 p))),
               readStlFloatVec3 (drop 12 (take 36 (drop 12 p))),
               readStlFloatVec3 (drop 24 (take 36 (drop 12 p))))).
  { intros p. rewrite <- (Hv 0%nat), <- (Hv 12%nat), <- (Hv 24%nat) by lia.
    reflexivity. }
  induction n as [|n IH]; intros b1 b2 H; [reflexivity|].
  cbn [facets_of]. f_equal.
  - pose proof (H 0%nat ltac:(lia)) as H0.
    change (50 * 0 + 12)%nat with 12%nat in H0.
    rewrite !F, H0. reflexivity.
  - apply IH. intros i Hi. specialize (H (S i) ltac:(lia)).
    rewrite !drop_drop.
    replace (50 + (50 * i + 12))%nat with (50 * S i + 12)%nat by lia.
    exact H.
Qed.

End WholeFacts.

Section WholeProperties.
Context {Sink : Type} {Mesh : RWStl_Reader Sink} {Std : Standard}.
Context {Indicator : Message_ProgressIndicator}.
Import IStream Standard_ReadLineBuffer.

(** X21.  Whatever the file holds and whenever a break is requested, [Read]
    returns, and every triangle it registers is made of indices that
    the sink has handed back for nodes registered earlier during the
    same call. *)
Theorem Read_registers (theFile : option (list byte)) (w : World Sink) :
  match Read theFile w with
  | Some (r, w') =>
      exists evs, trace w' = trace w ++ evs /\ triangles_registered evs
  | None => False
  end.
Proof.
  destruct theFile as [data|].
  - unfold Read.
    pose proof (Read_detect_rdbuf (length data) (open data) w) as Hr.
    destruct (Read_detect_trace (length data) (open data) w)
      as (evs0 & Ht0 & Hr0).
    destruct (Read_detect (length data) (open data) w) as [[isAscii s1] w1].
    cbn [fst snd] in Hr, Ht0.
    destruct (Read_while_registers isAscii (Z.of_nat (length data))
                (S (length data)) s1
                (Standard_ReadLineBuffer.create THE_BUFFER_SIZE) w1)
      as (r & w' & evs & E & Ht & Hev).
    { pose proof (avail_le_rdbuf s1) as Ha. rewrite Hr in Ha.
      unfold pending. simpl. simpl in Ha. lia. }
    rewrite E. exists (evs0 ++ evs).
    split; [rewrite Ht, Ht0, app_assoc; reflexivity|].
    apply triangles_registered_app; assumption.
  - cbn. exists []. rewrite app_nil_r. split; [reflexivity|].
    apply triangles_registered_nil.
Qed.

(** X22.  The normal of a facet and its two attribute bytes play no part:
    two binary blocks with the same count, the same length and the
    same vertex bytes in their records are read with the same result,
    the same calls of the sink and the same messages. *)
Theorem ReadBinary_ignores_normals (s1 s2 : istream) (w : World Sink) :
  never_breaks ->
  (84 <= length (avail s1))%nat -> length (avail s1) = length (avail s2) ->
  int32_le (drop 80 (take 84 (avail s1)))
  = int32_le (drop 80 (take 84 (avail s2))) ->
  same_vertices (Z.to_nat (int32_le (drop 80 (take 84 (avail s1)))))
    (drop 84 (avail s1)) (drop 84 (avail s2)) ->
  option_map (fun r => (fst (fst r), sink (snd r), trace (snd r)))
    (ReadBinary s1 w)
  = option_map (fun r => (fst (fst r), sink (snd r), trace (snd r)))
      (ReadBinary s2 w).
Proof.
  intros Hnb Hl Hlen Hc Hv.
  destruct (ReadBinary_spec s1 w Hnb Hl) as (s1' & w1 & E1 & S1 & T1 & _).
  destruct (ReadBinary_spec s2 w Hnb ltac:(lia)) as (s2' & w2 & E2 & S2 & T2 & _).
  rewrite <- Hc in E2, S2, T2.
  assert (HL : length (drop 84 (avail s2)) = length (drop 84 (avail s1)))
    by (rewrite !length_drop; lia).
  rewrite HL in E2, S2, T2.
  set (n := int32_le (drop 80 (take 84 (avail s1)))) in *.
  set (L := length (drop 84 (avail s1))) in *.
  assert (HD : (binary_decoded n L <= Z.to_nat n)%nat).
  { unfold binary_decoded. destruct (50 * n <=? Z.of_nat L) eqn:Ek; [lia|].
    apply Z.leb_gt in Ek.
    pose proof (Nat.div_mod_eq L 4000). lia. }
  assert (Hf : facets_of (binary_decoded n L) (drop 84 (avail s1))
               = facets_of (binary_decoded n L) (drop 84 (avail s2))).
  { apply same_vertices_facets. intros i Hi. apply Hv. lia. }
  rewrite <- Hf in S2, T2.
  rewrite E1, E2. cbn [option_map fst snd]. rewrite S1, S2, T1, T2.
  reflexivity.
Qed.

End WholeProperties.

(* ===================================================================== *)
(** * Files of one line, and bytes after the last block *)
(* ===================================================================== *)

Section TailFacts.
Context {Sink : Type} {Mesh : RWStl_Reader Sink} {Std : Standard}.
Context {Indicator : Message_ProgressIndicator}.
Import IStream Standard_ReadLineBuffer.

(** The loop of [Read] over the blocks of a binary file, and what is
    left of the loop when something that is no white space follows
    them. *)
Lemma Read_while_blocks_then (theEnd : Z) (aBuffer : Standard_ReadLineBuffer.t) :
  never_breaks ->
  forall (bs : list BinaryBlock) (fuel : nat) (s : istream) (w : World Sink)
         (c : byte) (more : list byte),
  good s = true ->
  rest s = concat (map bb_bytes bs) ++ c :: more ->
  forallb block_ok bs = true -> forallb block_follows (tl bs) = true ->
  Cstd.isspace c = false ->
  exists s' w',
    Read_while (length bs + fuel) false theEnd s aBuffer w
    = Read_while fuel false theEnd s' aBuffer w'
    /\ sink w' = sink (decode_blocks bs w)
    /\ trace w' = trace (decode_blocks bs w)
    /\ good s' = true /\ rest s' = c :: more.
Proof.
  intros Hnb. induction bs as [|b bs IH]; intros fuel s w c more Hg Hr Hok Hfo Hc.
  - exists s, w. cbn [map concat app] in Hr. cbn [length Nat.add]. auto.
  - cbn [forallb] in Hok. apply andb_prop in Hok as [Hb Hbs].
    cbn [length Nat.add Read_while]. rewrite Hg.
    cbn [map concat] in Hr. unfold bb_bytes at 1 in Hr.
    rewrite <- !app_assoc in Hr.
    destruct (ReadBinary_block s w b _ Hnb Hg Hb Hr)
      as (s1 & w1 & -> & Hsk & Htr & Hg1 & Hr1).
    cbn [negb].
    assert (Hsp : forallb Cstd.isspace (bb_space b) = true).
    { unfold block_ok in Hb. apply andb_prop in Hb as [_ Hb]. exact Hb. }
    assert (Hnext : good (ws s1) = true
                    /\ rest (ws s1) = concat (map bb_bytes bs) ++ c :: more).
    { destruct bs as [|b1 bs'].
      - cbn [map concat app] in Hr1 |- *.
        apply (ws_to_a_character s1 (bb_space b) c more Hg1 Hr1 Hsp Hc).
      - cbn [tl forallb] in Hfo. apply andb_prop in Hfo as [Hfo _].
        cbn [forallb] in Hbs. apply andb_prop in Hbs as [Hb1 _].
        unfold block_ok in Hb1. apply andb_prop in Hb1 as [Hb1 _].
        apply andb_prop in Hb1 as [Hb1 _]. apply andb_prop in Hb1 as [Hb1 _].
        apply Nat.eqb_eq in Hb1.
        unfold block_follows in Hfo. apply negb_true_iff in Hfo.
        cbn [map concat] in Hr1 |- *.
        unfold bb_bytes at 1 in Hr1. unfold bb_bytes at 1.
        destruct (bb_header b1) as [|c1 hdr]; [discriminate|].
        cbn [Cstd.deref] in Hfo.
        rewrite <- !app_assoc, <- !app_comm_cons in Hr1 |- *.
        apply (ws_to_a_character s1 (bb_space b) c1 _ Hg1 Hr1 Hsp Hfo). }
    destruct Hnext as [Hg2 Hr2].
    destruct (IH fuel (ws s1) w1 c more Hg2 Hr2 Hbs) as (s' & w' & E & Hs & Ht & H').
    { destruct bs as [|b1 [|b2 bs']]; try reflexivity.
      cbn [tl forallb] in Hfo |- *. apply andb_prop in Hfo as [_ Hfo].
      exact Hfo. }
    { exact Hc. }
    exists s', w'. split; [exact E|].
    change (decode_blocks (b :: bs) w)
      with (decode_blocks bs
              (snd (decode_facets (bb_facets b) (MergeNodeTool.create, w)))).
    destruct (decode_blocks_same bs w1 _ Hsk Htr) as [S1 T1].
    rewrite Hs, Ht. auto.
Qed.

End TailFacts.

Section TailProperties.
Context {Sink : Type} {Mesh : RWStl_Reader Sink} {Std : Standard}.
Context {Indicator : Message_ProgressIndicator}.
Import IStream Standard_ReadLineBuffer.

Lemma Read_detect_open (data : list byte) (w : World Sink) :
  Read_detect (length data) (open data) w
  = ((length data <? 134)%nat || IsAscii_scan (take 134 data), open data, w).
Proof.
  unfold Read_detect. change THE_STL_MIN_FILE_SIZE with 134%nat.
  destruct (length data <? 134)%nat eqn:E; [reflexivity|].
  apply Nat.ltb_ge in E. rewrite (IsAscii_probe data w E). reflexivity.
Qed.

Lemma open_ready (data : list byte) :
  ready (open data) (Standard_ReadLineBuffer.create THE_BUFFER_SIZE)
  /\ pending (open data) (Standard_ReadLineBuffer.create THE_BUFFER_SIZE)
     = data.
Proof.
  split; [split; [reflexivity|unfold THE_BUFFER_SIZE; simpl; lia]|].
  unfold pending. cbn [myReadBuffer create app].
  change (avail (open data)) with (drop 0 data). apply drop_0.
Qed.

(** The text of a single line with no line feed after it. *)
Lemma ReadAscii_lone_line (s : istream) (b : Standard_ReadLineBuffer.t)
    (theUntilPos : Z) (w : World Sink) (h : list byte) :
  never_breaks -> ready s b -> pending s b = h -> no_lf h = true ->
  exists s' b' w',
    ReadAscii s b theUntilPos w = Some (false, s', b', w')
    /\ fail s' = true /\ sink w' = sink w
    /\ trace w' = trace w ++ [EvSendFail msg_premature].
Proof.
  intros Hnb Hr Hp Hh. unfold ReadAscii.
  pose proof (tellg_pending s b) as Hp0. pose proof (tellg_ready s b Hr) as Hr0.
  destruct (tellg s) as [aStartPos s0]. unfold snd in *. rewrite Hp in Hp0.
  destruct (ReadLine s0 b) as [[ol s1] b1] eqn:E.
  destruct (ReadLine_spec _ _ Hr0 _ _ _ E) as (H1 & H2 & H3 & H4).
  rewrite Hp0 in H1, H2.
  assert (Hn : snd (next_line h) = []).
  { unfold next_line. destruct (split_eol h) as [[l r]|] eqn:Es; [|reflexivity].
    exfalso. clear - Es Hh. revert l r Es.
    induction h as [|c h IH]; intros l r Es; [discriminate|].
    cbn [split_eol] in Es. cbn [no_lf forallb] in Hh.
    apply andb_prop in Hh as [Hc Hh]. apply negb_true_iff in Hc.
    rewrite Hc in Es.
    destruct (split_eol h) as [[l' r']|]; [|discriminate].
    eapply IH; [exact Hh|reflexivity]. }
  rewrite Hn in H2.
  destruct ol as [l|].
  - destruct (ReadAscii_while_eof (length (pending s1 b1))
                (mk_AsciiLoop s1 b1 MergeNodeTool.create w
                   (aStartPos + aStepB) 1) Hnb (conj H3 H2))
      as (s2 & b2 & pp & -> & Hf).
    exists s2, b2. eexists. cbn [al_stream al_buffer al_world].
    split; [reflexivity|]. split; [exact Hf|]. split; reflexivity.
  - exists s1, b1, (SendFail w msg_premature).
    split; [reflexivity|]. split; [exact (H4 eq_refl)|]. split; reflexivity.
Qed.

(** X24.  A file of one line at most (an empty file, or a single line
    with or without its line feed) that the detection takes as a text
    holds no solid: [Read] hands nothing to the sink, sends "Error:
    premature end of file" and returns false. *)
Theorem Read_single_line (h data : list byte) (w : World Sink) :
  never_breaks -> no_lf h = true ->
  data = h \/ data = h ++ [Cstd.LF] ->
  (length data <? 134)%nat || IsAscii_scan (take 134 data) = true ->
  exists w',
    Read (Some data) w = Some (false, w')
    /\ sink w' = sink w
    /\ trace w' = trace w ++ [EvSendFail msg_premature].
Proof.
  intros Hnb Hh Hd Hdet. unfold Read.
  rewrite Read_detect_open, Hdet.
  cbn [Read_while]. change (good (open data)) with true. cbv iota.
  destruct (open_ready data) as [Hr Hp].
  destruct Hd as [->| ->].
  - destruct (ReadAscii_lone_line (open h)
                (Standard_ReadLineBuffer.create THE_BUFFER_SIZE)
                (Z.of_nat (length h)) w h Hnb Hr Hp Hh)
      as (s' & b' & w' & -> & Hf & Hs & Ht).
    cbn [negb]. rewrite Hf. exists w'. auto.
  - destruct (ReadAscii_truncated (open (h ++ [Cstd.LF]))
                (Standard_ReadLineBuffer.create THE_BUFFER_SIZE)
                (Z.of_nat (length (h ++ [Cstd.LF]))) w h [] Hnb Hr Hh eq_refl)
      as (s' & b' & w' & -> & Hf & Hs & Ht).
    { rewrite Hp. unfold unlines. cbn [map concat app].
      rewrite app_nil_r. reflexivity. }
    cbn [negb]. rewrite Hf. exists w'. auto.
Qed.

(** X25.  A binary file whose blocks are followed by fewer than 84
    bytes that do not start with white space: the blocks are decoded,
    then [Read] takes what follows as the header of a block, sends
    "Error: Corrupted binary STL file" and returns false. *)
Theorem Read_binary_trailing_bytes (bs : list BinaryBlock) (c : byte)
    (more : list byte) (w : World Sink) :
  never_breaks ->
  forallb block_ok bs = true -> forallb block_follows (tl bs) = true ->
  Cstd.isspace c = false -> (length (c :: more) < 84)%nat ->
  (134 <= length (concat (map bb_bytes bs) ++ c :: more))%nat ->
  IsAscii_scan (take 134 (concat (map bb_bytes bs) ++ c :: more)) = false ->
  exists w',
    Read (Some (concat (map bb_bytes bs) ++ c :: more)) w = Some (false, w')
    /\ sink w' = sink (decode_blocks bs w)
    /\ trace w' = trace (decode_blocks bs w) ++ [EvSendFail msg_corrupted].
Proof.
  intros Hnb Hok Hfo Hc Hm Hl Hs.
  set (data := concat (map bb_bytes bs) ++ c :: more) in *.
  unfold Read. rewrite Read_detect_open, Hs.
  replace (length data <? 134)%nat with false
    by (symmetry; apply Nat.ltb_ge; exact Hl).
  cbn [orb].
  pose proof (block_ok_length bs Hok) as Hbl.
  assert (Hfuel : S (length data)
                  = (length bs + S (length data - length bs))%nat).
  { unfold data. rewrite length_app. lia. }
  rewrite Hfuel.
  destruct (Read_while_blocks_then (Z.of_nat (length data))
              (Standard_ReadLineBuffer.create THE_BUFFER_SIZE) Hnb bs
              (S (length data - length bs)) (open data) w c more)
    as (s' & w' & -> & Hsk & Htr & Hg & Hr); try assumption.
  { reflexivity. }
  { unfold rest. cbn [open gpos rdbuf]. apply drop_0. }
  cbn [Read_while]. rewrite Hg.
  assert (Ha : (length (avail s') < THE_STL_HEADER_SIZE)%nat).
  { rewrite avail_good, Hr by exact Hg. exact Hm. }
  unfold ReadBinary.
  destruct (read_lacking s' THE_STL_HEADER_SIZE Ha) as (s2 & -> & Hf & _).
  replace (length (avail s') =? THE_STL_HEADER_SIZE)%nat with false
    by (symmetry; apply Nat.eqb_neq; lia).
  cbn [negb]. rewrite Hf. exists (SendFail w' msg_corrupted).
  split; [reflexivity|]. unfold SendFail. cbn [sink trace].
  rewrite Hsk, Htr. auto.
Qed.

End TailProperties.

(* ===================================================================== *)
(** * The further properties on concrete inputs *)
(* ===================================================================== *)

Section Instances.
Import Example Sample IStream.

(** X1, on a facet line with blanks and capitals. *)
Lemma str_starts_with_iff_witness :
  (5 <= length kw_facet)%nat
  /\ (forall c, In c (take 5 kw_facet) -> Cstd.code c <> 0)
  /\ (str_starts_with keyword_line kw_facet 5 = true
      <-> map Cstd.tolower (take 5 (Cstd.skip_while Cstd.isspace keyword_line))
          = map Cstd.tolower (take 5 kw_facet)).
Proof.
  assert (H1 : (5 <= length kw_facet)%nat) by (vm_compute; lia).
  assert (H2 : forall c, In c (take 5 kw_facet) -> Cstd.code c <> 0).
  { intros c Hc. vm_compute in Hc.
    repeat (destruct Hc as [<-|Hc]; [vm_compute; discriminate|]).
    destruct Hc. }
  split; [exact H1|]. split; [exact H2|].
  exact (str_starts_with_iff keyword_line kw_facet 5 H1 H2).
Defined.

(** X2, on a vertex line and the numbers of it alone. *)
Lemma ReadVertex_skips_any_word_witness :
  forallb (fun c => Cstd.isspace c || Cstd.isalpha c)
    (list_byte_of_string "  vertex ") = true
  /\ @ReadVertex platform
       (list_byte_of_string "  vertex " ++ list_byte_of_string "1 2 3")
     = @ReadVertex platform (list_byte_of_string "1 2 3").
Proof.
  assert (H : forallb (fun c => Cstd.isspace c || Cstd.isalpha c)
                (list_byte_of_string "  vertex ") = true)
    by (vm_compute; reflexivity).
  split; [exact H|].
  exact (@ReadVertex_skips_any_word platform
           (list_byte_of_string "  vertex ") (list_byte_of_string "1 2 3") H).
Defined.

(** X5, on the point (1, 2, 3) and an empty map. *)
Lemma AddNode_twice_witness :
  MergeNodeTool.IsEqual (mk_XYZ 1 2 3) (mk_XYZ 1 2 3) = true
  /\ (let r := @MergeNodeTool.AddNode Mesh builder platform
                 MergeNodeTool.create w0 1 2 3 in
      @MergeNodeTool.AddNode Mesh builder platform (snd (fst r)) w0 1 2 3
      = (fst (fst r), snd (fst r), w0)).
Proof.
  assert (H : MergeNodeTool.IsEqual (mk_XYZ 1 2 3) (mk_XYZ 1 2 3) = true)
    by (vm_compute; reflexivity).
  split; [exact H|].
  exact (@AddNode_twice Mesh builder platform MergeNodeTool.create w0 w0
           1%float 2%float 3%float H).
Defined.

(** X7, on a stream that stands 10 characters into a file. *)
Lemma IsAscii_restores_the_stream_witness :
  good (set_gpos (open shifted_probe) 10) = true
  /\ (134 <= length (rest (set_gpos (open shifted_probe) 10)))%nat
  /\ IsAscii (set_gpos (open shifted_probe) 10) w0
     = (IsAscii_scan (take 134 (rest (set_gpos (open shifted_probe) 10))),
        set_gpos (open shifted_probe) 10, w0).
Proof.
  assert (H1 : good (set_gpos (open shifted_probe) 10) = true) by reflexivity.
  assert (H2 : (134 <= length (rest (set_gpos (open shifted_probe) 10)))%nat)
    by (vm_compute; lia).
  split; [exact H1|]. split; [exact H2|].
  exact (IsAscii_restores_the_stream (set_gpos (open shifted_probe) 10) w0
           H1 H2).
Defined.

(** X8, on a file of 100 letters. *)
Lemma IsAscii_short_stream_witness :
  (length (avail (open (repeat "a"%byte 100))) < 134)%nat
  /\ (exists s',
        IsAscii (open (repeat "a"%byte 100)) w0
        = (true, s', SendFail w0 "Error: Cannot read file")
        /\ fail s' = true /\ avail s' = []).
Proof.
  assert (H : (length (avail (open (repeat "a"%byte 100))) < 134)%nat)
    by (vm_compute; lia).
  split; [exact H|].
  exact (IsAscii_short_stream (open (repeat "a"%byte 100)) w0 H).
Defined.

(** X9, on a file of 50 bytes. *)
Lemma ReadBinary_short_header_witness :
  (length (avail (open (repeat x00 50))) < 84)%nat
  /\ (exists s',
        @ReadBinary Mesh builder platform no_break (open (repeat x00 50)) w0
        = Some (false, s', SendFail w0 msg_corrupted)
        /\ fail s' = true /\ avail s' = []).
Proof.
  assert (H : (length (avail (open (repeat x00 50))) < 84)%nat)
    by (vm_compute; lia).
  split; [exact H|].
  exact (@ReadBinary_short_header Mesh builder platform no_break
           (open (repeat x00 50)) w0 H).
Defined.

(** X10, on a block of two facets and a break requested at once. *)
Lemma ReadBinary_cancelled_witness :
  (84 <= length (avail (open two_near_facets)))%nat
  /\ @UserBreak break_at_once (polls w0) = true
  /\ @UserBreak break_at_once (S (polls w0)) = true
  /\ (exists s' p,
        @ReadBinary Mesh builder platform break_at_once
          (open two_near_facets) w0
        = Some (false, s', with_polls p w0)
        /\ good s' = true /\ avail s' = drop 84 (avail (open two_near_facets))).
Proof.
  assert (H : (84 <= length (avail (open two_near_facets)))%nat)
    by (vm_compute; lia).
  split; [exact H|]. split; [reflexivity|]. split; [reflexivity|].
  exact (@ReadBinary_cancelled Mesh builder platform break_at_once
           (open two_near_facets) w0 H eq_refl eq_refl).
Defined.

(** X11, on the text of a facet and a break requested at once. *)
Lemma ReadAscii_cancelled_witness :
  ready (open truncated_text) (Standard_ReadLineBuffer.create 1024)
  /\ Standard_ReadLineBuffer.pending (open truncated_text)
       (Standard_ReadLineBuffer.create 1024)
     = solid_line ++ Cstd.LF :: unlines (facet_lines unit_facet)
  /\ no_lf solid_line = true
  /\ @UserBreak break_at_once (polls w0) = true
  /\ @UserBreak break_at_once (S (polls w0)) = true
  /\ (exists s' b',
        @ReadAscii Mesh builder platform break_at_once (open truncated_text)
          (Standard_ReadLineBuffer.create 1024) 0 w0
        = Some (false, s', b', with_polls (S (S (polls w0))) w0)
        /\ Standard_ReadLineBuffer.pending s' b'
           = unlines (facet_lines unit_facet)).
Proof.
  assert (Hr : ready (open truncated_text)
                 (Standard_ReadLineBuffer.create 1024))
    by (split; [reflexivity|simpl; lia]).
  assert (Hp : Standard_ReadLineBuffer.pending (open truncated_text)
                 (Standard_ReadLineBuffer.create 1024)
               = solid_line ++ Cstd.LF :: unlines (facet_lines unit_facet))
    by (vm_compute; reflexivity).
  assert (Hh : no_lf solid_line = true) by (vm_compute; reflexivity).
  split; [exact Hr|]. split; [exact Hp|]. split; [exact Hh|].
  split; [reflexivity|]. split; [reflexivity|].
  exact (@ReadAscii_cancelled Mesh builder platform break_at_once
           (open truncated_text) (Standard_ReadLineBuffer.create 1024) 0 w0
           solid_line (unlines (facet_lines unit_facet)) Hr Hp Hh
           eq_refl eq_refl).
Defined.

(** X12, on a file of two facets and a break requested at once. *)
Lemma Read_cancelled_binary_witness :
  (134 <= length two_near_facets)%nat
  /\ IsAscii_scan (take 134 two_near_facets) = false
  /\ @UserBreak break_at_once (polls w0) = true
  /\ @UserBreak break_at_once (S (polls w0)) = true
  /\ (exists p,
        @Read Mesh builder platform break_at_once (Some two_near_facets) w0
        = Some (true, with_polls p w0)).
Proof.
  assert (H1 : (134 <= length two_near_facets)%nat) by (vm_compute; lia).
  assert (H2 : IsAscii_scan (take 134 two_near_facets) = false)
    by (vm_compute; reflexivity).
  split; [exact H1|]. split; [exact H2|].
  split; [reflexivity|]. split; [reflexivity|].
  exact (@Read_cancelled_binary Mesh builder platform break_at_once
           two_near_facets w0 H1 H2 eq_refl eq_refl).
Defined.

(** X16, on an empty file. *)
Lemma ReadAscii_nothing_to_read_witness :
  ready (open []) (Standard_ReadLineBuffer.create 1024)
  /\ Standard_ReadLineBuffer.pending (open [])
       (Standard_ReadLineBuffer.create 1024) = []
  /\ (exists s' b',
        @ReadAscii Mesh builder platform no_break (open [])
          (Standard_ReadLineBuffer.create 1024) 0 w0
        = Some (false, s', b', SendFail w0 msg_premature)
        /\ fail s' = true).
Proof.
  assert (Hr : ready (open []) (Standard_ReadLineBuffer.create 1024))
    by (split; [reflexivity|simpl; lia]).
  split; [exact Hr|]. split; [reflexivity|].
  exact (@ReadAscii_nothing_to_read Mesh builder platform no_break (open [])
           (Standard_ReadLineBuffer.create 1024) 0 w0 Hr eq_refl).
Defined.

(** X17, on the text of a solid of one facet. *)
Lemma ReadAscii_solid_witness :
  @never_breaks no_break
  /\ ready (open solid_text) (Standard_ReadLineBuffer.create 1024)
  /\ no_lf solid_line = true
  /\ forallb (@facet_ok platform) [unit_facet] = true
  /\ next_line (text ["endsolid x"]%string)
     = (Some (list_byte_of_string "endsolid x"), [])
  /\ str_starts_with (list_byte_of_string "endsolid x") kw_endsolid 8 = true
  /\ Standard_ReadLineBuffer.pending (open solid_text)
       (Standard_ReadLineBuffer.create 1024)
     = unlines (solid_line :: concat (map facet_lines [unit_facet]))
       ++ text ["endsolid x"]%string
  /\ (let X := @decode_facets Mesh builder platform
                 (map (@facet_points platform) [unit_facet])
                 (MergeNodeTool.create, w0) in
      exists s' b' w',
        @ReadAscii Mesh builder platform no_break (open solid_text)
          (Standard_ReadLineBuffer.create 1024) 0 w0
        = Some (true, s', b', w')
        /\ sink w' = sink (snd X)
        /\ trace w' = trace (snd X)
        /\ count_events is_SendFail (trace w')
           = count_events is_SendFail (trace w0)
        /\ ready s' b' /\ Standard_ReadLineBuffer.pending s' b' = []).
Proof.
  assert (Hr : ready (open solid_text) (Standard_ReadLineBuffer.create 1024))
    by (split; [reflexivity|simpl; lia]).
  assert (H1 : no_lf solid_line = true) by (vm_compute; reflexivity).
  assert (H2 : forallb (@facet_ok platform) [unit_facet] = true)
    by (vm_compute; reflexivity).
  assert (H3 : next_line (text ["endsolid x"]%string)
               = (Some (list_byte_of_string "endsolid x"), []))
    by (vm_compute; reflexivity).
  assert (H4 : str_starts_with (list_byte_of_string "endsolid x")
                 kw_endsolid 8 = true) by (vm_compute; reflexivity).
  assert (H5 : Standard_ReadLineBuffer.pending (open solid_text)
                 (Standard_ReadLineBuffer.create 1024)
               = unlines (solid_line :: concat (map facet_lines [unit_facet]))
                 ++ text ["endsolid x"]%string)
    by (vm_compute; reflexivity).
  split; [exact never|]. split; [exact Hr|]. split; [exact H1|].
  split; [exact H2|]. split; [exact H3|]. split; [exact H4|].
  split; [exact H5|].
  exact (@ReadAscii_solid Mesh builder platform no_break (open solid_text)
           (Standard_ReadLineBuffer.create 1024) 0 w0 solid_line [unit_facet]
           (text ["endsolid x"]%string) (list_byte_of_string "endsolid x") []
           never Hr H1 H2 H3 H4 H5).
Defined.


(** X19, on a file of two blocks of one facet. *)
Lemma Read_binary_blocks_witness :
  @never_breaks no_break
  /\ forallb block_ok [unit_block; unit_block] = true
  /\ forallb block_follows (tl [unit_block; unit_block]) = true
  /\ (134 <= length (concat (map bb_bytes [unit_block; unit_block])))%nat
  /\ IsAscii_scan (take 134 (concat (map bb_bytes [unit_block; unit_block])))
     = false
  /\ (exists w',
        @Read Mesh builder platform no_break
          (Some (concat (map bb_bytes [unit_block; unit_block]))) w0
        = Some (true, w')
        /\ sink w'
           = sink (@decode_blocks Mesh builder platform
                     [unit_block; unit_block] w0)
        /\ trace w'
           = trace (@decode_blocks Mesh builder platform
                      [unit_block; unit_block] w0)).
Proof.
  assert (H1 : forallb block_ok [unit_block; unit_block] = true)
    by (vm_compute; reflexivity).
  assert (H2 : forallb block_follows (tl [unit_block; unit_block]) = true)
    by (vm_compute; reflexivity).
  assert (H3 : (134 <= length (concat (map bb_bytes [unit_block; unit_block])))%nat)
    by (vm_compute; lia).
  assert (H4 : IsAscii_scan
                 (take 134 (concat (map bb_bytes [unit_block; unit_block])))
               = false) by (vm_compute; reflexivity).
  split; [exact never|]. split; [exact H1|]. split; [exact H2|].
  split; [exact H3|]. split; [exact H4|].
  exact (@Read_binary_blocks Mesh builder platform no_break
           [unit_block; unit_block] w0 never H1 H2 H3 H4).
Defined.

(** X20, on a file that announces two facets and holds one. *)
Lemma Read_binary_truncated_witness :
  @never_breaks no_break
  /\ (134 <= length one_facet_of_two)%nat
  /\ IsAscii_scan (take 134 one_facet_of_two) = false
  /\ Z.of_nat (length (drop 84 one_facet_of_two))
     < 50 * int32_le (drop 80 (take 84 one_facet_of_two))
  /\ (let D := (80 * (length (drop 84 one_facet_of_two) / 4000))%nat in
      let X := @decode_facets Mesh builder platform
                 (facets_of D (drop 84 one_facet_of_two))
                 (MergeNodeTool.create, w0) in
      exists w',
        @Read Mesh builder platform no_break (Some one_facet_of_two) w0
        = Some (false, w')
        /\ sink w' = sink (snd X)
        /\ trace w' = trace (snd X) ++ [EvSendFail msg_read_failed]).
Proof.
  assert (H1 : (134 <= length one_facet_of_two)%nat) by (vm_compute; lia).
  assert (H2 : IsAscii_scan (take 134 one_facet_of_two) = false)
    by (vm_compute; reflexivity).
  assert (H3 : Z.of_nat (length (drop 84 one_facet_of_two))
               < 50 * int32_le (drop 80 (take 84 one_facet_of_two)))
    by (vm_compute; reflexivity).
  split; [exact never|]. split; [exact H1|]. split; [exact H2|].
  split; [exact H3|].
  exact (@Read_binary_truncated Mesh builder platform no_break
           one_facet_of_two w0 never H1 H2 H3).
Defined.

(** X22, on two blocks of one facet that differ by the normal and the
    attribute bytes. *)
Lemma ReadBinary_ignores_normals_witness :
  let s1 := open (binary_block 1 [facet_record pt_O pt_X pt_Y]) in
  let s2 := open (binary_block 1 [other_record]) in
  @never_breaks no_break
  /\ (84 <= length (avail s1))%nat
  /\ length (avail s1) = length (avail s2)
  /\ int32_le (drop 80 (take 84 (avail s1)))
     = int32_le (drop 80 (take 84 (avail s2)))
  /\ same_vertices (Z.to_nat (int32_le (drop 80 (take 84 (avail s1)))))
       (drop 84 (avail s1)) (drop 84 (avail s2))
  /\ option_map (fun r => (fst (fst r), sink (snd r), trace (snd r)))
       (@ReadBinary Mesh builder platform no_break s1 w0)
     = option_map (fun r => (fst (fst r), sink (snd r), trace (snd r)))
         (@ReadBinary Mesh builder platform no_break s2 w0).
Proof.
  intros s1 s2.
  assert (H1 : (84 <= length (avail s1))%nat) by (vm_compute; lia).
  assert (H2 : length (avail s1) = length (avail s2))
    by (vm_compute; reflexivity).
  assert (H3 : int32_le (drop 80 (take 84 (avail s1)))
               = int32_le (drop 80 (take 84 (avail s2))))
    by (vm_compute; reflexivity).
  assert (H4 : same_vertices
                 (Z.to_nat (int32_le (drop 80 (take 84 (avail s1)))))
                 (drop 84 (avail s1)) (drop 84 (avail s2))).
  { intros i Hi. assert (Hn : Z.to_nat (int32_le (drop 80 (take 84 (avail s1))))
                              = 1%nat) by (vm_compute; reflexivity).
    rewrite Hn in Hi. assert (i = 0%nat) as -> by lia.
    vm_compute. reflexivity. }
  split; [exact never|]. split; [exact H1|]. split; [exact H2|].
  split; [exact H3|]. split; [exact H4|].
  exact (@ReadBinary_ignores_normals Mesh builder platform no_break s1 s2 w0
           never H1 H2 H3 H4).
Defined.

(** X24, on a file that holds a header line with no line feed. *)
Lemma Read_single_line_witness :
  @never_breaks no_break
  /\ no_lf solid_line = true
  /\ (solid_line = solid_line \/ solid_line = solid_line ++ [Cstd.LF])
  /\ (length solid_line <? 134)%nat || IsAscii_scan (take 134 solid_line)
     = true
  /\ (exists w',
        @Read Mesh builder platform no_break (Some solid_line) w0
        = Some (false, w')
        /\ sink w' = sink w0
        /\ trace w' = trace w0 ++ [EvSendFail msg_premature]).
Proof.
  assert (H1 : no_lf solid_line = true) by (vm_compute; reflexivity).
  assert (H2 : solid_line = solid_line \/ solid_line = solid_line ++ [Cstd.LF])
    by (left; reflexivity).
  assert (H3 : (length solid_line <? 134)%nat
               || IsAscii_scan (take 134 solid_line) = true)
    by (vm_compute; reflexivity).
  split; [exact never|]. split; [exact H1|]. split; [exact H2|].
  split; [exact H3|].
  exact (@Read_single_line Mesh builder platform no_break solid_line
           solid_line w0 never H1 H2 H3).
Defined.

(** X25, on a block of one facet followed by a letter. *)
Lemma Read_binary_trailing_bytes_witness :
  @never_breaks no_break
  /\ forallb block_ok [unit_block] = true
  /\ forallb block_follows (tl [unit_block]) = true
  /\ Cstd.isspace "x"%byte = false
  /\ (length ["x"%byte] < 84)%nat
  /\ (134 <= length (concat (map bb_bytes [unit_block]) ++ ["x"%byte]))%nat
  /\ IsAscii_scan (take 134 (concat (map bb_bytes [unit_block]) ++ ["x"%byte]))
     = false
  /\ (exists w',
        @Read Mesh builder platform no_break
          (Some (concat (map bb_bytes [unit_block]) ++ ["x"%byte])) w0
        = Some (false, w')
        /\ sink w'
           = sink (@decode_blocks Mesh builder platform [unit_block] w0)
        /\ trace w'
           = trace (@decode_blocks Mesh builder platform [unit_block] w0)
             ++ [EvSendFail msg_corrupted]).
Proof.
  assert (H1 : forallb block_ok [unit_block] = true)
    by (vm_compute; reflexivity).
  assert (H2 : forallb block_follows (tl [unit_block]) = true) by reflexivity.
  assert (H3 : Cstd.isspace "x"%byte = false) by (vm_compute; reflexivity).
  assert (H4 : (length ["x"%byte] < 84)%nat) by (simpl; lia).
  assert (H5 : (134 <= length (concat (map bb_bytes [unit_block])
                               ++ ["x"%byte]))%nat) by (vm_compute; lia).
  assert (H6 : IsAscii_scan
                 (take 134 (concat (map bb_bytes [unit_block]) ++ ["x"%byte]))
               = false) by (vm_compute; reflexivity).
  split; [exact never|]. split; [exact H1|]. split; [exact H2|].
  split; [exact H3|]. split; [exact H4|]. split; [exact H5|].
  split; [exact H6|].
  exact (@Read_binary_trailing_bytes Mesh builder platform no_break
           [unit_block] "x"%byte [] w0 never H1 H2 H3 H4 H5 H6).
Defined.

End Instances.
